(** * LLM recommender: a shallow embedding of the orchestration code

  The repository is a set of Databricks notebooks.  The logic that is its
  own lives in three places:

  - [02_Create_General_Recommendations.py]: [get_user_prompt];
  - [03_Assemble_Recommender.py]: the notebook's [_get_prompt],
    [get_general_products], [get_specific_products], and the [app.py]
    listing with its own copies of them plus [LLM4rec] and the FastAPI
    handler [get_recommendations];
  - [01_Prepare_Product_Search_Data.py]: the two readiness polling loops,
    and the cells that pick the model version, deploy the serving endpoint
    and create the vector search endpoint and index.

  Python values are embedded as an inductive type, exceptions as the
  [Raise] branch of a result type, and the two external services (the LLM
  gateway and the vector index) as oracles whose invocations are logged in
  a trace threaded through a small state-and-error monad.

  Python [str] is embedded as [string]: the sequence of bytes of its UTF-8
  encoding.  Every index the code computes is the position of an ASCII
  character, so a prefix taken at a byte offset is the same text as the
  prefix Python takes at the code point offset. *)

From Stdlib Require Import String Ascii List ZArith Lia Bool Arith.
From Stdlib Require Import DecimalString.
Import ListNotations.

Local Open Scope string_scope.
#[local] Set Warnings "-register-all".

(** ** Python values, exceptions and the builtins the code uses *)

Module Py.

(** The exceptions the modelled code can raise, each with what [str(e)]
    needs.  [JSONDecodeError] is a subclass of [ValueError] in Python. *)
Inductive exn : Type :=
| IndexError (msg : string)
| KeyError (key_repr : string)
| TypeError (msg : string)
| AttributeError (msg : string)
| ValueError (msg : string)
| JSONDecodeError (msg : string) (lineno colno pos : nat)
| RecursionError (msg : string)
| RequestException (msg : string)
| Exception (msg : string).

Inductive result (A : Type) : Type :=
| Ok (a : A)
| Raise (e : exn).
Arguments Ok {A} a.
Arguments Raise {A} e.

Definition rbind {A B} (r : result A) (k : A -> result B) : result B :=
  match r with
  | Ok a => k a
  | Raise e => Raise e
  end.

(** JSON-shaped Python values.  A [float] is kept as the literal it was
    read from; a [dict] keeps insertion order and has [str] keys, which is
    all JSON can produce. *)
Inductive pyval : Type :=
| PyNone
| PyBool (b : bool)
| PyInt (z : Z)
| PyFloat (literal : string)
| PyStr (s : string)
| PyList (l : list pyval)
| PyDict (d : list (string * pyval)).

(** *** Characters *)

Definition dquote : ascii := "034"%char.
Definition squote : ascii := "039"%char.
Definition backslash : ascii := "092"%char.
Definition rbrace : ascii := "125"%char.
Definition newline : ascii := "010"%char.

Definition chr (c : ascii) : string := String c EmptyString.

(** Writes a text that has double quotes with single quotes in their
    place: [dq] turns every single quote into a double quote. *)
Fixpoint dq (s : string) : string :=
  match s with
  | EmptyString => EmptyString
  | String c s' => String (if Ascii.eqb c squote then dquote else c) (dq s')
  end.

Definition string_of_nat (n : nat) : string :=
  NilEmpty.string_of_uint (Nat.to_uint n).

Definition string_of_Z (z : Z) : string :=
  NilEmpty.string_of_int (Z.to_int z).

(** *** [str] methods *)

Fixpoint contains_char (c : ascii) (s : string) : bool :=
  match s with
  | EmptyString => false
  | String a s' => Ascii.eqb a c || contains_char c s'
  end.

(** [s.startswith(p)] *)
Fixpoint starts_with (p s : string) : bool :=
  match p, s with
  | EmptyString, _ => true
  | String a p', String b s' => Ascii.eqb a b && starts_with p' s'
  | String _ _, EmptyString => false
  end.

(** [sub in s] *)
Fixpoint contains (sub s : string) : bool :=
  starts_with sub s
  || match s with
     | EmptyString => false
     | String _ s' => contains sub s'
     end.

(** [s.endswith(c)] for a one-character [c]. *)
Fixpoint ends_with (c : ascii) (s : string) : bool :=
  match s with
  | EmptyString => false
  | String a EmptyString => Ascii.eqb a c
  | String _ s' => ends_with c s'
  end.

(** [s.rfind(c)] for a one-character [c]: the highest index holding [c]. *)
Fixpoint rfind (c : ascii) (s : string) : option nat :=
  match s with
  | EmptyString => None
  | String a s' =>
      match rfind c s' with
      | Some i => Some (S i)
      | None => if Ascii.eqb a c then Some 0 else None
      end
  end.

(** [s.rindex(c)]: as [rfind], raising [ValueError] when [c] is absent. *)
Definition rindex (c : ascii) (s : string) : result nat :=
  match rfind c s with
  | Some i => Ok i
  | None => Raise (ValueError "substring not found")
  end.

(** [s[:n]] for [n >= 0]. *)
Fixpoint slice_to (n : nat) (s : string) : string :=
  match n, s with
  | S n', String a s' => String a (slice_to n' s')
  | _, _ => EmptyString
  end.

(** [sep.join(items)]. *)
Definition join (sep : string) (items : list string) : string :=
  String.concat sep items.

(** *** Subscripts *)

Definition type_name (v : pyval) : string :=
  match v with
  | PyNone => "NoneType"
  | PyBool _ => "bool"
  | PyInt _ => "int"
  | PyFloat _ => "float"
  | PyStr _ => "str"
  | PyList _ => "list"
  | PyDict _ => "dict"
  end.

Definition not_subscriptable {A} (v : pyval) : result A :=
  Raise (TypeError (chr squote ++ type_name v ++ chr squote
                    ++ " object is not subscriptable")).

Fixpoint dict_get (d : list (string * pyval)) (k : string) : option pyval :=
  match d with
  | [] => None
  | (k', v) :: d' => if String.eqb k' k then Some v else dict_get d' k
  end.

(** [d[k] = v]: replaces in place, or appends a new key at the end. *)
Fixpoint dict_set (d : list (string * pyval)) (k : string) (v : pyval)
  : list (string * pyval) :=
  match d with
  | [] => [(k, v)]
  | (k', v') :: d' =>
      if String.eqb k' k then (k', v) :: d' else (k', v') :: dict_set d' k v
  end.

(** [dict(pairs)]. *)
Definition dict_of_pairs (pairs : list (string * pyval))
  : list (string * pyval) :=
  fold_left (fun d kv => dict_set d (fst kv) (snd kv)) pairs [].

(** [l[i]] on a Python sequence of length [length l], for any integer [i]:
    a negative [i] counts from the end. *)
Definition seq_index {A} (l : list A) (i : Z) : option A :=
  let n := Z.of_nat (List.length l) in
  let j := if (i <? 0)%Z then (i + n)%Z else i in
  if ((0 <=? j) && (j <? n))%Z then nth_error l (Z.to_nat j) else None.

(** [repr(k)] for a [str]: Python quotes with ['] unless the text has a
    ['] and no double quote, escapes the backslash, the chosen quote, tab,
    newline and carriage return, and writes the other ASCII control
    characters as [\xNN].  Bytes above 127 belong to encoded non-ASCII code
    points, taken as printable and left as they are. *)
Definition hex_digit (n : nat) : ascii :=
  ascii_of_nat (if (n <? 10)%nat then 48 + n else 87 + n).

Definition repr_char (quote c : ascii) : string :=
  let n := nat_of_ascii c in
  if Ascii.eqb c backslash then String backslash (chr backslash)
  else if Ascii.eqb c quote then String backslash (chr quote)
  else if (n =? 9)%nat then String backslash "t"
  else if (n =? 10)%nat then String backslash "n"
  else if (n =? 13)%nat then String backslash "r"
  else if ((n <? 32) || (n =? 127))%nat
       then String backslash
              (String "x" (String (hex_digit (n / 16)) (chr (hex_digit (n mod 16)))))
  else chr c.

Fixpoint repr_chars (quote : ascii) (s : string) : string :=
  match s with
  | EmptyString => EmptyString
  | String c s' => repr_char quote c ++ repr_chars quote s'
  end.

Definition repr_str (s : string) : string :=
  let quote :=
    if contains_char squote s && negb (contains_char dquote s)
    then dquote else squote in
  String quote (repr_chars quote s ++ chr quote).

(** [repr(v)].  Lists and dicts separate with [", "] and [": "]; a float
    prints as the literal it was read from. *)
Fixpoint repr (v : pyval) : string :=
  match v with
  | PyNone => "None"
  | PyBool true => "True"
  | PyBool false => "False"
  | PyInt z => string_of_Z z
  | PyFloat lit => lit
  | PyStr s => repr_str s
  | PyList l =>
      "[" ++ join ", " ((fix go (l : list pyval) : list string :=
                           match l with
                           | [] => []
                           | x :: l' => repr x :: go l'
                           end) l) ++ "]"
  | PyDict d =>
      "{" ++ join ", " ((fix go (d : list (string * pyval)) : list string :=
                           match d with
                           | [] => []
                           | (k, x) :: d' =>
                               (repr_str k ++ ": " ++ repr x) :: go d'
                           end) d) ++ "}"
  end.

(** [str(v)]: a [str] is its own text, anything else prints as [repr]. *)
Definition str (v : pyval) : string :=
  match v with
  | PyStr s => s
  | _ => repr v
  end.

(** [v[k]] with a [str] subscript. *)
Definition getitem_str (v : pyval) (k : string) : result pyval :=
  match v with
  | PyDict d =>
      match dict_get d k with
      | Some x => Ok x
      | None => Raise (KeyError (repr_str k))
      end
  | PyList _ =>
      Raise (TypeError "list indices must be integers or slices, not str")
  | PyStr _ => Raise (TypeError "string indices must be integers, not 'str'")
  | _ => not_subscriptable v
  end.

(** [v[i]] with an [int] subscript. *)
Definition getitem_int (v : pyval) (i : Z) : result pyval :=
  match v with
  | PyList l =>
      match seq_index l i with
      | Some x => Ok x
      | None => Raise (IndexError "list index out of range")
      end
  | PyStr s =>
      match seq_index (list_ascii_of_string s) i with
      | Some c => Ok (PyStr (chr c))
      | None => Raise (IndexError "string index out of range")
      end
  | PyDict _ => Raise (KeyError (string_of_Z i))
  | _ => not_subscriptable v
  end.

(** What [for item in v] iterates over. *)
Definition iter (v : pyval) : result (list pyval) :=
  match v with
  | PyList l => Ok l
  | PyStr s => Ok (map (fun c => PyStr (chr c)) (list_ascii_of_string s))
  | PyDict d => Ok (map (fun kv => PyStr (fst kv)) d)
  | _ => Raise (TypeError (chr squote ++ type_name v ++ chr squote
                           ++ " object is not iterable"))
  end.

(** [str(e)] for an exception. *)
Definition str_exn (e : exn) : string :=
  match e with
  | IndexError m | TypeError m | AttributeError m | ValueError m
  | RecursionError m | RequestException m | Exception m => m
  | KeyError k => k
  | JSONDecodeError m l c p =>
      m ++ ": line " ++ string_of_nat l ++ " column " ++ string_of_nat c
        ++ " (char " ++ string_of_nat p ++ ")"
  end.

End Py.

(** ** [json.loads]

    A model of the standard library's decoder ([json.decoder] and
    [json.scanner]) on the byte text: the grammar it accepts, the values it
    builds and the message and position of the error it raises, with the
    two limits of the interpreter that the decoder meets: the recursion
    limit, on entering an object or an array, and the number of digits [int]
    converts.  The parser works on the text still to read; a position is
    the length of the document minus the length of that rest. *)

Module Json.
Import Py.

(** An internal failure: a syntax error, with its message and the length of
    the rest at the place the error points to; the fuel of the model used
    up; the interpreter refusing one more recursive call, on entering an
    object or an array; [int] refusing a literal for its number of
    digits. *)
Inductive failure : Type :=
| Fail (msg : string) (rest_len : nat)
| TooDeep
| Recursion (what : string)
| Digits (n : nat).

Definition parse (A : Type) : Type := (A * string) + failure.

Definition is_ws (c : ascii) : bool :=
  let n := nat_of_ascii c in
  ((n =? 32) || (n =? 9) || (n =? 10) || (n =? 13))%nat.

Fixpoint skip_ws (s : string) : string :=
  match s with
  | String c s' => if is_ws c then skip_ws s' else s
  | EmptyString => s
  end.

Definition is_digit (c : ascii) : bool :=
  let n := nat_of_ascii c in ((48 <=? n) && (n <=? 57))%nat.

Definition hex_value (c : ascii) : option N :=
  let n := nat_of_ascii c in
  if ((48 <=? n) && (n <=? 57))%nat then Some (N.of_nat (n - 48))
  else if ((97 <=? n) && (n <=? 102))%nat then Some (N.of_nat (n - 87))
  else if ((65 <=? n) && (n <=? 70))%nat then Some (N.of_nat (n - 55))
  else None.

(** The four hex digits after [\u], as a number. *)
Definition decode_uXXXX (s : string) : option (N * string) :=
  match s with
  | String a (String b (String c (String d s'))) =>
      match hex_value a, hex_value b, hex_value c, hex_value d with
      | Some x, Some y, Some z, Some w =>
          Some (((x * 16 + y) * 16 + z) * 16 + w, s')%N
      | _, _, _, _ => None
      end
  | _ => None
  end.

Definition byte (n : N) : ascii := ascii_of_N n.

(** The UTF-8 bytes of a code point (a lone surrogate is written with the
    same three-byte pattern). *)
Definition utf8 (u : N) : string :=
  if (u <? 128)%N then chr (byte u)
  else if (u <? 2048)%N then
    String (byte (192 + u / 64)) (chr (byte (128 + u mod 64)))
  else if (u <? 65536)%N then
    String (byte (224 + u / 4096))
      (String (byte (128 + (u / 64) mod 64)) (chr (byte (128 + u mod 64))))
  else
    String (byte (240 + u / 262144))
      (String (byte (128 + (u / 4096) mod 64))
         (String (byte (128 + (u / 64) mod 64)) (chr (byte (128 + u mod 64))))).

(** [\uXXXX], joined with a following low surrogate when it is a high one
    and the text goes on after the pair. *)
Definition unicode_escape (s : string) : option (string * string) :=
  match decode_uXXXX s with
  | None => None
  | Some (u, s') =>
      if ((55296 <=? u) && (u <=? 56319))%N then
        match s' with
        | String b (String c s2) =>
            if Ascii.eqb b backslash && Ascii.eqb c "u" then
              match decode_uXXXX s2 with
              | Some (u2, String c3 s3) =>
                  if ((56320 <=? u2) && (u2 <=? 57343))%N
                  then Some (utf8 (65536 + (u - 55296) * 1024 + (u2 - 56320))%N,
                             String c3 s3)
                  else Some (utf8 u, s')
              | _ => Some (utf8 u, s')
              end
            else Some (utf8 u, s')
        | _ => Some (utf8 u, s')
        end
      else Some (utf8 u, s')
  end.

Definition simple_escape (c : ascii) : option ascii :=
  if Ascii.eqb c dquote then Some dquote
  else if Ascii.eqb c backslash then Some backslash
  else match c with
       | "/"%char => Some "/"%char
       | "b"%char => Some "008"%char
       | "f"%char => Some "012"%char
       | "n"%char => Some "010"%char
       | "r"%char => Some "013"%char
       | "t"%char => Some "009"%char
       | _ => None
       end.

(** [scanstring] (the C scanner, which [json] uses by default): the text
    after an opening double quote, up to the closing one.  [begin] is the
    length of the rest at the opening quote.  Every step reads at least one
    character, so fuel above the length of [s] is never used up. *)
Fixpoint scanstring (fuel begin : nat) (s : string) : parse string :=
  match fuel with
  | O => inr TooDeep
  | S fuel' =>
      match s with
      | EmptyString => inr (Fail "Unterminated string starting at" begin)
      | String c s' =>
          if Ascii.eqb c dquote then inl (EmptyString, s')
          else if Ascii.eqb c backslash then
            match s' with
            | EmptyString => inr (Fail "Unterminated string starting at" begin)
            | String e s2 =>
                if Ascii.eqb e "u" then
                  if (String.length s2 <=? 4)%nat then
                    inr (Fail "Invalid \uXXXX escape" (String.length s'))
                  else
                  match unicode_escape s2 with
                  | Some (bytes, s3) =>
                      match scanstring fuel' begin s3 with
                      | inl (t, r) => inl (bytes ++ t, r)
                      | inr f => inr f
                      end
                  | None =>
                      inr (Fail "Invalid \uXXXX escape" (String.length s'))
                  end
                else
                  match simple_escape e with
                  | Some a =>
                      match scanstring fuel' begin s2 with
                      | inl (t, r) => inl (String a t, r)
                      | inr f => inr f
                      end
                  | None => inr (Fail "Invalid \escape" (String.length s))
                  end
            end
          else if (nat_of_ascii c <? 32)%nat then
            inr (Fail "Invalid control character at" (String.length s))
          else
            match scanstring fuel' begin s' with
            | inl (t, r) => inl (String c t, r)
            | inr f => inr f
            end
      end
  end.

(** *** Numbers

    [NUMBER_RE] has three groups: the integer part (an optional minus, then
    either a single zero or a non-zero digit and any digits), an optional
    fraction (a dot and one or more digits) and an optional exponent (e or E,
    an optional sign, one or more digits). *)

Fixpoint span_digits (s : string) : string * string :=
  match s with
  | String c s' =>
      if is_digit c
      then let (d, r) := span_digits s' in (String c d, r)
      else (EmptyString, s)
  | EmptyString => (EmptyString, s)
  end.

Definition match_integer (s : string) : option (string * string) :=
  let (sign, s1) :=
    match s with
    | String c s' => if Ascii.eqb c "-" then ("-", s') else (EmptyString, s)
    | EmptyString => (EmptyString, s)
    end in
  match s1 with
  | String c s2 =>
      if Ascii.eqb c "0" then Some (sign ++ "0", s2)
      else if is_digit c
      then let (d, r) := span_digits s2 in Some (sign ++ String c d, r)
      else None
  | EmptyString => None
  end.

Definition match_frac (s : string) : string * string :=
  match s with
  | String c s' =>
      if Ascii.eqb c "." then
        match span_digits s' with
        | (EmptyString, _) => (EmptyString, s)
        | (d, r) => (String c d, r)
        end
      else (EmptyString, s)
  | EmptyString => (EmptyString, s)
  end.

Definition match_exp (s : string) : string * string :=
  match s with
  | String e s' =>
      if (Ascii.eqb e "e" || Ascii.eqb e "E")%bool then
        let (sign, s2) :=
          match s' with
          | String c r =>
              if (Ascii.eqb c "-" || Ascii.eqb c "+")%bool
              then (chr c, r) else (EmptyString, s')
          | EmptyString => (EmptyString, s')
          end in
        match span_digits s2 with
        | (EmptyString, _) => (EmptyString, s)
        | (d, r) => (String e (sign ++ d), r)
        end
      else (EmptyString, s)
  | EmptyString => (EmptyString, s)
  end.

(** [int(text)] for an optional minus sign followed by decimal digits. *)
Definition Z_of_digits (digits : string) : Z :=
  fold_left (fun acc c => (acc * 10 + Z.of_nat (nat_of_ascii c - 48))%Z)
    (list_ascii_of_string digits) 0%Z.

Definition int_of_string (s : string) : Z :=
  match s with
  | String c d => if Ascii.eqb c "-" then (- Z_of_digits d)%Z else Z_of_digits s
  | EmptyString => 0%Z
  end.

Definition match_number (s : string) : option (pyval * string) :=
  match match_integer s with
  | None => None
  | Some (integer, s1) =>
      let (frac, s2) := match_frac s1 in
      let (exp, s3) := match_exp s2 in
      match frac, exp with
      | EmptyString, EmptyString => Some (PyInt (int_of_string integer), s3)
      | _, _ => Some (PyFloat (integer ++ frac ++ exp), s3)
      end
  end.

(** [sys.get_int_max_str_digits()], at its default. *)
Definition int_max_str_digits : nat := 4300.

(** The digits of an integer literal, its sign left out. *)
Definition count_digits (integer : string) : nat :=
  match integer with
  | String c d =>
      if Ascii.eqb c "-" then String.length d else String.length integer
  | EmptyString => 0
  end.

(** The number of digits for which [int] refuses the literal at the start
    of [s]: the literal is an integer, with neither fraction nor exponent,
    and has more digits than the limit. *)
Definition over_limit (s : string) : option nat :=
  match match_integer s with
  | None => None
  | Some (integer, s1) =>
      let (frac, s2) := match_frac s1 in
      let (exp, s3) := match_exp s2 in
      match frac, exp with
      | EmptyString, EmptyString =>
          if (int_max_str_digits <? count_digits integer)%nat
          then Some (count_digits integer) else None
      | _, _ => None
      end
  end.

(** [s] with the prefix [p] removed, when it starts with [p]. *)
Fixpoint strip_prefix (p s : string) : option string :=
  match p, s with
  | EmptyString, _ => Some s
  | String a p', String b s' =>
      if Ascii.eqb a b then strip_prefix p' s' else None
  | _, EmptyString => None
  end.

Definition constant (s : string) : option (pyval * string) :=
  match strip_prefix "null" s with
  | Some r => Some (PyNone, r)
  | None =>
  match strip_prefix "true" s with
  | Some r => Some (PyBool true, r)
  | None =>
  match strip_prefix "false" s with
  | Some r => Some (PyBool false, r)
  | None => None
  end end end.

Definition float_constant (s : string) : option (pyval * string) :=
  match strip_prefix "NaN" s with
  | Some r => Some (PyFloat "nan", r)
  | None =>
  match strip_prefix "Infinity" s with
  | Some r => Some (PyFloat "inf", r)
  | None =>
  match strip_prefix "-Infinity" s with
  | Some r => Some (PyFloat "-inf", r)
  | None => None
  end end end.

(** *** Values: [scan_once], [JSONObject] and [JSONArray]

    [object_members] is the loop of [JSONObject], entered just after the
    opening quote of a key; [array_elems] is the loop of [JSONArray],
    entered at the start of a value.  [StopIteration] is always turned into
    the failure "Expecting value" by its catcher, so it is raised as that.

    The scanner enters an object or an array by a recursive call that the
    interpreter counts: [depth] is the number of such calls it still
    allows, and at [depth] zero an opening brace or bracket, even of an
    empty object or array, is a [RecursionError].  [fuel] is the model's
    and only bounds the number of steps. *)
Fixpoint scan_once (fuel depth : nat) (s : string) : parse pyval :=
  match fuel with
  | O => inr TooDeep
  | S fuel' =>
      match s with
      | EmptyString => inr (Fail "Expecting value" 0)
      | String c s' =>
          if Ascii.eqb c dquote then
            match scanstring (S (String.length s')) (String.length s) s' with
            | inl (t, r) => inl (PyStr t, r)
            | inr f => inr f
            end
          else if Ascii.eqb c "{" then
            match depth with
            | O => inr (Recursion "object")
            | S depth' =>
            match skip_ws s' with
            | String c1 r1 =>
                if Ascii.eqb c1 "}" then inl (PyDict [], r1)
                else if Ascii.eqb c1 dquote
                     then object_members fuel' depth' []
                            (S (String.length r1)) r1
                     else inr (Fail
                       "Expecting property name enclosed in double quotes"
                       (S (String.length r1)))
            | EmptyString =>
                inr (Fail "Expecting property name enclosed in double quotes" 0)
            end
            end
          else if Ascii.eqb c "[" then
            match depth with
            | O => inr (Recursion "array")
            | S depth' =>
            match skip_ws s' with
            | String c1 r1 =>
                if Ascii.eqb c1 "]" then inl (PyList [], r1)
                else array_elems fuel' depth' [] (String c1 r1)
            | EmptyString => array_elems fuel' depth' [] EmptyString
            end
            end
          else
            match constant s with
            | Some vr => inl vr
            | None =>
            match over_limit s with
            | Some n => inr (Digits n)
            | None =>
            match match_number s with
            | Some vr => inl vr
            | None =>
            match float_constant s with
            | Some vr => inl vr
            | None => inr (Fail "Expecting value" (String.length s))
            end end end end
      end
  end

with object_members (fuel depth : nat) (pairs : list (string * pyval))
       (begin : nat) (s : string) : parse pyval :=
  match fuel with
  | O => inr TooDeep
  | S fuel' =>
      match scanstring (S (String.length s)) begin s with
      | inr f => inr f
      | inl (key, s1) =>
          match skip_ws s1 with
          | EmptyString => inr (Fail "Expecting ':' delimiter" 0)
          | String c2 s2 =>
              if negb (Ascii.eqb c2 ":") then
                inr (Fail "Expecting ':' delimiter" (S (String.length s2)))
              else
                match scan_once fuel' depth (skip_ws s2) with
                | inr f => inr f
                | inl (value, s3) =>
                    let pairs' := (pairs ++ [(key, value)])%list in
                    match skip_ws s3 with
                    | EmptyString => inr (Fail "Expecting ',' delimiter" 0)
                    | String c4 s4 =>
                        if Ascii.eqb c4 "}" then
                          inl (PyDict (dict_of_pairs pairs'), s4)
                        else if negb (Ascii.eqb c4 ",") then
                          inr (Fail "Expecting ',' delimiter"
                                 (S (String.length s4)))
                        else
                          match skip_ws s4 with
                          | EmptyString =>
                              inr (Fail
                                "Expecting property name enclosed in double quotes"
                                0)
                          | String c5 s6 =>
                              if Ascii.eqb c5 dquote
                              then object_members fuel' depth pairs'
                                     (S (String.length s6)) s6
                              else inr (Fail
                                "Expecting property name enclosed in double quotes"
                                (S (String.length s6)))
                          end
                    end
                end
          end
      end
  end

with array_elems (fuel depth : nat) (values : list pyval) (s : string)
  : parse pyval :=
  match fuel with
  | O => inr TooDeep
  | S fuel' =>
      match scan_once fuel' depth s with
      | inr f => inr f
      | inl (value, s1) =>
          let values' := (values ++ [value])%list in
          match skip_ws s1 with
          | EmptyString => inr (Fail "Expecting ',' delimiter" 0)
          | String c2 s2 =>
              if Ascii.eqb c2 "]" then inl (PyList values', s2)
              else if negb (Ascii.eqb c2 ",") then
                inr (Fail "Expecting ',' delimiter" (S (String.length s2)))
              else array_elems fuel' depth values' (skip_ws s2)
          end
      end
  end.

(** *** [JSONDecodeError(msg, doc, pos)] and [json.loads] *)

Fixpoint count_char (c : ascii) (s : string) : nat :=
  match s with
  | EmptyString => 0
  | String a s' => (if Ascii.eqb a c then 1 else 0) + count_char c s'
  end.

Definition decode_error (msg doc : string) (pos : nat) : exn :=
  let before := slice_to pos doc in
  let lineno := count_char newline before + 1 in
  let colno :=
    match rfind newline before with
    | Some i => pos - i
    | None => pos + 1
    end in
  JSONDecodeError msg lineno colno pos.

Definition bom : string :=
  String (byte 239) (String (byte 187) (chr (byte 191))).

(** [sys.getrecursionlimit()], at its default. *)
Definition recursion_limit : nat := 1000.

Definition recursion_error (what : string) : exn :=
  RecursionError ("maximum recursion depth exceeded while decoding a JSON "
                  ++ what ++ " from a unicode string").

Definition digits_error (n : nat) : exn :=
  ValueError ("Exceeds the limit (" ++ string_of_nat int_max_str_digits
              ++ " digits) for integer string conversion: value has "
              ++ string_of_nat n
              ++ " digits; use sys.set_int_max_str_digits() to increase the limit").

(** [json.loads(doc)] in an interpreter that still allows [depth] recursive
    calls.  The fuel covers every step the scanner can make on [doc] (each
    reads at least one character), so it is never used up. *)
Definition loads_within (depth : nat) (doc : string) : result pyval :=
  let err msg rest_len := Raise (decode_error msg doc (String.length doc - rest_len)) in
  match strip_prefix bom doc with
  | Some _ => err "Unexpected UTF-8 BOM (decode using utf-8-sig)" (String.length doc)
  | None =>
      match scan_once (2 * String.length doc + 2) depth (skip_ws doc) with
      | inl (v, rest) =>
          match skip_ws rest with
          | EmptyString => Ok v
          | extra => err "Extra data" (String.length extra)
          end
      | inr (Fail msg rest_len) => err msg rest_len
      | inr TooDeep => Raise (recursion_error "value")
      | inr (Recursion what) => Raise (recursion_error what)
      | inr (Digits n) => Raise (digits_error n)
      end
  end.

(** [json.loads(doc)].  The calls the interpreter still allows are its
    recursion limit less the frames in use when [json.loads] is called,
    which the source does not tell; the decoder is given the whole limit,
    the most it can have.  A text refused here for its depth is refused in
    every run at that limit; what is proved of every text is proved of
    [loads_within] at every depth. *)
Definition loads (doc : string) : result pyval :=
  loads_within recursion_limit doc.

End Json.

(** ** The external services and the effect monad

    The LLM gateway ([requests.post] on the serving endpoint) and the vector
    index (the [VectorSearchClient] SDK) are outside the repository.  Each is
    an oracle from the request to either the reply or the exception the call
    raises; every invocation is appended to a trace, so that which calls a
    request made, and in which order, can be stated. *)

Module Services.
Import Py.

(** [VectorSearchClient(personal_access_token=..., workspace_url=...)]:
    building the client keeps the credentials and makes no request. *)
Record VectorSearchClient : Type := {
  personal_access_token : string;
  workspace_url : string
}.

Inductive event : Type :=
| RequestsPost (url : string) (headers json : pyval) (auth : string * string)
| GetIndex (client : VectorSearchClient) (index_name endpoint_name : string)
| SimilaritySearch (index_name query_text : string) (columns : list string)
    (num_results : nat).

Record services : Type := {
  (** [requests.post(url, headers=..., json=..., auth=...).text] *)
  requests_post : string -> pyval -> pyval -> string * string -> result string;
  (** [vs_client.get_index(index_name=..., endpoint_name=...)] *)
  get_index : VectorSearchClient -> string -> string -> result unit;
  (** [idx.similarity_search(query_text=..., columns=..., num_results=...)] *)
  similarity_search : string -> string -> list string -> nat -> result pyval
}.

Definition trace : Type := list event.

Definition M (A : Type) : Type := trace -> result A * trace.

Definition ret {A} (a : A) : M A := fun t => (Ok a, t).

Definition raise {A} (e : exn) : M A := fun t => (Raise e, t).

Definition bind {A B} (m : M A) (k : A -> M B) : M B :=
  fun t =>
    match m t with
    | (Ok a, t') => k a t'
    | (Raise e, t') => (Raise e, t')
    end.

(** A computation with no external call. *)
Definition pure {A} (r : result A) : M A := fun t => (r, t).

(** An external call: logged, then answered by the oracle. *)
Definition call {A} (ev : event) (answer : result A) : M A :=
  fun t => (answer, (t ++ [ev])%list).

End Services.

Declare Scope py_scope.
Delimit Scope py_scope with py.
Notation "x <- m ;; k" := (Services.bind m (fun x => k))
  (at level 61, m at next level, right associativity) : py_scope.
Notation "x <-- r ;; k" := (Py.rbind r (fun x => k))
  (at level 61, r at next level, right associativity) : py_scope.

(** ** 02_Create_General_Recommendations.py *)

Module GeneralRecommendations.
Import Py.

Definition instruction : string :=
  " Expresse sua resposta como um objeto JSON com uma chave 'next_items' e um valor representando sua matriz de itens recomendados.".

(** [get_user_prompt]: [prompt] starts as [None] and is only set for a
    non-empty list; the final [prompt += ...] is a [TypeError] on [None]. *)
Definition get_user_prompt (ordered_list_of_items : list string)
  : result string :=
  let prompt :=
    if (0 <? List.length ordered_list_of_items)%nat then
      let items := join ", " ordered_list_of_items in
      Some ("Um usuário comprou os seguintes itens: " ++ items
            ++ ". Quais seriam os próximos dez itens que ele/ela provavelmente compraria?")
    else None in
  match prompt with
  | Some p => Ok (p ++ instruction)
  | None =>
      Raise (TypeError
               "unsupported operand type(s) for +=: 'NoneType' and 'str'")
  end.

End GeneralRecommendations.

(** ** 03_Assemble_Recommender.py: what the notebook and [app.py] share *)

Module Recommender.
Import Py Services.
Local Open Scope py_scope.

(** [items[i]] on a list of [str]. *)
Definition list_getitem (items : list string) (i : Z) : result string :=
  match seq_index items i with
  | Some x => Ok x
  | None => Raise (IndexError "list index out of range")
  end.

(** The conditional expression of [_get_prompt]:
    [', '.join(items[:-1]) + ', and ' + items[-1] if len(items) > 1 else items[0]]. *)
Definition items_delimited (items : list string) : result string :=
  if (1 <? List.length items)%nat then
    last_item <-- list_getitem items (-1) ;;
    Ok (join ", " (removelast items) ++ ", and " ++ last_item)
  else list_getitem items 0.

(** The two [prompt] lines of [_get_prompt]. *)
Definition assemble (system_prompt user_prompt : string) : string :=
  ("[INST] <<SYS>>" ++ chr newline ++ system_prompt ++ chr newline
   ++ "<</SYS>>" ++ chr newline)
  ++ (user_prompt ++ "[/INST]").

Definition headers : pyval :=
  PyDict [("Content-Type", PyStr "application/json")].

Definition data (prompt : string) : pyval :=
  PyDict [("messages",
           PyList [PyDict [("role", PyStr "user"); ("content", PyStr prompt)]]);
          ("max_tokens", PyInt 128)].

(** [raw_text.rindex('}')]: only a [str] has the method. *)
Definition method_rindex (raw_text : pyval) : result nat :=
  match raw_text with
  | PyStr s => rindex rbrace s
  | v => Raise (AttributeError (chr squote ++ type_name v ++ chr squote
                                ++ " object has no attribute 'rindex'"))
  end.

(** [raw_text[:n]]; reached only when [raw_text] is a [str]. *)
Definition slice (raw_text : pyval) (n : nat) : string :=
  match raw_text with
  | PyStr s => slice_to n s
  | _ => EmptyString
  end.

(** [json.loads(response.text)['choices'][0]['message']["content"]] *)
Definition message_content (response_text : string) : result pyval :=
  body <-- Json.loads response_text ;;
  choices <-- getitem_str body "choices" ;;
  choice <-- getitem_int choices 0 ;;
  message <-- getitem_str choice "message" ;;
  getitem_str message "content".

(** The extraction step: [raw_text[:raw_text.rindex('}')+1]]. *)
Definition extract_json_text (raw_text : pyval) : result string :=
  i <-- method_rindex raw_text ;;
  Ok (slice raw_text (i + 1)).

(** The response parser: the extraction step followed by [json.loads], the
    two lines both copies of [get_general_products] run on [raw_text]. *)
Definition parse_response (raw_text : pyval) : result pyval :=
  json_text <-- extract_json_text raw_text ;;
  Json.loads json_text.

(** The list comprehension [[item[-2] for item in data_array]]. *)
Fixpoint comprehension (rows : list pyval) : result (list pyval) :=
  match rows with
  | [] => Ok []
  | item :: rows' =>
      x <-- getitem_int item (-2) ;;
      xs <-- comprehension rows' ;;
      Ok (x :: xs)
  end.

(** [get_specific_products], with the names of the index and of its
    endpoint left open: the notebook and [app.py] differ only there. *)
Definition get_specific_products_at (index_name endpoint_name : string)
  (sv : services) (vs_client : VectorSearchClient) (general_items : pyval)
  (num_items : nat) : M (list pyval) :=
  idx <- call (GetIndex vs_client index_name endpoint_name)
              (get_index sv vs_client index_name endpoint_name) ;;
  results <- call (SimilaritySearch index_name (str general_items)
                     ["id"; "text"] num_items)
                  (similarity_search sv index_name (str general_items)
                     ["id"; "text"] num_items) ;;
  pure (result_ <-- getitem_str results "result" ;;
        data_array <-- getitem_str result_ "data_array" ;;
        rows <-- iter data_array ;;
        comprehension rows).

End Recommender.

(** ** 03_Assemble_Recommender.py: the notebook cells *)

Module Notebook.
Import Py Services Recommender.
Local Open Scope py_scope.

(** The [config] dictionary of [00_Intro_and_Config.py]. *)
Definition config : list (string * string) :=
  [("catalog", "rodrigo_catalog"); ("schema", "llm_recommender");
   ("vs index", "product_index");
   ("embedding_model_name", "llm_recommender_embeddings")].

Definition system_prompt : string :=
  "Você é um assistente de IA que funciona como um sistema de recomendação para um site de comércio eletrônico."
  ++ " Seja específico e limite suas respostas ao formato solicitado.".

Definition instruction : string :=
  "Expresse sua resposta como um objeto JSON com uma chave 'next_items' e um valor representando sua matriz de itens recomendados.".

Definition user_prompt (delimited : string) : string :=
  ("Um usuário comprou " ++ delimited
   ++ " nessa ordem. Quais seriam os cinco itens que ele/ela provavelmente compraria em seguida?")
  ++ instruction.

Definition _get_prompt (items : list string) : result string :=
  delimited <-- items_delimited items ;;
  Ok (assemble system_prompt (user_prompt delimited)).

(** The notebook's [get_general_products] parses the extracted text but
    returns the text itself ([return json_text]). *)
Definition get_general_products (sv : services) (endpoint_url token : string)
  (items : list string) : M string :=
  prompt <- pure (_get_prompt items) ;;
  response_text <-
    call (RequestsPost endpoint_url headers (data prompt) ("token", token))
         (requests_post sv endpoint_url headers (data prompt) ("token", token)) ;;
  raw_text <- pure (message_content response_text) ;;
  json_text <- pure (extract_json_text raw_text) ;;
  ret_ <- pure (Json.loads json_text) ;;
  ret json_text.

(** [config[key]] for the keys the notebook reads, all of them set. *)
Definition config_at (key : string) : string :=
  match find (fun kv => String.eqb (fst kv) key) config with
  | Some kv => snd kv
  | None => EmptyString
  end.

Definition index_name : string :=
  config_at "catalog" ++ "." ++ config_at "schema" ++ "." ++ config_at "vs index".

Definition get_specific_products :=
  get_specific_products_at index_name "one-env-shared-endpoint-2".

(** The last cell of step 1: general items, then specific items. *)
Definition pipeline (sv : services) (vs_client : VectorSearchClient)
  (endpoint_url token : string) (ordered_list_of_items : list string)
  (num_items : nat) : M (list pyval) :=
  general_items <- get_general_products sv endpoint_url token
                     ordered_list_of_items ;;
  get_specific_products sv vs_client (PyStr general_items) num_items.

End Notebook.

(** ** 03_Assemble_Recommender.py: the [app.py] listing *)

Module App.
Import Py Services Recommender.
Local Open Scope py_scope.

(** The three settings read from [os.environ] when the module loads. *)
Record settings : Type := {
  workspace_url : string;
  endpoint_url : string;
  token : string
}.

Definition system_prompt : string :=
  "You are an AI assistant functioning as a recommendation system for an ecommerce website."
  ++ " Be specific and limit your answers to the requested format.".

Definition instruction : string :=
  "Express your response as a JSON object with a key of 'next_items' and a value representing your array of recommended items.".

Definition user_prompt (delimited : string) : string :=
  ("A user bought " ++ delimited
   ++ " in that order. What five items would he/she be likely to purchase next?")
  ++ instruction.

Definition _get_prompt (items : list string) : result string :=
  delimited <-- items_delimited items ;;
  Ok (assemble system_prompt (user_prompt delimited)).

(** [app.py]'s [get_general_products] returns the parsed ['next_items']. *)
Definition get_general_products (sv : services) (endpoint_url token : string)
  (items : list string) : M pyval :=
  prompt <- pure (_get_prompt items) ;;
  response_text <-
    call (RequestsPost endpoint_url headers (data prompt) ("token", token))
         (requests_post sv endpoint_url headers (data prompt) ("token", token)) ;;
  raw_text <- pure (message_content response_text) ;;
  json_text <- pure (extract_json_text raw_text) ;;
  ret_ <- pure (parsed <-- Json.loads json_text ;;
                getitem_str parsed "next_items") ;;
  ret ret_.

Definition get_specific_products :=
  get_specific_products_at "solacc_uc.llm_recommender.product_index"
    "vs_llm_recommender_embeddings".

Definition LLM4rec (sv : services) (vs_client : VectorSearchClient)
  (endpoint_url token : string) (items : list string) (n_items : nat)
  : M (list pyval) :=
  general_items <- get_general_products sv endpoint_url token items ;;
  specific_items <- get_specific_products sv vs_client general_items n_items ;;
  ret specific_items.

(** What the route answers: the returned value, serialised by FastAPI, or
    the [HTTPException] the handler raises. *)
Inductive response : Type :=
| Return (result : list pyval)
| HTTPException (status_code : nat) (detail : string).

(** The request body model: [class ItemList(BaseModel): items: List[str]]. *)
Record ItemList : Type := { items : list string }.

(** The handler of [POST /recommendations/], on a body FastAPI has
    validated against [ItemList]. *)
Definition get_recommendations (env : settings) (sv : services)
  (body : ItemList) : trace -> response * trace :=
  fun t =>
    let n_items := 5 in
    let vs_client :=
      {| personal_access_token := token env;
         Services.workspace_url := workspace_url env |} in
    match LLM4rec sv vs_client (endpoint_url env) (token env) (items body)
            n_items t with
    | (Ok result, t') => (Return result, t')
    | (Raise e, t') => (HTTPException 500 (str_exn e), t')
    end.

End App.

(** ** The vector index as the specification describes it *)

Module VectorIndex.
Import Py Services.

(** One hit of a search on the columns [id] and [text]: the two requested
    fields and the similarity score the index adds. *)
Record hit : Type := {
  id : pyval;
  text : pyval;
  score : pyval
}.

Definition row (h : hit) : pyval := PyList [id h; text h; score h].

(** The reply of [similarity_search] carrying the given rows. *)
Definition reply (rows : list pyval) : pyval :=
  PyDict [("manifest", PyDict [("column_count", PyInt 3)]);
          ("result",
           PyDict [("row_count", PyInt (Z.of_nat (List.length rows)));
                   ("data_array", PyList rows)])].

(** Modelled from the spec: the vector index is an external service, absent
    from the repository.  Section 6 gives its contract:
    search(query_text, requested_fields, num_results) answers a ranked list
    of records with the requested fields plus a similarity score.  [ranked]
    is what the index holds for a query, best match first; a search answers
    the first [num_results] of them. *)
Definition search (ranked : string -> list hit) (query_text : string)
  (num_results : nat) : list hit :=
  firstn num_results (ranked query_text).

(** The services formed by an LLM gateway oracle and such an index. *)
Definition with_index
  (post : string -> pyval -> pyval -> string * string -> result string)
  (ranked : string -> list hit) : services :=
  {| requests_post := post;
     get_index := fun _ _ _ => Ok tt;
     similarity_search := fun _ query_text _ num_results =>
       Ok (reply (map row (search ranked query_text num_results))) |}.

End VectorIndex.

(** ** 01_Prepare_Product_Search_Data.py: the two readiness waits

    [time.time()] and [time.sleep] are modelled by an explicit clock in
    seconds.  The status request number [k], issued at time [t], is answered
    at time [arrival k t] with [answer k t]. *)

Module Provisioning.
Import Py.

Record clock : Type := {
  now : Z;
  requests : nat
}.

Record environment (A : Type) : Type := {
  answer : nat -> Z -> result A;
  arrival : nat -> Z -> Z
}.
Arguments answer {A} _ _ _.
Arguments arrival {A} _ _ _.

(** [time.sleep(seconds)] *)
Definition sleep (seconds : Z) (c : clock) : clock :=
  {| now := now c + seconds; requests := requests c |}.

(** The clock once the pending status request has been answered. *)
Definition answered {A} (env : environment A) (c : clock) : clock :=
  {| now := arrival env (requests c) (now c); requests := S (requests c) |}.

(** The shape both loops have:
[[
  while time.time() <= stop_time:
    status = <status request>
    if <still waiting>: time.sleep(interval)
    else: waiting = False; break
]]
    The result is the final value of [waiting]. *)
Fixpoint poll {A} (fuel : nat) (env : environment A)
  (still_waiting : A -> bool) (interval stop_time : Z) (c : clock)
  : option (result bool * clock) :=
  match fuel with
  | O => None
  | S fuel' =>
      if (now c <=? stop_time)%Z then
        match answer env (requests c) (now c) with
        | Raise e => Some (Raise e, answered env c)
        | Ok status =>
            if still_waiting status
            then poll fuel' env still_waiting interval stop_time
                   (sleep interval (answered env c))
            else Some (Ok false, answered env c)
        end
      else Some (Ok true, c)
  end.

(** [if waiting: raise Exception(message)] *)
Definition finish (message : string) (r : option (result bool * clock))
  : option (result unit * clock) :=
  match r with
  | Some (Ok true, c) => Some (Raise (Exception message), c)
  | Some (Ok false, c) => Some (Ok tt, c)
  | Some (Raise e, c) => Some (Raise e, c)
  | None => None
  end.

Definition endpoint_timeout_message : string :=
  "Timeout expired waiting for endpoint to achieve a ready state.  Consider elevating the timeout setting.".

Definition index_timeout_message : string :=
  "Timeout expired waiting for index to be provisioned.  Consider elevating the timeout setting.".

(** Cell "Deploy Model Serving Endpoint": the status is the text at
    [['state']['ready']]; the loop sleeps while it is [NOT_READY]. *)
Definition wait_for_endpoint (fuel : nat) (env : environment string)
  (c : clock) : option (result unit * clock) :=
  let timeout_seconds := (30 * 60)%Z in
  let stop_time := (now c + timeout_seconds)%Z in
  finish endpoint_timeout_message
    (poll fuel env (fun status => String.eqb status "NOT_READY") 30 stop_time c).

(** Cell "Wait for Vector Store Index to Start Processing Data".  The
    deadline is taken first; then [vs_client.get_index(...)] is called,
    which ends the cell when it raises: [get_index t] is what the call made
    at time [t] answers and the time at which it does.  The status is the
    flag at [['status']['ready']] of [idx.describe()]; the loop sleeps
    while it is false. *)
Definition wait_for_index (fuel : nat) (get_index : Z -> result unit * Z)
  (env : environment bool) (c : clock) : option (result unit * clock) :=
  let timeout_seconds := (120 * 60)%Z in
  let stop_time := (now c + timeout_seconds)%Z in
  match get_index (now c) with
  | (Raise e, t) => Some (Raise e, {| now := t; requests := requests c |})
  | (Ok idx, t) =>
      finish index_timeout_message
        (poll fuel env (fun is_ready => negb is_ready) 60 stop_time
           {| now := t; requests := requests c |})
  end.

End Provisioning.

(** ** A concrete deployment, for running the code *)

Module Scenario.
Import Py Services VectorIndex.

(** How the gateway writes a text as a JSON string. *)
Fixpoint escape (s : string) : string :=
  match s with
  | EmptyString => EmptyString
  | String c s' =>
      (if Ascii.eqb c dquote then String backslash (chr dquote)
       else if Ascii.eqb c backslash then String backslash (chr backslash)
       else if Ascii.eqb c newline then String backslash "n"
       else chr c) ++ escape s'
  end.

(** The body of a chat completion whose message content is [content]. *)
Definition chat_completion (content : string) : string :=
  dq "{'id': 'cmpl-1', 'object': 'chat.completion', 'choices': [{'index': 0, 'message': {'role': 'assistant', 'content': '"
  ++ escape content ++ dq "'}, 'finish_reason': 'stop'}]}".

(** A gateway that answers every request with the same content. *)
Definition gateway (content : string)
  : string -> pyval -> pyval -> string * string -> result string :=
  fun _ _ _ _ => Ok (chat_completion content).

(** A gateway that is down. *)
Definition gateway_down
  : string -> pyval -> pyval -> string * string -> result string :=
  fun _ _ _ _ => Raise (RequestException "Connection refused").

Definition product (i : Z) (description similarity : string) : hit :=
  {| id := PyInt i; text := PyStr description; score := PyFloat similarity |}.

Definition catalog : list hit :=
  [product 17 "Insulated snow boots" "0.91";
   product 4 "Fleece-lined gloves" "0.88";
   product 23 "Merino wool socks" "0.85";
   product 8 "Rechargeable hand warmers" "0.80";
   product 15 "Thermal base layer set" "0.78";
   product 2 "Down parka" "0.71";
   product 30 "Waterproof galoshes" "0.64"].

(** An index that ranks the catalog one way for a query that starts with
    an opening bracket and the other way round for any other query. *)
Definition ranked (query_text : string) : list hit :=
  match query_text with
  | String "[" _ => catalog
  | _ => rev catalog
  end.

(** An index that holds only three products. *)
Definition small_ranked (query_text : string) : list hit :=
  firstn 3 catalog.

Definition suggestions : string :=
  "Here are my suggestions: "
  ++ dq "{'next_items': ['winter boots', 'gloves', 'wool socks', 'hand warmers', 'thermal underwear']}".

Definition only_json : string :=
  dq "{'next_items': ['winter boots', 'gloves', 'wool socks', 'hand warmers', 'thermal underwear']}".

Definition env : App.settings :=
  {| App.workspace_url := "https://adb-1.azuredatabricks.net";
     App.endpoint_url :=
       "https://adb-1.azuredatabricks.net/serving-endpoints/databricks-llama-2-70b-chat/invocations";
     App.token := "dapi-token" |}.

Definition vs_client : VectorSearchClient :=
  {| personal_access_token := App.token env;
     Services.workspace_url := App.workspace_url env |}.

Definition purchases : list string := ["scarf"; "beanie"; "ear muffs"].

(** A serving endpoint that is ready from the third status request on,
    each request taking two seconds. *)
Definition endpoint_env : Provisioning.environment string :=
  {| Provisioning.answer := fun k _ =>
       Ok (if (k <? 2)%nat then "NOT_READY" else "READY");
     Provisioning.arrival := fun _ t => (t + 2)%Z |}.

(** An index that never becomes ready. *)
Definition stuck_index_env : Provisioning.environment bool :=
  {| Provisioning.answer := fun _ _ => Ok false;
     Provisioning.arrival := fun _ t => (t + 1)%Z |}.

(** An index that is found within a second. *)
Definition find_index : Z -> result unit * Z :=
  fun t => (Ok tt, (t + 1)%Z).




Definition start : Provisioning.clock :=
  {| Provisioning.now := 1700000000; Provisioning.requests := 0 |}.

End Scenario.

(** ** Vocabulary of the properties *)

Module Observe.
Import Py Services.

Definition is_post (ev : event) : bool :=
  match ev with
  | RequestsPost _ _ _ _ => true
  | _ => false
  end.

Definition is_search (ev : event) : bool :=
  match ev with
  | SimilaritySearch _ _ _ _ => true
  | _ => false
  end.

(** The calls to the LLM gateway, and the similarity searches, of a trace. *)
Definition posts (t : trace) : list event := filter is_post t.
Definition searches (t : trace) : list event := filter is_search t.


(** Every similarity search among [evs] asks for [n] results. *)
Definition asks_for (n : nat) (ev : event) : Prop :=
  match ev with
  | SimilaritySearch _ _ _ num_results => num_results = n
  | _ => True
  end.

(** [sub] occurs in [s]. *)
Definition occurs (sub s : string) : Prop :=
  exists before after, s = before ++ sub ++ after.

(** The texts of [items] occur in [s] one after the other, without
    overlap, in the order of the list. *)
Fixpoint occur_in_order (items : list string) (s : string) : Prop :=
  match items with
  | [] => True
  | item :: items' =>
      exists before after,
        s = before ++ item ++ after /\ occur_in_order items' after
  end.



End Observe.

(** ** 01_Prepare_Product_Search_Data.py: the cells that set the services up

    What these cells call is outside the repository: the workspace's REST
    API through [requests.request], and the vector search service through
    the methods of [VectorSearchClient].  A call is answered according to
    the calls made before it, so that a service can be in another state
    after a call than before; every call is appended to a trace. *)

Declare Scope setup_scope.
Delimit Scope setup_scope with setup.

Module Setup.
Import Py.

(** The keys of [config] that the notebook reads. *)
Record config : Type := {
  catalog : string;
  schema : string;
  vs_index : string;
  embedding_model_name : string
}.

(** The values [00_Intro_and_Config.py] sets. *)
Definition notebook_config : config :=
  {| catalog := Notebook.config_at "catalog";
     schema := Notebook.config_at "schema";
     vs_index := Notebook.config_at "vs index";
     embedding_model_name := Notebook.config_at "embedding_model_name" |}.

(** What is read of the answer to [requests.request]. *)
Record response : Type := {
  status_code : Z;
  text : string
}.

Inductive event : Type :=
| Request (method url : string) (headers : pyval) (data : option string)
| DeleteIndex (index_name : string)
| GetEndpoint (name : string)
| CreateEndpoint (name endpoint_type : string)
| GetIndex (index_name endpoint_name : string)
| CreateDeltaSyncIndex
    (endpoint_name source_table_name primary_key embedding_source_column
     index_name pipeline_type embedding_model_endpoint_name : string).

Definition trace : Type := list event.

(** The services: the answer to a call, given the calls made before it. *)
Record world : Type := {
  (** [requests.request(method=..., headers=..., url=..., data=...)] *)
  requests_request : trace -> event -> result response;
  (** a method of [vs_client] *)
  vector_search : trace -> event -> result unit
}.

Definition M (A : Type) : Type := trace -> result A * trace.

Definition ret {A} (a : A) : M A := fun t => (Ok a, t).

Definition raise {A} (e : exn) : M A := fun t => (Raise e, t).

Definition bind {A B} (m : M A) (k : A -> M B) : M B :=
  fun t =>
    match m t with
    | (Ok a, t') => k a t'
    | (Raise e, t') => (Raise e, t')
    end.

(** An external call: answered from the calls so far, then logged. *)
Definition call {A} (answer : trace -> event -> result A) (ev : event)
  : M A :=
  fun t => (answer t ev, (t ++ [ev])%list).

(** [try: body] with a bare [except: handler], which catches every
    exception. *)
Definition try_except {A} (body handler : M A) : M A :=
  fun t =>
    match body t with
    | (Ok a, t') => (Ok a, t')
    | (Raise _, t') => handler t'
    end.

Notation "x <- m ;; k" := (bind m (fun x => k))
  (at level 61, m at next level, right associativity) : setup_scope.
Local Open Scope setup_scope.

(** The f-string [f"{config['catalog']}.{config['schema']}.{config['vs index']}"]. *)
Definition index_name (cfg : config) : string :=
  catalog cfg ++ "." ++ schema cfg ++ "." ++ vs_index cfg.

(** Cell "Persist as Delta Lake Table", its first statement: any index left
    on the table is dropped, and an error of the deletion is ignored. *)
Definition drop_index (w : world) (cfg : config) : M unit :=
  try_except
    (call (vector_search w) (DeleteIndex (index_name cfg)))
    (ret tt).

(** *** Cell "Get Registered Model to Version" *)

Section Versions.

(** The model versions of the registry, the type of their [version]
    attribute, and Python's [<] on it. *)
Variables ModelVersion Version : Type.
Variable version : ModelVersion -> Version.
Variable lt : Version -> Version -> bool.

(** [sorted(model_versions, key=lambda x: x.version, reverse=True)]:
    [sorted] compares keys with [<] alone and is stable, also with
    [reverse=True]: the result is in descending order of the key, and
    elements with equal keys keep the order they had.  Written as an
    insertion sort, which gives this result for any order [<] that Python's
    [sorted] is specified for. *)
Fixpoint insert_reverse (x : ModelVersion) (l : list ModelVersion)
  : list ModelVersion :=
  match l with
  | [] => [x]
  | y :: l' =>
      if lt (version x) (version y) then y :: insert_reverse x l'
      else x :: y :: l'
  end.

Definition sorted_reverse (model_versions : list ModelVersion)
  : list ModelVersion :=
  fold_right insert_reverse [] model_versions.

(** [latest_version = sorted_versions[0]] *)
Definition latest_version (model_versions : list ModelVersion)
  : result ModelVersion :=
  match sorted_reverse model_versions with
  | latest :: _ => Ok latest
  | [] => Raise (IndexError "list index out of range")
  end.

(** [model_version = latest_version.version] *)
Definition model_version (model_versions : list ModelVersion)
  : result Version :=
  rbind (latest_version model_versions) (fun latest => Ok (version latest)).

End Versions.

Arguments insert_reverse {ModelVersion Version} version lt x l.
Arguments sorted_reverse {ModelVersion Version} version lt model_versions.
Arguments latest_version {ModelVersion Version} version lt model_versions.
Arguments model_version {ModelVersion Version} version lt model_versions.

(** *** Cell "Deploy Model Serving Endpoint" *)

(** [s.replace(old, new)] for one-character [old] and [new]. *)
Fixpoint replace (old new : ascii) (s : string) : string :=
  match s with
  | EmptyString => EmptyString
  | String c s' =>
      String (if Ascii.eqb c old then new else c) (replace old new s')
  end.

Definition headers (token : string) : pyval :=
  PyDict [("Authorization", PyStr ("Bearer " ++ token));
          ("Content-Type", PyStr "application/json")].

Definition base_url (workspace_url : string) : string :=
  workspace_url ++ "/api/2.0/serving-endpoints".

(** [f"{config['embedding_model_name'].replace('.', '_')}_{1}"] *)
Definition served_model_name (cfg : config) : string :=
  replace "." "_" (embedding_model_name cfg) ++ "_" ++ string_of_Z 1.

Definition endpoint_config (cfg : config) (model_version : pyval) : pyval :=
  let endpoint_name := embedding_model_name cfg in
  PyDict
    [("name", PyStr endpoint_name);
     ("config",
      PyDict
        [("served_models",
          PyList
            [PyDict
               [("name", PyStr (served_model_name cfg));
                ("model_name", PyStr (embedding_model_name cfg));
                ("model_version", model_version);
                ("workload_type", PyStr "CPU");
                ("workload_size", PyStr "Small");
                ("scale_to_zero_enabled", PyBool true)]])])].

Definition request_failed (r : response) : exn :=
  Exception ("Request failed with status " ++ string_of_Z (status_code r)
             ++ ", " ++ text r).

(** The cell up to its wait: the endpoint is looked up, and deployed when
    the lookup does not answer status 200.  [dumps] is
    [json.dumps(_, indent='  ')], taken as given. *)
Definition deploy_endpoint (w : world) (dumps : pyval -> string)
  (cfg : config) (workspace_url token : string) (model_version : pyval)
  : M unit :=
  let endpoint_name := embedding_model_name cfg in
  let headers := headers token in
  let base_url := base_url workspace_url in
  results <- call (requests_request w)
               (Request "GET" (base_url ++ "/" ++ endpoint_name) headers None) ;;
  if (status_code results =? 200)%Z then ret tt
  else
    let endpoint_json := dumps (endpoint_config cfg model_version) in
    deploy_response <- call (requests_request w)
                         (Request "POST" base_url headers (Some endpoint_json)) ;;
    if negb (status_code deploy_response =? 200)%Z
    then raise (request_failed deploy_response)
    else ret tt.

(** The whole cell: the wait of [Provisioning.wait_for_endpoint] starts,
    at clock [c], once the first part has returned. *)
Definition deploy_cell (fuel : nat) (w : world) (dumps : pyval -> string)
  (cfg : config) (workspace_url token : string) (model_version : pyval)
  (env : Provisioning.environment string) (t : trace)
  (c : Provisioning.clock)
  : option (result unit * trace * Provisioning.clock) :=
  match deploy_endpoint w dumps cfg workspace_url token model_version t with
  | (Raise e, t') => Some (Raise e, t', c)
  | (Ok _, t') =>
      match Provisioning.wait_for_endpoint fuel env c with
      | Some (r, c') => Some (r, t', c')
      | None => None
      end
  end.

(** Cell "Test the Endpoint".  The [timeout] of the request is the
    client's: when it passes, the request raises. *)
Definition test_endpoint (w : world) (cfg : config)
  (workspace_url token data_json : string) : M string :=
  let endpoint_name := embedding_model_name cfg in
  let invoke_headers := headers token in
  let invoke_url :=
    workspace_url ++ "/serving-endpoints/" ++ endpoint_name ++ "/invocations" in
  invoke_response <- call (requests_request w)
                       (Request "POST" invoke_url invoke_headers
                          (Some data_json)) ;;
  if negb (status_code invoke_response =? 200)%Z
  then raise (request_failed invoke_response)
  else ret (text invoke_response).

(** *** Cells "Create Vector Search Endpoint" and "Create Vector Search Index" *)

Definition vs_endpoint_name : string := "one-env-shared-endpoint-2".

Definition create_vs_endpoint (w : world) : M unit :=
  let endpoint_name := vs_endpoint_name in
  endpoint_exists <-
    try_except
      (_ <- call (vector_search w) (GetEndpoint endpoint_name) ;; ret true)
      (ret false) ;;
  if negb endpoint_exists
  then call (vector_search w) (CreateEndpoint endpoint_name "STANDARD")
  else ret tt.

Definition create_vs_index (w : world) (cfg : config) : M unit :=
  let endpoint_name := vs_endpoint_name in
  index_exists <-
    try_except
      (_ <- call (vector_search w) (GetIndex (index_name cfg) endpoint_name) ;;
       ret true)
      (ret false) ;;
  if negb index_exists
  then call (vector_search w)
         (CreateDeltaSyncIndex endpoint_name
            (catalog cfg ++ "." ++ schema cfg ++ ".products")
            "id" "text" (index_name cfg) "TRIGGERED"
            (embedding_model_name cfg))
  else ret tt.

(** The two cells one after the other, as the notebook runs them. *)
Definition create_vs_endpoint_and_index (w : world) (cfg : config) : M unit :=
  _ <- create_vs_endpoint w ;;
  create_vs_index w cfg.

End Setup.

(** ** More vocabulary of the properties *)

Module Shape.
Import Py.

(** [isinstance(v, dict)] *)
Definition is_dict (v : pyval) : bool :=
  match v with
  | PyDict _ => true
  | _ => false
  end.

(** [r] is what is left of [s] after some prefix. *)
Definition suffix (r s : string) : Prop := exists p, s = p ++ r.

(** The calls that remove something from the vector search service. *)
Definition is_delete (ev : Setup.event) : bool :=
  match ev with
  | Setup.DeleteIndex _ => true
  | _ => false
  end.

End Shape.

(** ** A concrete workspace, for running the provisioning cells *)

Module Workspace.
Import Py Setup.

Definition is_deployment (ev : event) : bool :=
  match ev with
  | Request method _ _ _ => String.eqb method "POST"
  | _ => false
  end.

Definition creates_endpoint (name : string) (ev : event) : bool :=
  match ev with
  | CreateEndpoint name' _ => String.eqb name' name
  | _ => false
  end.

(** Whether the index is there after [ev], when [before] says whether it
    was there before. *)
Definition index_after (index_name : string) (before : bool) (ev : event)
  : bool :=
  match ev with
  | CreateDeltaSyncIndex _ _ _ _ index_name' _ _ =>
      String.eqb index_name' index_name || before
  | DeleteIndex index_name' =>
      negb (String.eqb index_name' index_name) && before
  | _ => before
  end.

Definition has_index (index_name : string) (t : trace) : bool :=
  fold_left (index_after index_name) t false.

(** A vector search service that starts out empty and holds what has been
    created in it and not deleted since. *)
Definition vector_search (t : trace) (ev : event) : result unit :=
  match ev with
  | GetEndpoint name =>
      if existsb (creates_endpoint name) t then Ok tt
      else Raise (Exception ("Endpoint " ++ name ++ " not found"))
  | CreateEndpoint name _ =>
      if existsb (creates_endpoint name) t
      then Raise (Exception ("Endpoint " ++ name ++ " already exists"))
      else Ok tt
  | GetIndex index_name _ | DeleteIndex index_name =>
      if has_index index_name t then Ok tt
      else Raise (Exception ("Index " ++ index_name ++ " not found"))
  | CreateDeltaSyncIndex _ _ _ _ index_name _ _ =>
      if has_index index_name t
      then Raise (Exception ("Index " ++ index_name ++ " already exists"))
      else Ok tt
  | Request _ _ _ _ => Raise (TypeError "not a method of the client")
  end.

(** A REST API that finds the serving endpoint once a deployment has been
    posted, and answers a deployment with [deploy_status]. *)
Definition rest_api (deploy_status : Z) (t : trace) (ev : event)
  : result response :=
  match ev with
  | Request method _ _ _ =>
      if String.eqb method "GET" then
        if existsb is_deployment t
        then Ok {| status_code := 200; text := dq "{'state': {'ready': 'READY'}}" |}
        else Ok {| status_code := 404;
                   text := dq "{'error_code': 'RESOURCE_DOES_NOT_EXIST'}" |}
      else if (deploy_status =? 200)%Z
      then Ok {| status_code := 200; text := dq "{'state': {'ready': 'NOT_READY'}}" |}
      else Ok {| status_code := deploy_status;
                 text := dq "{'error_code': 'PERMISSION_DENIED'}" |}
  | _ => Raise (TypeError "not a request")
  end.

Definition workspace (deploy_status : Z) : world :=
  {| requests_request := rest_api deploy_status;
     Setup.vector_search := vector_search |}.

(** A serialiser that stands for [json.dumps]: it writes the name of the
    endpoint only. *)
Definition dumps (v : pyval) : string :=
  match getitem_str v "name" with
  | Ok (PyStr name) => dq "{'name': '" ++ name ++ dq "'}"
  | _ => "{}"
  end.

(** The calls of an earlier run that deployed the serving endpoint. *)
Definition deployed : trace :=
  [Request "GET"
     "https://adb-1.azuredatabricks.net/api/2.0/serving-endpoints/llm_recommender_embeddings"
     (headers "dapi-token") None;
   Request "POST" "https://adb-1.azuredatabricks.net/api/2.0/serving-endpoints"
     (headers "dapi-token")
     (Some (dumps (endpoint_config notebook_config (PyStr "1"))))].

End Workspace.

(** ** More deployments, for running the code on its error paths *)

Module Cases.
Import Py Services VectorIndex.

(** The body with which the gateway reports an error instead of a
    completion. *)
Definition error_body : string :=
  dq "{'error_code': 'REQUEST_LIMIT_EXCEEDED', 'message': 'Too many requests'}".

(** A gateway that answers every request with the same body. *)
Definition gateway_answering (body : string)
  : string -> pyval -> pyval -> string * string -> result string :=
  fun _ _ _ _ => Ok body.

(** [s * n] *)
Fixpoint times (s : string) (n : nat) : string :=
  match n with
  | O => EmptyString
  | S n' => s ++ times s n'
  end.

(** A text of two thousand opening brackets and a closing brace. *)
Definition deeply_nested : string := times "[" 2000 ++ "}".

(** An object that lacks the key the prompt asks for. *)
Definition other_key : string :=
  dq "{'items': ['winter boots', 'gloves']}".

(** Services whose index does not exist. *)
Definition without_index
  (post : string -> pyval -> pyval -> string * string -> result string)
  : services :=
  {| requests_post := post;
     get_index := fun _ index_name _ =>
       Raise (Exception ("Index " ++ index_name ++ " not found"));
     similarity_search := fun _ _ _ _ => Ok (reply []) |}.

(** Services whose index answers every search with the same reply. *)
Definition answering
  (post : string -> pyval -> pyval -> string * string -> result string)
  (search_reply : pyval) : services :=
  {| requests_post := post;
     get_index := fun _ _ _ => Ok tt;
     similarity_search := fun _ _ _ _ => Ok search_reply |}.

(** A reply that found nothing and carries no [data_array]. *)
Definition reply_without_rows : pyval :=
  PyDict [("manifest", PyDict [("column_count", PyInt 3)]);
          ("result", PyDict [("row_count", PyInt 0)])].

End Cases.

(** * Properties *)

(** ** Facts about the string builtins *)

Module StrFacts.
Import Py.

Lemma app_nil_r (s : string) : s ++ EmptyString = s.
Proof. induction s as [|a s IH]; simpl; [reflexivity | now rewrite IH]. Qed.

Lemma app_assoc (s t u : string) : (s ++ t) ++ u = s ++ (t ++ u).
Proof. induction s as [|a s IH]; simpl; [reflexivity | now rewrite IH]. Qed.

Lemma length_app (s t : string) :
  String.length (s ++ t) = String.length s + String.length t.
Proof. induction s as [|a s IH]; simpl; [reflexivity | now rewrite IH]. Qed.

Lemma contains_char_app (c : ascii) (s t : string) :
  contains_char c (s ++ t) = contains_char c s || contains_char c t.
Proof.
  induction s as [|a s IH]; simpl; [reflexivity|].
  now rewrite IH, orb_assoc.
Qed.

(** [rfind] finds nothing exactly when the character is absent. *)
Lemma rfind_None (c : ascii) (s : string) :
  rfind c s = None <-> contains_char c s = false.
Proof.
  induction s as [|a s IH]; simpl; [tauto|].
  destruct (rfind c s) as [i|].
  - split; [discriminate|].
    intros H. apply orb_false_iff in H. destruct H as [_ H].
    apply IH in H. discriminate.
  - destruct (Ascii.eqb a c); simpl.
    + split; discriminate.
    + split; intros _; [now apply IH | reflexivity].
Qed.

(** What [rfind] returns is in range and holds the character. *)
Lemma rfind_Some_lt (c : ascii) (s : string) (i : nat) :
  rfind c s = Some i -> i < String.length s.
Proof.
  revert i. induction s as [|a s IH]; simpl; intros i H; [discriminate|].
  destruct (rfind c s) as [j|].
  - injection H as <-. specialize (IH j eq_refl). lia.
  - destruct (Ascii.eqb a c); [injection H as <-; lia | discriminate].
Qed.

(** Text with no occurrence, appended, does not move the last occurrence. *)
Lemma rfind_app_absent (c : ascii) (s t : string) :
  contains_char c t = false -> rfind c (s ++ t) = rfind c s.
Proof.
  intros Ht. induction s as [|a s IH]; simpl.
  - now apply rfind_None.
  - now rewrite IH.
Qed.

Lemma rfind_ends_with (c : ascii) (s : string) :
  ends_with c s = true -> rfind c s = Some (String.length s - 1).
Proof.
  induction s as [|a s IH]; simpl; [discriminate|].
  destruct s as [|b s'].
  - intros ->. reflexivity.
  - intros H. rewrite (IH H). simpl. now rewrite Nat.sub_0_r.
Qed.

Lemma ends_with_length (c : ascii) (s : string) :
  ends_with c s = true -> 0 < String.length s.
Proof. destruct s; simpl; [discriminate | lia]. Qed.

Lemma slice_to_app (s t : string) : slice_to (String.length s) (s ++ t) = s.
Proof. induction s as [|a s IH]; simpl; [now destruct t | now rewrite IH]. Qed.

(** A prefix that stops right after index [i] holding [c] ends with [c]. *)
Lemma slice_to_rfind_ends (c : ascii) (s : string) (i : nat) :
  rfind c s = Some i -> ends_with c (slice_to (S i) s) = true.
Proof.
  revert i. induction s as [|a s IH]; intros i H; [discriminate|].
  simpl in H. destruct (rfind c s) as [j|] eqn:E.
  - injection H as <-. specialize (IH j eq_refl).
    destruct s as [|b s']; [discriminate|].
    change (slice_to (S (S j)) (String a (String b s')))
      with (String a (slice_to (S j) (String b s'))).
    change (slice_to (S j) (String b s')) with (String b (slice_to j s')) in *.
    exact IH.
  - destruct (Ascii.eqb a c) eqn:Eac; [|discriminate].
    injection H as <-. simpl. now destruct s.
Qed.

Lemma ends_with_app (c : ascii) (s t : string) :
  ends_with c t = true -> ends_with c (s ++ t) = true.
Proof.
  intros Ht. induction s as [|a s IH]; simpl; [exact Ht|].
  destruct (s ++ t) eqn:E; [|exact IH].
  destruct s; simpl in E; [subst t; discriminate | discriminate].
Qed.

Lemma ends_with_unique (c d : ascii) (s : string) :
  ends_with c s = true -> ends_with d s = true -> c = d.
Proof.
  induction s as [|a s IH]; simpl; [discriminate|].
  destruct s as [|b s'].
  - intros H1 H2. apply Ascii.eqb_eq in H1, H2. congruence.
  - exact IH.
Qed.

Lemma starts_with_app (p s : string) :
  starts_with p s = true -> exists q, s = p ++ q.
Proof.
  revert s. induction p as [|a p IH]; intros s H.
  - now exists s.
  - destruct s as [|b s]; simpl in H; [discriminate|].
    apply andb_true_iff in H. destruct H as [Hab H].
    apply Ascii.eqb_eq in Hab. subst b.
    destruct (IH s H) as (q & ->). now exists q.
Qed.

End StrFacts.

(** ** Facts about the JSON decoder: it reads forward and never runs out
    of fuel *)

Module JsonFacts.
Import Py Json.

Lemma skip_ws_length (s : string) :
  String.length (skip_ws s) <= String.length s.
Proof.
  induction s as [|c s IH]; simpl; [lia|].
  destruct (is_ws c); simpl; lia.
Qed.

Lemma decode_uXXXX_length (s r : string) (u : N) :
  decode_uXXXX s = Some (u, r) -> String.length s = 4 + String.length r.
Proof.
  unfold decode_uXXXX. intros H.
  destruct s as [|a [|b [|c [|d s']]]]; try discriminate.
  destruct (hex_value a), (hex_value b), (hex_value c), (hex_value d);
    try discriminate.
  injection H as _ <-. reflexivity.
Qed.

Lemma unicode_escape_length (s bytes r : string) :
  unicode_escape s = Some (bytes, r) -> String.length r < String.length s.
Proof.
  unfold unicode_escape. intros H.
  destruct (decode_uXXXX s) as [[u s']|] eqn:E1; [|discriminate].
  apply decode_uXXXX_length in E1.
  destruct ((55296 <=? u) && (u <=? 56319))%N;
    [|injection H as _ <-; lia].
  destruct s' as [|b [|c s2]]; try (injection H as _ <-; lia).
  destruct (Ascii.eqb b backslash && Ascii.eqb c "u");
    [|injection H as _ <-; lia].
  destruct (decode_uXXXX s2) as [[u2 [|c3 s3]]|] eqn:E2;
    try (injection H as _ <-; lia).
  apply decode_uXXXX_length in E2.
  destruct ((56320 <=? u2) && (u2 <=? 57343))%N;
    injection H as _ <-; simpl in *; lia.
Qed.

Lemma scanstring_length (fuel begin : nat) (s t r : string) :
  scanstring fuel begin s = inl (t, r) -> String.length r < String.length s.
Proof.
  revert s t r. induction fuel as [|fuel IH]; intros s t r H; [discriminate|].
  simpl in H. destruct s as [|c s']; [discriminate|].
  destruct (Ascii.eqb c dquote); [injection H as _ <-; simpl; lia|].
  destruct (Ascii.eqb c backslash).
  - destruct s' as [|e s2]; [discriminate|].
    destruct (Ascii.eqb e "u").
    + destruct (String.length s2 <=? 4)%nat; [discriminate|].
      destruct (unicode_escape s2) as [[bytes s3]|] eqn:E; [|discriminate].
      apply unicode_escape_length in E.
      destruct (scanstring fuel begin s3) as [[t' r']|] eqn:E'; [|discriminate].
      apply IH in E'. injection H as _ <-. simpl. lia.
    + destruct (simple_escape e); [|discriminate].
      destruct (scanstring fuel begin s2) as [[t' r']|] eqn:E'; [|discriminate].
      apply IH in E'. injection H as _ <-. simpl. lia.
  - destruct (nat_of_ascii c <? 32)%nat; [discriminate|].
    destruct (scanstring fuel begin s') as [[t' r']|] eqn:E'; [|discriminate].
    apply IH in E'. injection H as _ <-. simpl. lia.
Qed.

Lemma scanstring_fuel (fuel begin : nat) (s : string) :
  String.length s < fuel -> scanstring fuel begin s <> inr TooDeep.
Proof.
  revert s. induction fuel as [|fuel IH]; intros s Hlen; [lia|].
  simpl. destruct s as [|c s']; [discriminate|]. simpl in Hlen.
  destruct (Ascii.eqb c dquote); [discriminate|].
  destruct (Ascii.eqb c backslash).
  - destruct s' as [|e s2]; [discriminate|]. simpl in Hlen.
    destruct (Ascii.eqb e "u").
    + destruct (String.length s2 <=? 4)%nat; [discriminate|].
      destruct (unicode_escape s2) as [[bytes s3]|] eqn:E; [|discriminate].
      apply unicode_escape_length in E.
      specialize (IH s3 ltac:(lia)).
      destruct (scanstring fuel begin s3) as [[t' r']|f]; [discriminate|].
      congruence.
    + destruct (simple_escape e); [|discriminate].
      specialize (IH s2 ltac:(lia)).
      destruct (scanstring fuel begin s2) as [[t' r']|f]; [discriminate|].
      congruence.
  - destruct (nat_of_ascii c <? 32)%nat; [discriminate|].
    specialize (IH s' ltac:(lia)).
    destruct (scanstring fuel begin s') as [[t' r']|f]; [discriminate|].
    congruence.
Qed.

Lemma span_digits_length (s d r : string) :
  span_digits s = (d, r) -> String.length r <= String.length s.
Proof.
  revert d r. induction s as [|c s IH]; simpl; intros d r H.
  - injection H as _ <-. simpl. lia.
  - destruct (is_digit c).
    + destruct (span_digits s) as [d' r'] eqn:E. injection H as _ <-.
      specialize (IH _ _ eq_refl). lia.
    + injection H as _ <-. simpl. lia.
Qed.

Lemma match_integer_length (s i r : string) :
  match_integer s = Some (i, r) -> String.length r < String.length s.
Proof.
  unfold match_integer. intros H.
  destruct s as [|c s']; [discriminate|].
  destruct (Ascii.eqb c "-").
  - destruct s' as [|c' s2]; [discriminate|].
    destruct (Ascii.eqb c' "0"); [injection H as _ <-; simpl; lia|].
    destruct (is_digit c'); [|discriminate].
    destruct (span_digits s2) as [d r'] eqn:E. apply span_digits_length in E.
    injection H as _ <-. simpl. lia.
  - destruct (Ascii.eqb c "0"); [injection H as _ <-; simpl; lia|].
    destruct (is_digit c); [|discriminate].
    destruct (span_digits s') as [d r'] eqn:E. apply span_digits_length in E.
    injection H as _ <-. simpl. lia.
Qed.

Lemma match_frac_length (s f r : string) :
  match_frac s = (f, r) -> String.length r <= String.length s.
Proof.
  unfold match_frac. intros H. destruct s as [|c s']; [injection H as _ <-; lia|].
  destruct (Ascii.eqb c "."); [|injection H as _ <-; lia].
  destruct (span_digits s') as [[|a d] r'] eqn:E;
    apply span_digits_length in E; injection H as _ <-; simpl; lia.
Qed.

Lemma match_exp_length (s e r : string) :
  match_exp s = (e, r) -> String.length r <= String.length s.
Proof.
  unfold match_exp. intros H. destruct s as [|c s']; [injection H as _ <-; lia|].
  destruct (Ascii.eqb c "e" || Ascii.eqb c "E"); [|injection H as _ <-; lia].
  destruct s' as [|c' s2].
  - simpl in H. injection H as _ <-. simpl. lia.
  - destruct (Ascii.eqb c' "-" || Ascii.eqb c' "+").
    + destruct (span_digits s2) as [[|a d] r'] eqn:E;
        apply span_digits_length in E; injection H as _ <-; simpl in *; lia.
    + destruct (span_digits (String c' s2)) as [[|a d] r'] eqn:E;
        apply span_digits_length in E; injection H as _ <-; simpl in *; lia.
Qed.

Lemma match_number_length (s r : string) (v : pyval) :
  match_number s = Some (v, r) -> String.length r < String.length s.
Proof.
  unfold match_number. intros H.
  destruct (match_integer s) as [[i s1]|] eqn:E1; [|discriminate].
  apply match_integer_length in E1.
  destruct (match_frac s1) as [f s2] eqn:E2. apply match_frac_length in E2.
  destruct (match_exp s2) as [e s3] eqn:E3. apply match_exp_length in E3.
  destruct f, e; injection H as _ <-; lia.
Qed.

Lemma strip_prefix_length (p s r : string) :
  strip_prefix p s = Some r -> String.length s = String.length p + String.length r.
Proof.
  revert s. induction p as [|a p IH]; simpl; intros s H.
  - now injection H as <-.
  - destruct s as [|b s]; [discriminate|].
    destruct (Ascii.eqb a b); [|discriminate]. simpl. now rewrite (IH _ H).
Qed.

Lemma constant_length (s r : string) (v : pyval) :
  constant s = Some (v, r) -> String.length r < String.length s.
Proof.
  unfold constant. intros H.
  destruct (strip_prefix "null" s) eqn:E1;
    [apply strip_prefix_length in E1; injection H as _ <-; simpl in E1; lia|].
  destruct (strip_prefix "true" s) eqn:E2;
    [apply strip_prefix_length in E2; injection H as _ <-; simpl in E2; lia|].
  destruct (strip_prefix "false" s) eqn:E3;
    [apply strip_prefix_length in E3; injection H as _ <-; simpl in E3; lia|].
  discriminate.
Qed.

Lemma float_constant_length (s r : string) (v : pyval) :
  float_constant s = Some (v, r) -> String.length r < String.length s.
Proof.
  unfold float_constant. intros H.
  destruct (strip_prefix "NaN" s) eqn:E1;
    [apply strip_prefix_length in E1; injection H as _ <-; simpl in E1; lia|].
  destruct (strip_prefix "Infinity" s) eqn:E2;
    [apply strip_prefix_length in E2; injection H as _ <-; simpl in E2; lia|].
  destruct (strip_prefix "-Infinity" s) eqn:E3;
    [apply strip_prefix_length in E3; injection H as _ <-; simpl in E3; lia|].
  discriminate.
Qed.

Lemma scanstring_recursion (fuel begin : nat) (s what : string) :
  scanstring fuel begin s <> inr (Recursion what).
Proof.
  revert s. induction fuel as [|fuel IH]; intros s; [discriminate|].
  simpl. destruct s as [|c s']; [discriminate|].
  destruct (Ascii.eqb c dquote); [discriminate|].
  destruct (Ascii.eqb c backslash).
  - destruct s' as [|e s2]; [discriminate|].
    destruct (Ascii.eqb e "u").
    + destruct (String.length s2 <=? 4)%nat; [discriminate|].
      destruct (unicode_escape s2) as [[bytes s3]|]; [|discriminate].
      specialize (IH s3).
      destruct (scanstring fuel begin s3) as [[t' r']|f]; [discriminate|].
      congruence.
    + destruct (simple_escape e); [|discriminate].
      specialize (IH s2).
      destruct (scanstring fuel begin s2) as [[t' r']|f]; [discriminate|].
      congruence.
  - destruct (nat_of_ascii c <? 32)%nat; [discriminate|].
    specialize (IH s').
    destruct (scanstring fuel begin s') as [[t' r']|f]; [discriminate|].
    congruence.
Qed.

#[local] Arguments scanstring : simpl never.

Ltac step H :=
  match type of H with
  | context [match ?x with _ => _ end] => destruct x eqn:?
  | context [if ?b then _ else _] => destruct b eqn:?
  end.

Ltac skip_ws_facts :=
  repeat match goal with
    | E : skip_ws ?s = _ |- _ =>
        let L := fresh "L" in
        pose proof (skip_ws_length s) as L; rewrite E in L; clear E
    end.

Ltac skip_ws_bounds :=
  repeat match goal with
    | H : context [String.length (skip_ws ?s)] |- _ =>
        lazymatch goal with
        | L : String.length (skip_ws s) <= String.length s |- _ => fail
        | _ => pose proof (skip_ws_length s)
        end
    end.

(** A value that is read leaves a strictly shorter rest. *)
Lemma scan_length (fuel : nat) :
  (forall depth s v r,
      scan_once fuel depth s = inl (v, r) ->
      String.length r < String.length s)
  /\ (forall depth pairs begin s v r,
         object_members fuel depth pairs begin s = inl (v, r) ->
         String.length r < String.length s)
  /\ (forall depth values s v r,
         array_elems fuel depth values s = inl (v, r) ->
         String.length r < String.length s).
Proof.
  induction fuel as [|fuel (IHs & IHo & IHa)];
    [repeat split; intros; discriminate|].
  split; [|split].
  - intros depth s v r H. simpl in H.
    repeat step H; try discriminate;
      try (injection H; intros; subst; clear H); skip_ws_facts;
      repeat match goal with
        | E : scanstring _ _ _ = inl _ |- _ => apply scanstring_length in E
        | E : object_members fuel _ _ _ _ = inl _ |- _ => apply IHo in E
        | E : array_elems fuel _ _ _ = inl _ |- _ => apply IHa in E
        | E : constant _ = Some _ |- _ => apply constant_length in E
        | E : match_number _ = Some _ |- _ => apply match_number_length in E
        | E : float_constant _ = Some _ |- _ => apply float_constant_length in E
        end; skip_ws_bounds; simpl in *; lia.
  - intros depth pairs begin s v r H. simpl in H.
    repeat step H; try discriminate;
      try (injection H; intros; subst; clear H); skip_ws_facts;
      repeat match goal with
        | E : scanstring _ _ _ = inl _ |- _ => apply scanstring_length in E
        | E : scan_once fuel _ _ = inl _ |- _ => apply IHs in E
        | E : object_members fuel _ _ _ _ = inl _ |- _ => apply IHo in E
        end; skip_ws_bounds; simpl in *; lia.
  - intros depth values s v r H. simpl in H.
    repeat step H; try discriminate;
      try (injection H; intros; subst; clear H); skip_ws_facts;
      repeat match goal with
        | E : scan_once fuel _ _ = inl _ |- _ => apply IHs in E
        | E : array_elems fuel _ _ _ = inl _ |- _ => apply IHa in E
        end; skip_ws_bounds; simpl in *; lia.
Qed.

Ltac length_side :=
  repeat match goal with
    | |- context [String.length (skip_ws ?s)] =>
        lazymatch goal with
        | L : String.length (skip_ws s) <= String.length s |- _ => fail
        | _ => pose proof (skip_ws_length s)
        end
    end;
  skip_ws_bounds; simpl in *; lia.

(** The scanner refuses a recursive call for an object or for an array. *)
Lemma scan_recursion (fuel : nat) :
  (forall depth s what,
      scan_once fuel depth s = inr (Recursion what) ->
      what = "object" \/ what = "array")
  /\ (forall depth pairs begin s what,
         object_members fuel depth pairs begin s = inr (Recursion what) ->
         what = "object" \/ what = "array")
  /\ (forall depth values s what,
         array_elems fuel depth values s = inr (Recursion what) ->
         what = "object" \/ what = "array").
Proof.
  induction fuel as [|fuel (IHs & IHo & IHa)];
    [repeat split; intros; discriminate|].
  split; [|split].
  - intros depth s what H. simpl in H.
    repeat step H; try discriminate;
      try (injection H; intros; subst; clear H); auto;
      match goal with
      | E : scanstring _ _ _ = inr (Recursion _) |- _ =>
          now apply scanstring_recursion in E
      | E : object_members fuel _ _ _ _ = inr (Recursion _) |- _ =>
          now apply IHo in E
      | E : array_elems fuel _ _ _ = inr (Recursion _) |- _ =>
          now apply IHa in E
      end.
  - intros depth pairs begin s what H. simpl in H.
    repeat step H; try discriminate;
      try (injection H; intros; subst; clear H); auto;
      match goal with
      | E : scanstring _ _ _ = inr (Recursion _) |- _ =>
          now apply scanstring_recursion in E
      | E : scan_once fuel _ _ = inr (Recursion _) |- _ => now apply IHs in E
      | E : object_members fuel _ _ _ _ = inr (Recursion _) |- _ =>
          now apply IHo in E
      end.
  - intros depth values s what H. simpl in H.
    repeat step H; try discriminate;
      try (injection H; intros; subst; clear H); auto;
      match goal with
      | E : scan_once fuel _ _ = inr (Recursion _) |- _ => now apply IHs in E
      | E : array_elems fuel _ _ _ = inr (Recursion _) |- _ =>
          now apply IHa in E
      end.
Qed.

(** Twice the length of the text, plus one, is fuel enough for a value;
    plus two, for the members of an object or the elements of an array. *)
Lemma scan_fuel (fuel : nat) :
  (forall depth s,
      2 * String.length s + 1 <= fuel ->
      scan_once fuel depth s <> inr TooDeep)
  /\ (forall depth pairs begin s,
         2 * String.length s + 2 <= fuel ->
         object_members fuel depth pairs begin s <> inr TooDeep)
  /\ (forall depth values s,
         2 * String.length s + 2 <= fuel ->
         array_elems fuel depth values s <> inr TooDeep).
Proof.
  induction fuel as [|fuel (IHs & IHo & IHa)];
    [repeat split; intros; lia|].
  pose proof (scan_length fuel) as (Ls & Lo & La).
  split; [|split].
  - intros depth s Hlen H. simpl in H.
    repeat step H; try discriminate;
      try (injection H; intros; subst; clear H); skip_ws_facts;
      repeat match goal with
        | E : scanstring _ _ _ = inl _ |- _ => apply scanstring_length in E
        end;
      match goal with
      | E : scanstring _ _ _ = inr TooDeep |- _ =>
          apply scanstring_fuel in E; [contradiction | length_side]
      | E : object_members fuel _ _ _ _ = inr TooDeep |- _ =>
          apply IHo in E; [contradiction | length_side]
      | E : array_elems fuel _ _ _ = inr TooDeep |- _ =>
          apply IHa in E; [contradiction | length_side]
      end.
  - intros depth pairs begin s Hlen H. simpl in H.
    repeat step H; try discriminate;
      try (injection H; intros; subst; clear H); skip_ws_facts;
      repeat match goal with
        | E : scanstring _ _ _ = inl _ |- _ => apply scanstring_length in E
        | E : scan_once fuel _ _ = inl _ |- _ => apply Ls in E
        end;
      match goal with
      | E : scanstring _ _ _ = inr TooDeep |- _ =>
          apply scanstring_fuel in E; [contradiction | length_side]
      | E : scan_once fuel _ _ = inr TooDeep |- _ =>
          apply IHs in E; [contradiction | length_side]
      | E : object_members fuel _ _ _ _ = inr TooDeep |- _ =>
          apply IHo in E; [contradiction | length_side]
      end.
  - intros depth values s Hlen H. simpl in H.
    repeat step H; try discriminate;
      try (injection H; intros; subst; clear H); skip_ws_facts;
      repeat match goal with
        | E : scan_once fuel _ _ = inl _ |- _ => apply Ls in E
        end;
      match goal with
      | E : scan_once fuel _ _ = inr TooDeep |- _ =>
          apply IHs in E; [contradiction | length_side]
      | E : array_elems fuel _ _ _ = inr TooDeep |- _ =>
          apply IHa in E; [contradiction | length_side]
      end.
Qed.

(** What [json.loads] raises, at whatever depth: [JSONDecodeError]; the
    [ValueError] of [int] for an integer literal of too many digits; or
    [RecursionError], on entering an object or an array when the
    interpreter allows no further call.  The fuel the model starts with is
    never used up. *)
Lemma loads_within_raises (depth : nat) (doc : string) (e : exn) :
  loads_within depth doc = Raise e ->
  (exists msg lineno colno pos, e = JSONDecodeError msg lineno colno pos)
  \/ (exists n, e = digits_error n)
  \/ e = recursion_error "object"
  \/ e = recursion_error "array".
Proof.
  unfold loads_within, decode_error. intros H.
  destruct (strip_prefix bom doc); [injection H as <-; left; eauto|].
  destruct (scan_once _ _ _) as [[v rest]|[msg rest_len| |what|n]] eqn:E.
  - destruct (skip_ws rest); [discriminate | injection H as <-; left; eauto].
  - injection H as <-. left. eauto.
  - exfalso. apply (proj1 (scan_fuel _)) in E; [exact E|].
    pose proof (skip_ws_length doc). lia.
  - injection H as <-. right. right.
    assert (Hwhat : what = "object" \/ what = "array")
      by apply (proj1 (scan_recursion _) _ _ _ E).
    destruct Hwhat as [-> | ->]; auto.
  - injection H as <-. right. left. eauto.
Qed.

Lemma loads_raises (doc : string) (e : exn) :
  loads doc = Raise e ->
  (exists msg lineno colno pos, e = JSONDecodeError msg lineno colno pos)
  \/ (exists n, e = digits_error n)
  \/ e = recursion_error "object"
  \/ e = recursion_error "array".
Proof. apply loads_within_raises. Qed.

End JsonFacts.

(** ** The response parser *)

Module ParserFacts.
Import Py Services Recommender Observe StrFacts.

(** [json.loads] on a few texts: a nested document, a repeated key, text
    after the value, an unfinished array, a bad escape on the second line. *)
Example loads_document :
  Json.loads (dq "{'next_items': ['winter boots', 12, -0.5e3, true, null, {'a': []}]}")
  = Ok (PyDict
          [("next_items",
            PyList [PyStr "winter boots"; PyInt 12; PyFloat "-0.5e3";
                    PyBool true; PyNone; PyDict [("a", PyList [])]])]).
Proof. vm_compute. reflexivity. Qed.

Example loads_repeated_key :
  Json.loads (dq " {'a': 1, 'b': 2, 'a': 3} ")
  = Ok (PyDict [("a", PyInt 3); ("b", PyInt 2)]).
Proof. vm_compute. reflexivity. Qed.

Example loads_extra_data :
  Json.loads "[1, 2] and more"
  = Raise (JSONDecodeError "Extra data" 1 8 7).
Proof. vm_compute. reflexivity. Qed.

Example loads_unfinished :
  Json.loads "[1, 2"
  = Raise (JSONDecodeError "Expecting ',' delimiter" 1 6 5).
Proof. vm_compute. reflexivity. Qed.

Example loads_bad_escape :
  Json.loads ("{" ++ chr newline ++ dq "'a': 'x\q'}")
  = Raise (JSONDecodeError "Invalid \escape" 2 8 9).
Proof. vm_compute. reflexivity. Qed.

Lemma extract_json_text_spec (prefix tail : string) :
  ends_with rbrace prefix = true ->
  contains_char rbrace tail = false ->
  extract_json_text (PyStr (prefix ++ tail)) = Ok prefix.
Proof.
  intros Hend Htail. unfold extract_json_text, method_rindex, rindex.
  rewrite (rfind_app_absent _ _ _ Htail), (rfind_ends_with _ _ Hend).
  simpl. f_equal.
  pose proof (ends_with_length _ _ Hend) as Hlen.
  replace (String.length prefix - 1 + 1) with (String.length prefix) by lia.
  apply slice_to_app.
Qed.

Lemma extract_json_text_absent (raw : string) :
  contains_char rbrace raw = false ->
  extract_json_text (PyStr raw) = Raise (ValueError "substring not found").
Proof.
  intros H. unfold extract_json_text, method_rindex, rindex.
  apply rfind_None in H. now rewrite H.
Qed.

Lemma extract_json_text_ends (raw_text : pyval) (json_text : string) :
  extract_json_text raw_text = Ok json_text ->
  ends_with rbrace json_text = true.
Proof.
  unfold extract_json_text, method_rindex, rindex.
  destruct raw_text as [| | | |s| |]; simpl; try discriminate.
  destruct (rfind rbrace s) as [i|] eqn:E; simpl; [|discriminate].
  intros H. injection H as <-. rewrite Nat.add_1_r.
  now apply slice_to_rfind_ends.
Qed.

(** C1, as the code has it: text after the last closing brace is dropped,
    text before the object is not.  With [body] ending in a closing brace and
    no closing brace in [tail], the parser answers what [json.loads] answers
    on everything up to the end of [body], leading [prose] included; so a
    well-formed JSON object followed by such a tail is parsed to its
    mapping. *)
Theorem parse_response_drops_trailing_text
  (body tail : string) (mapping : list (string * pyval)) :
  ends_with rbrace body = true ->
  contains_char rbrace tail = false ->
  (forall prose,
     parse_response (PyStr (prose ++ body ++ tail)) = Json.loads (prose ++ body))
  /\ (Json.loads body = Ok (PyDict mapping) ->
      parse_response (PyStr (body ++ tail)) = Ok (PyDict mapping)).
Proof.
  intros Hend Htail.
  assert (Hgen : forall prose,
             parse_response (PyStr (prose ++ body ++ tail))
             = Json.loads (prose ++ body)).
  { intros prose. unfold parse_response.
    rewrite <- app_assoc.
    rewrite extract_json_text_spec; [reflexivity | | exact Htail].
    now apply ends_with_app. }
  split; [exact Hgen|].
  intros Hloads. specialize (Hgen EmptyString). simpl in Hgen.
  now rewrite Hgen.
Qed.

Lemma parse_response_drops_trailing_text_witness :
  parse_response
    (PyStr (dq "{'next_items': ['gloves', 'wool socks']}" ++ " Enjoy your purchase!"))
  = Ok (PyDict [("next_items", PyList [PyStr "gloves"; PyStr "wool socks"])]).
Proof.
  apply (parse_response_drops_trailing_text
           (dq "{'next_items': ['gloves', 'wool socks']}")
           " Enjoy your purchase!");
    vm_compute; reflexivity.
Defined.

(** C1 as stated fails: a well-formed object preceded by prose is rejected,
    because the prose is handed to [json.loads] with it. *)
Lemma leading_prose_is_rejected :
  let object_text := dq "{'next_items': ['gloves']}" in
  let mapping := PyDict [("next_items", PyList [PyStr "gloves"])] in
  Json.loads object_text = Ok mapping
  /\ ends_with rbrace object_text = true
  /\ parse_response (PyStr ("Sure! " ++ object_text))
     = Raise (JSONDecodeError "Expecting value" 1 1 0)
  /\ parse_response (PyStr ("Sure! " ++ object_text)) <> Ok mapping.
Proof.
  repeat split; try (vm_compute; reflexivity).
  vm_compute. discriminate.
Qed.

End ParserFacts.

(** ** The orchestrator *)

Module OrchestratorFacts.
Import Py Services Recommender Observe StrFacts ParserFacts.
Local Open Scope list_scope.
Local Open Scope py_scope.

Ltac unfold_monad :=
  unfold Services.bind, Services.pure, Services.call, Services.ret,
    Services.raise.

Lemma searches_app (t u : trace) : searches (t ++ u) = searches t ++ searches u.
Proof. apply filter_app. Qed.

Lemma posts_app (t u : trace) : posts (t ++ u) = posts t ++ posts u.
Proof. apply filter_app. Qed.

(** What [app.py]'s [get_general_products] does once the prompt is built
    and the gateway has answered with a text as message content. *)
Lemma app_general_products_run (sv : services) (endpoint_url token : string)
  (items : list string) (t : trace) (prompt response_text : string)
  (raw_text : pyval) :
  App._get_prompt items = Ok prompt ->
  requests_post sv endpoint_url headers (data prompt) ("token", token)
  = Ok response_text ->
  message_content response_text = Ok raw_text ->
  App.get_general_products sv endpoint_url token items t
  = (parsed <-- parse_response raw_text ;; getitem_str parsed "next_items",
     t ++ [RequestsPost endpoint_url headers (data prompt) ("token", token)]).
Proof.
  intros Hprompt Hpost Hcontent.
  unfold App.get_general_products, parse_response. unfold_monad.
  rewrite Hprompt, Hpost, Hcontent.
  destruct (extract_json_text raw_text) as [json_text|e]; simpl; [|reflexivity].
  destruct (Json.loads json_text) as [parsed|e]; simpl; [|reflexivity].
  destruct (getitem_str parsed "next_items"); reflexivity.
Qed.




(** C5.  On an empty item list the prompt builder raises ([IndexError] from
    [items[0]] in [_get_prompt], [TypeError] from [None += ...] in
    [get_user_prompt]: the specification's InvalidInput), and every function
    built on it fails with the trace unchanged: no call to the gateway or to
    the index has been made. *)
Theorem empty_item_list_fails_before_any_call (env : App.settings)
  (sv : services) (vs_client : VectorSearchClient)
  (endpoint_url token : string) (n_items : nat) (t : trace) :
  let e := IndexError "list index out of range" in
  App._get_prompt [] = Raise e
  /\ Notebook._get_prompt [] = Raise e
  /\ GeneralRecommendations.get_user_prompt []
     = Raise (TypeError "unsupported operand type(s) for +=: 'NoneType' and 'str'")
  /\ App.get_general_products sv endpoint_url token [] t = (Raise e, t)
  /\ Notebook.get_general_products sv endpoint_url token [] t = (Raise e, t)
  /\ App.LLM4rec sv vs_client endpoint_url token [] n_items t = (Raise e, t)
  /\ Notebook.pipeline sv vs_client endpoint_url token [] n_items t = (Raise e, t)
  /\ App.get_recommendations env sv {| App.items := [] |} t
     = (App.HTTPException 500 "list index out of range", t).
Proof. repeat split. Qed.

(** *** The similarity search *)

Lemma comprehension_rows (hits : list VectorIndex.hit) :
  comprehension (map VectorIndex.row hits) = Ok (map VectorIndex.text hits).
Proof.
  induction hits as [|h hits IH]; [reflexivity|].
  simpl. rewrite IH. reflexivity.
Qed.

(** [get_specific_products] when the index is found and the search answers
    the rows of [hits]. *)
Lemma specific_products_run (index_name endpoint_name : string)
  (sv : services) (vs_client : VectorSearchClient) (general_items : pyval)
  (num_items : nat) (t : trace) (hits : list VectorIndex.hit) :
  get_index sv vs_client index_name endpoint_name = Ok tt ->
  similarity_search sv index_name (str general_items) ["id"; "text"] num_items
  = Ok (VectorIndex.reply (map VectorIndex.row hits)) ->
  get_specific_products_at index_name endpoint_name sv vs_client general_items
    num_items t
  = (Ok (map VectorIndex.text hits),
     t ++ [GetIndex vs_client index_name endpoint_name]
       ++ [SimilaritySearch index_name (str general_items) ["id"; "text"]
             num_items]).
Proof.
  intros Hidx Hsearch. unfold get_specific_products_at. unfold_monad.
  rewrite Hidx, Hsearch. cbn -[comprehension].
  rewrite comprehension_rows. now rewrite <- List.app_assoc.
Qed.

(** C6.  When the search answers rows of the shape [[id, text, score]], the
    subscript [-2] picks the [text] of each row, and the output of
    [get_specific_products], in the notebook and in [app.py], is the [text]
    column in the order the index returned the rows. *)
Theorem specific_products_are_the_text_column (sv : services)
  (vs_client : VectorSearchClient) (general_items : pyval) (num_items : nat)
  (t : trace) (hits : list VectorIndex.hit) :
  (forall index_name endpoint_name,
     get_index sv vs_client index_name endpoint_name = Ok tt) ->
  (forall index_name,
     similarity_search sv index_name (str general_items) ["id"; "text"] num_items
     = Ok (VectorIndex.reply (map VectorIndex.row hits))) ->
  comprehension (map VectorIndex.row hits) = Ok (map VectorIndex.text hits)
  /\ fst (App.get_specific_products sv vs_client general_items num_items t)
     = Ok (map VectorIndex.text hits)
  /\ fst (Notebook.get_specific_products sv vs_client general_items num_items t)
     = Ok (map VectorIndex.text hits).
Proof.
  intros Hidx Hsearch. split; [apply comprehension_rows|].
  unfold App.get_specific_products, Notebook.get_specific_products.
  split;
    rewrite (specific_products_run _ _ _ _ _ _ _ hits (Hidx _ _) (Hsearch _));
    reflexivity.
Qed.

Lemma specific_products_are_the_text_column_witness :
  fst (App.get_specific_products
         (VectorIndex.with_index (Scenario.gateway Scenario.only_json)
            Scenario.ranked)
         Scenario.vs_client (PyStr "gloves") 3 [])
  = Ok [PyStr "Waterproof galoshes"; PyStr "Down parka";
        PyStr "Thermal base layer set"].
Proof.
  apply (specific_products_are_the_text_column
           (VectorIndex.with_index (Scenario.gateway Scenario.only_json)
              Scenario.ranked)
           Scenario.vs_client (PyStr "gloves") 3 []
           (VectorIndex.search Scenario.ranked "gloves" 3));
    intros; reflexivity.
Defined.

(** [get_specific_products] against an index that keeps its contract. *)
Lemma specific_products_with_index (index_name endpoint_name : string)
  (post : string -> pyval -> pyval -> string * string -> result string)
  (ranked : string -> list VectorIndex.hit) (vs_client : VectorSearchClient)
  (general_items : pyval) (num_items : nat) (t : trace) :
  get_specific_products_at index_name endpoint_name
    (VectorIndex.with_index post ranked) vs_client general_items num_items t
  = (Ok (map VectorIndex.text
           (VectorIndex.search ranked (str general_items) num_items)),
     t ++ [GetIndex vs_client index_name endpoint_name]
       ++ [SimilaritySearch index_name (str general_items) ["id"; "text"]
             num_items]).
Proof. now apply specific_products_run. Qed.

(** C3.  Against an index that answers the first [N] of its ranked matches,
    [get_specific_products] returns without raising; its output has length
    [N] when the index holds at least [N] matches and the length of what the
    index holds when that is fewer. *)
Theorem specific_products_count
  (post : string -> pyval -> pyval -> string * string -> result string)
  (ranked : string -> list VectorIndex.hit) (vs_client : VectorSearchClient)
  (general_items : pyval) (N : nat) (t : trace) :
  1 <= N ->
  let available := List.length (ranked (str general_items)) in
  exists out out',
    fst (App.get_specific_products (VectorIndex.with_index post ranked)
           vs_client general_items N t) = Ok out
    /\ fst (Notebook.get_specific_products (VectorIndex.with_index post ranked)
              vs_client general_items N t) = Ok out'
    /\ out = out'
    /\ (N <= available -> List.length out = N)
    /\ (available < N -> List.length out = available).
Proof.
  intros _ available.
  unfold App.get_specific_products, Notebook.get_specific_products.
  rewrite !specific_products_with_index. simpl fst.
  do 2 eexists. repeat split.
  - intros H. rewrite length_map. unfold VectorIndex.search.
    rewrite length_firstn. subst available. lia.
  - intros H. rewrite length_map. unfold VectorIndex.search.
    rewrite length_firstn. subst available. lia.
Qed.

Lemma specific_products_count_witness :
  exists out out',
    fst (App.get_specific_products
           (VectorIndex.with_index (Scenario.gateway Scenario.only_json)
              Scenario.small_ranked)
           Scenario.vs_client (PyStr "gloves") 5 []) = Ok out
    /\ fst (Notebook.get_specific_products
              (VectorIndex.with_index (Scenario.gateway Scenario.only_json)
                 Scenario.small_ranked)
              Scenario.vs_client (PyStr "gloves") 5 []) = Ok out'
    /\ out = out'
    /\ (5 <= 3 -> List.length out = 5)
    /\ (3 < 5 -> List.length out = 3).
Proof.
  apply (specific_products_count (Scenario.gateway Scenario.only_json)
           Scenario.small_ranked Scenario.vs_client (PyStr "gloves") 5 []).
  lia.
Defined.

(** *** The request path as a whole *)

Ltac destruct_results :=
  repeat match goal with
    | |- context [match ?r with Ok _ => _ | Raise _ => _ end] =>
        destruct r; cbn [fst snd]
    end.

Ltac close_trace :=
  first
    [ exists []; rewrite List.app_nil_r; split; [reflexivity|];
      cbn; repeat split; auto
    | rewrite <- ?List.app_assoc; eexists; split; [reflexivity|];
      cbn; repeat split; auto; repeat constructor ].

(** One run of [LLM4rec] appends to the trace at most one call to the
    gateway and at most one similarity search, and that search asks for
    [n_items] results. *)
Lemma LLM4rec_trace (sv : services) (vs_client : VectorSearchClient)
  (endpoint_url token : string) (items : list string) (n_items : nat)
  (t : trace) :
  exists evs,
    snd (App.LLM4rec sv vs_client endpoint_url token items n_items t) = t ++ evs
    /\ List.length (posts evs) <= 1
    /\ List.length (searches evs) <= 1
    /\ Forall (asks_for n_items) evs.
Proof.
  unfold App.LLM4rec, App.get_general_products, App.get_specific_products,
    get_specific_products_at.
  unfold_monad. destruct_results; close_trace.
Qed.

(** C7.  The handler answers what [LLM4rec] returned when it returned, and
    an [HTTPException] with status 500 and [str(e)] as detail when it raised
    [e], whatever [e] is; in both cases the request made at most one call to
    the gateway and at most one similarity search: nothing is tried twice. *)
Theorem front_door_answers (env : App.settings) (sv : services)
  (body : App.ItemList) (t : trace) :
  let vs_client :=
    {| personal_access_token := App.token env;
       Services.workspace_url := App.workspace_url env |} in
  let run :=
    App.LLM4rec sv vs_client (App.endpoint_url env) (App.token env)
      (App.items body) 5 t in
  (forall result t',
     run = (Ok result, t') ->
     App.get_recommendations env sv body t = (App.Return result, t'))
  /\ (forall e t',
        run = (Raise e, t') ->
        App.get_recommendations env sv body t
        = (App.HTTPException 500 (str_exn e), t'))
  /\ (exists evs,
        snd (App.get_recommendations env sv body t) = t ++ evs
        /\ List.length (posts evs) <= 1
        /\ List.length (searches evs) <= 1).
Proof.
  intros vs_client run. unfold App.get_recommendations.
  fold vs_client. fold run.
  split; [|split].
  - intros result t' H. now rewrite H.
  - intros e t' H. now rewrite H.
  - destruct (LLM4rec_trace sv vs_client (App.endpoint_url env)
                (App.token env) (App.items body) 5 t)
      as (evs & Htrace & Hposts & Hsearches & _).
    fold run in Htrace. exists evs.
    destruct run as [[result|e] t']; simpl in *; auto.
Qed.

(** C9.  The handler passes the constant 5 as [n_items]: every similarity
    search a request makes asks for 5 results, whatever the body; and
    against an index that keeps its contract a successful answer holds at
    most 5 items. *)
Theorem front_door_asks_for_five (env : App.settings) (body : App.ItemList)
  (t : trace) :
  (forall sv, exists evs,
      snd (App.get_recommendations env sv body t) = t ++ evs
      /\ Forall (asks_for 5) evs)
  /\ (forall post ranked,
        match fst (App.get_recommendations env
                     (VectorIndex.with_index post ranked) body t) with
        | App.Return result => List.length result <= 5
        | App.HTTPException _ _ => True
        end).
Proof.
  split.
  - intros sv. unfold App.get_recommendations.
    destruct (LLM4rec_trace sv
                {| personal_access_token := App.token env;
                   Services.workspace_url := App.workspace_url env |}
                (App.endpoint_url env) (App.token env) (App.items body) 5 t)
      as (evs & Htrace & _ & _ & Hfive).
    exists evs. split; [|exact Hfive].
    destruct (App.LLM4rec _ _ _ _ _ _ _) as [[result|e] t']; exact Htrace.
  - intros post ranked. unfold App.get_recommendations, App.LLM4rec.
    unfold Services.bind at 1.
    destruct (App.get_general_products _ _ _ _ _) as [[general_items|e] t'];
      [|exact I].
    unfold Services.bind at 1. unfold App.get_specific_products.
    rewrite specific_products_with_index. cbn [fst Services.ret].
    rewrite length_map. unfold VectorIndex.search. rewrite length_firstn. lia.
Qed.

(** *** Runs of the handler on the scenario *)

(** The scenario of the specification: three purchases, a gateway that
    answers the JSON object alone, an index that ranks the catalog. *)
Example recommendations_for_purchases :
  fst (App.get_recommendations Scenario.env
         (VectorIndex.with_index (Scenario.gateway Scenario.only_json)
            Scenario.ranked)
         {| App.items := Scenario.purchases |} [])
  = App.Return
      [PyStr "Insulated snow boots"; PyStr "Fleece-lined gloves";
       PyStr "Merino wool socks"; PyStr "Rechargeable hand warmers";
       PyStr "Thermal base layer set"].
Proof. vm_compute. reflexivity. Qed.

(** The same object after a sentence of prose is rejected. *)
Example recommendations_after_prose :
  fst (App.get_recommendations Scenario.env
         (VectorIndex.with_index (Scenario.gateway Scenario.suggestions)
            Scenario.ranked)
         {| App.items := Scenario.purchases |} [])
  = App.HTTPException 500 "Expecting value: line 1 column 1 (char 0)".
Proof. vm_compute. reflexivity. Qed.

(** An object without the key fails in [app.py] with a [KeyError]. *)
Example recommendations_without_key :
  fst (App.get_recommendations Scenario.env
         (VectorIndex.with_index (Scenario.gateway (dq "{'items': []}"))
            Scenario.ranked)
         {| App.items := Scenario.purchases |} [])
  = App.HTTPException 500 "'next_items'".
Proof. vm_compute. reflexivity. Qed.

(** A gateway that is down: one call, no search, status 500. *)
Example recommendations_gateway_down :
  let run :=
    App.get_recommendations Scenario.env
      (VectorIndex.with_index Scenario.gateway_down Scenario.ranked)
      {| App.items := Scenario.purchases |} [] in
  fst run = App.HTTPException 500 "Connection refused"
  /\ List.length (posts (snd run)) = 1
  /\ searches (snd run) = [].
Proof. vm_compute. repeat split. Qed.

End OrchestratorFacts.

(** ** The prompt builder *)

Module PromptFacts.
Import Py Recommender Observe StrFacts.

Lemma occur_in_order_prefix (items : list string) (p s : string) :
  occur_in_order items s -> occur_in_order items (p ++ s).
Proof.
  destruct items as [|item items]; simpl; [trivial|].
  intros (before & after & -> & H).
  exists (p ++ before), after. split; [|exact H].
  now rewrite app_assoc.
Qed.

Lemma occur_in_order_suffix (items : list string) (s q : string) :
  occur_in_order items s -> occur_in_order items (s ++ q).
Proof.
  revert s. induction items as [|item items IH]; simpl; intros s; [trivial|].
  intros (before & after & -> & H).
  exists before, (after ++ q). split; [|now apply IH].
  now rewrite !app_assoc.
Qed.

Lemma occur_in_order_app (l1 l2 : list string) (s1 s2 : string) :
  occur_in_order l1 s1 -> occur_in_order l2 s2 ->
  occur_in_order (l1 ++ l2)%list (s1 ++ s2).
Proof.
  revert s1. induction l1 as [|item l1 IH]; simpl; intros s1 H1 H2.
  - now apply occur_in_order_prefix.
  - destruct H1 as (before & after & -> & H1).
    exists before, (after ++ s2). split; [|now apply IH].
    now rewrite !app_assoc.
Qed.

Lemma occur_in_order_single (item : string) : occur_in_order [item] item.
Proof.
  exists EmptyString, EmptyString. split; [|exact I].
  simpl. now rewrite app_nil_r.
Qed.

(** A joined list holds its items in order, whatever the separator. *)
Lemma occur_in_order_join (sep : string) (items : list string) :
  occur_in_order items (join sep items).
Proof.
  induction items as [|item items IH]; [exact I|].
  destruct items as [|item' items'].
  - apply occur_in_order_single.
  - change (join sep (item :: item' :: items'))
      with (item ++ sep ++ join sep (item' :: items')).
    exists EmptyString, (sep ++ join sep (item' :: items')).
    split; [reflexivity|]. now apply occur_in_order_prefix.
Qed.

(** The subscript [-1] is the last element. *)
Lemma seq_index_last {A} (l : list A) (x : A) :
  seq_index (l ++ [x])%list (-1) = Some x.
Proof.
  unfold seq_index. rewrite List.length_app. simpl List.length.
  replace (-1 <? 0)%Z with true by reflexivity.
  replace (-1 + Z.of_nat (List.length l + 1))%Z
    with (Z.of_nat (List.length l)) by lia.
  replace ((0 <=? Z.of_nat (List.length l))
           && (Z.of_nat (List.length l) <? Z.of_nat (List.length l + 1)))%Z
    with true
    by (symmetry; apply andb_true_iff; split;
        [apply Z.leb_le | apply Z.ltb_lt]; lia).
  rewrite Nat2Z.id, nth_error_app2 by lia.
  now rewrite Nat.sub_diag.
Qed.

(** The delimited list of a non-empty list is built without raising and
    holds the items in order. *)
Lemma items_delimited_ok (items : list string) :
  items <> [] ->
  exists delimited,
    items_delimited items = Ok delimited /\ occur_in_order items delimited.
Proof.
  intros Hne. destruct (exists_last Hne) as (l & x & ->).
  unfold items_delimited. destruct l as [|y l].
  - exists x. split; [reflexivity | apply occur_in_order_single].
  - replace (1 <? List.length ((y :: l) ++ [x]))%nat with true
      by (symmetry; apply Nat.ltb_lt; rewrite List.length_app; simpl; lia).
    unfold list_getitem. rewrite seq_index_last, removelast_last. simpl rbind.
    exists (join ", " (y :: l) ++ ", and " ++ x). split; [reflexivity|].
    apply occur_in_order_app; [exact (occur_in_order_join ", " (y :: l))|].
    apply occur_in_order_prefix, occur_in_order_single.
Qed.

Lemma occurs_refl (s : string) : occurs s s.
Proof. exists EmptyString, EmptyString. simpl. now rewrite app_nil_r. Qed.

Lemma occurs_prefix (sub p s : string) : occurs sub s -> occurs sub (p ++ s).
Proof.
  intros (before & after & ->). exists (p ++ before), after.
  now rewrite app_assoc.
Qed.

Lemma occurs_suffix (sub s q : string) : occurs sub s -> occurs sub (s ++ q).
Proof.
  intros (before & after & ->). exists before, (after ++ q).
  now rewrite !app_assoc.
Qed.

(** The executable test [sub in s] is sound for [occurs]. *)
Lemma contains_occurs (sub s : string) : contains sub s = true -> occurs sub s.
Proof.
  induction s as [|a s IH]; simpl; intros H.
  - rewrite orb_false_r in H. destruct (starts_with_app _ _ H) as (q & ->).
    exists EmptyString, q. reflexivity.
  - apply orb_true_iff in H. destruct H as [H|H].
    + destruct (starts_with_app _ _ H) as (q & ->).
      exists EmptyString, q. reflexivity.
    + change (String a s) with (chr a ++ s). now apply occurs_prefix, IH.
Qed.

(** C4.  For a non-empty item list each of the three prompt builders
    ([_get_prompt] of the notebook and of [app.py], [get_user_prompt])
    returns a prompt in which the items occur verbatim, one after the other
    in the order of the list, and which holds the sentence asking for a JSON
    object with a key ['next_items'] whose value is the array of items. *)
Theorem prompt_holds_items_in_order (items : list string) :
  items <> [] ->
  (exists prompt,
      Notebook._get_prompt items = Ok prompt
      /\ occur_in_order items prompt
      /\ occurs Notebook.instruction prompt)
  /\ (exists prompt,
        App._get_prompt items = Ok prompt
        /\ occur_in_order items prompt
        /\ occurs App.instruction prompt)
  /\ (exists prompt,
        GeneralRecommendations.get_user_prompt items = Ok prompt
        /\ occur_in_order items prompt
        /\ occurs GeneralRecommendations.instruction prompt)
  /\ (occurs "objeto JSON com uma chave 'next_items'" Notebook.instruction
      /\ occurs "matriz" Notebook.instruction)
  /\ (occurs "JSON object with a key of 'next_items'" App.instruction
      /\ occurs "array" App.instruction)
  /\ (occurs "objeto JSON com uma chave 'next_items'"
        GeneralRecommendations.instruction
      /\ occurs "matriz" GeneralRecommendations.instruction).
Proof.
  intros Hne.
  destruct (items_delimited_ok items Hne) as (delimited & Hd & Hin).
  split; [|split; [|split]].
  - unfold Notebook._get_prompt. rewrite Hd. simpl rbind.
    eexists. split; [reflexivity|].
    unfold assemble, Notebook.user_prompt. split.
    + apply occur_in_order_prefix, occur_in_order_suffix,
        occur_in_order_suffix, occur_in_order_prefix, occur_in_order_suffix.
      exact Hin.
    + apply occurs_prefix, occurs_suffix, occurs_prefix, occurs_refl.
  - unfold App._get_prompt. rewrite Hd. simpl rbind.
    eexists. split; [reflexivity|].
    unfold assemble, App.user_prompt. split.
    + apply occur_in_order_prefix, occur_in_order_suffix,
        occur_in_order_suffix, occur_in_order_prefix, occur_in_order_suffix.
      exact Hin.
    + apply occurs_prefix, occurs_suffix, occurs_prefix, occurs_refl.
  - unfold GeneralRecommendations.get_user_prompt.
    replace (0 <? List.length items)%nat with true
      by (symmetry; apply Nat.ltb_lt; destruct items; simpl; [easy | lia]).
    eexists. split; [reflexivity|]. split.
    + apply occur_in_order_suffix, occur_in_order_prefix, occur_in_order_suffix.
      apply occur_in_order_join.
    + apply occurs_prefix, occurs_refl.
  - repeat split; apply contains_occurs; vm_compute; reflexivity.
Qed.

Lemma prompt_holds_items_in_order_witness :
  exists prompt,
    App._get_prompt Scenario.purchases = Ok prompt
    /\ occur_in_order Scenario.purchases prompt
    /\ occurs App.instruction prompt.
Proof.
  apply (prompt_holds_items_in_order Scenario.purchases). discriminate.
Defined.

(** The prompt [app.py] sends for the purchases of the scenario. *)
Example prompt_for_purchases :
  App._get_prompt Scenario.purchases
  = Ok ("[INST] <<SYS>>" ++ chr newline
        ++ "You are an AI assistant functioning as a recommendation system for an ecommerce website. Be specific and limit your answers to the requested format."
        ++ chr newline ++ "<</SYS>>" ++ chr newline
        ++ "A user bought scarf, beanie, and ear muffs in that order. What five items would he/she be likely to purchase next?Express your response as a JSON object with a key of 'next_items' and a value representing your array of recommended items.[/INST]").
Proof. vm_compute. reflexivity. Qed.

End PromptFacts.

(** ** The notebook pipeline against the [app.py] pipeline *)

Module PipelineFacts.
Import Py Services Recommender Observe StrFacts ParserFacts OrchestratorFacts.
Local Open Scope py_scope.

Lemma str_list_ends (l : list pyval) : ends_with "]" (str (PyList l)) = true.
Proof.
  cbn [str repr]. apply (ends_with_app _ "["), ends_with_app. reflexivity.
Qed.

(** C8, as the code has it.  With the gateway answering both prompts with
    the same text: when [app.py]'s [get_general_products] returns a value,
    the notebook's returns the JSON text that value was parsed from, under
    its key ['next_items']; the notebook then queries the index with that
    text and [app.py] with the printed value, and the two queries differ
    when the value is an array; the two outputs are equal whenever the two
    searches get the same answer. *)
Theorem notebook_and_app_share_the_json_text (sv : services)
  (endpoint_url token : string) (items : list string) (t : trace)
  (response_text : string) (v : pyval) (t_app : trace) :
  (forall prompt,
     requests_post sv endpoint_url headers (data prompt) ("token", token)
     = Ok response_text) ->
  App.get_general_products sv endpoint_url token items t = (Ok v, t_app) ->
  exists json_text t_nb,
    Notebook.get_general_products sv endpoint_url token items t
    = (Ok json_text, t_nb)
    /\ (parsed <-- Json.loads json_text ;; getitem_str parsed "next_items") = Ok v
    /\ (forall l, v = PyList l -> str (PyStr json_text) <> str v)
    /\ (forall vs_client num_items t1 t2,
          get_index sv vs_client Notebook.index_name "one-env-shared-endpoint-2"
          = get_index sv vs_client "solacc_uc.llm_recommender.product_index"
              "vs_llm_recommender_embeddings" ->
          similarity_search sv Notebook.index_name (str (PyStr json_text))
            ["id"; "text"] num_items
          = similarity_search sv "solacc_uc.llm_recommender.product_index"
              (str v) ["id"; "text"] num_items ->
          fst (Notebook.get_specific_products sv vs_client (PyStr json_text)
                 num_items t1)
          = fst (App.get_specific_products sv vs_client v num_items t2)).
Proof.
  intros Hpost Happ.
  unfold App.get_general_products, App._get_prompt in Happ.
  unfold Notebook.get_general_products, Notebook._get_prompt.
  unfold_monad. unfold Services.bind, Services.pure, Services.call,
    Services.ret in Happ.
  destruct (items_delimited items) as [delimited|e]; simpl in *;
    [|discriminate].
  rewrite Hpost in *.
  destruct (message_content response_text) as [raw_text|e]; [|discriminate].
  destruct (extract_json_text raw_text) as [json_text|e] eqn:Hext;
    [|discriminate].
  destruct (Json.loads json_text) as [parsed|e] eqn:Hloads; simpl in *;
    [|discriminate].
  destruct (getitem_str parsed "next_items") as [x|e] eqn:Hkey;
    [|discriminate].
  injection Happ as <- <-.
  exists json_text. eexists. split; [reflexivity|].
  split; [rewrite Hloads; exact Hkey|]. split.
  - intros l -> Heq.
    pose proof (extract_json_text_ends _ _ Hext) as Hbrace.
    pose proof (str_list_ends l) as Hbracket.
    rewrite <- Heq in Hbracket. simpl str in Hbracket.
    pose proof (ends_with_unique _ _ _ Hbrace Hbracket). discriminate.
  - intros vs_client num_items t1 t2 Hidx Hsearch.
    unfold Notebook.get_specific_products, App.get_specific_products,
      get_specific_products_at.
    unfold_monad. change (str (PyStr json_text)) with json_text in *.
    rewrite Hidx, Hsearch. clear Hidx Hsearch.
    destruct (get_index _ _ _ _); [|reflexivity].
    destruct (similarity_search _ _ _ _ _); [|reflexivity].
    cbn [fst]. now destruct (rbind _ _).
Qed.

Lemma notebook_and_app_share_the_json_text_witness :
  let sv :=
    VectorIndex.with_index (Scenario.gateway Scenario.only_json)
      Scenario.ranked in
  let v :=
    PyList [PyStr "winter boots"; PyStr "gloves"; PyStr "wool socks";
            PyStr "hand warmers"; PyStr "thermal underwear"] in
  exists json_text t_nb,
    Notebook.get_general_products sv (App.endpoint_url Scenario.env)
      (App.token Scenario.env) Scenario.purchases [] = (Ok json_text, t_nb)
    /\ (parsed <-- Json.loads json_text ;; getitem_str parsed "next_items") = Ok v
    /\ (forall l, v = PyList l -> str (PyStr json_text) <> str v)
    /\ (forall vs_client num_items t1 t2,
          get_index sv vs_client Notebook.index_name "one-env-shared-endpoint-2"
          = get_index sv vs_client "solacc_uc.llm_recommender.product_index"
              "vs_llm_recommender_embeddings" ->
          similarity_search sv Notebook.index_name (str (PyStr json_text))
            ["id"; "text"] num_items
          = similarity_search sv "solacc_uc.llm_recommender.product_index"
              (str v) ["id"; "text"] num_items ->
          fst (Notebook.get_specific_products sv vs_client (PyStr json_text)
                 num_items t1)
          = fst (App.get_specific_products sv vs_client v num_items t2)).
Proof.
  intros sv v.
  apply (notebook_and_app_share_the_json_text sv
           (App.endpoint_url Scenario.env) (App.token Scenario.env)
           Scenario.purchases []
           (Scenario.chat_completion Scenario.only_json) v
           ([] ++ [RequestsPost (App.endpoint_url Scenario.env) headers
                     (data (assemble App.system_prompt
                              (App.user_prompt "scarf, beanie, and ear muffs")))
                     ("token", App.token Scenario.env)])%list).
  - intros prompt. reflexivity.
  - vm_compute. reflexivity.
Defined.

(** C8 as stated fails: on the same answers of the gateway the notebook
    searches with the JSON text and [app.py] with the printed list, and an
    index that ranks the two queries differently gives different outputs. *)
Lemma notebook_and_app_pipelines_differ :
  let sv :=
    VectorIndex.with_index (Scenario.gateway Scenario.only_json)
      Scenario.ranked in
  let notebook :=
    Notebook.pipeline sv Scenario.vs_client (App.endpoint_url Scenario.env)
      (App.token Scenario.env) Scenario.purchases 5 [] in
  let app :=
    App.LLM4rec sv Scenario.vs_client (App.endpoint_url Scenario.env)
      (App.token Scenario.env) Scenario.purchases 5 [] in
  searches (snd notebook)
  = [SimilaritySearch "rodrigo_catalog.llm_recommender.product_index"
       (dq "{'next_items': ['winter boots', 'gloves', 'wool socks', 'hand warmers', 'thermal underwear']}")
       ["id"; "text"] 5]
  /\ searches (snd app)
     = [SimilaritySearch "solacc_uc.llm_recommender.product_index"
          "['winter boots', 'gloves', 'wool socks', 'hand warmers', 'thermal underwear']"
          ["id"; "text"] 5]
  /\ fst notebook
     = Ok [PyStr "Waterproof galoshes"; PyStr "Down parka";
           PyStr "Thermal base layer set"; PyStr "Rechargeable hand warmers";
           PyStr "Merino wool socks"]
  /\ fst app
     = Ok [PyStr "Insulated snow boots"; PyStr "Fleece-lined gloves";
           PyStr "Merino wool socks"; PyStr "Rechargeable hand warmers";
           PyStr "Thermal base layer set"]
  /\ fst notebook <> fst app.
Proof.
  repeat split; try (vm_compute; reflexivity).
  vm_compute. discriminate.
Qed.

End PipelineFacts.

(** ** The readiness waits *)

Module ProvisioningFacts.
Import Py Provisioning Observe.
Local Open Scope Z_scope.












(** The endpoint of the scenario is ready at the third request. *)
Example endpoint_becomes_ready :
  wait_for_endpoint 62 Scenario.endpoint_env Scenario.start
  = Some (Ok tt, {| now := 1700000066; requests := 3 |}).
Proof. vm_compute. reflexivity. Qed.

(** The index of the scenario never is: the wait raises after 119 requests,
    once the clock has passed the deadline of 7200 seconds. *)
Example index_wait_times_out :
  wait_for_index 122 Scenario.find_index Scenario.stuck_index_env
    Scenario.start
  = Some (Raise (Exception index_timeout_message),
          {| now := 1700007260; requests := 119 |}).
Proof. vm_compute. reflexivity. Qed.

End ProvisioningFacts.

(** ** What the JSON decoder has read when it returns *)

Module JsonShape.
Import Py Json StrFacts JsonFacts Shape.

Lemma ends_with_contains (c : ascii) (s : string) :
  ends_with c s = true -> contains_char c s = true.
Proof.
  induction s as [|a s IH]; simpl; [discriminate|].
  destruct s as [|b s'].
  - intros ->. reflexivity.
  - intros H. rewrite (IH H). apply orb_true_r.
Qed.

Lemma ends_with_app_nonempty (c a : ascii) (s t : string) :
  ends_with c (s ++ String a t) = ends_with c (String a t).
Proof.
  induction s as [|b s IH]; [reflexivity|].
  change ((String b s) ++ String a t) with (String b (s ++ String a t)).
  rewrite <- IH. destruct (s ++ String a t) eqn:E; [|reflexivity].
  destruct s; discriminate.
Qed.

Lemma absent_not_last (c : ascii) (s : string) :
  contains_char c s = false -> ends_with c s = false.
Proof.
  intros H. destruct (ends_with c s) eqn:E; [|reflexivity].
  apply ends_with_contains in E. congruence.
Qed.

(** Skipped whitespace is a prefix without closing brace. *)
Lemma skip_ws_prefix (s : string) :
  exists w, s = w ++ skip_ws s /\ contains_char rbrace w = false.
Proof.
  induction s as [|c s (w & Hw & Hb)]; simpl.
  - exists EmptyString. split; reflexivity.
  - destruct (is_ws c) eqn:E.
    + exists (String c w). split; [simpl; now rewrite <- Hw|].
      simpl. rewrite Hb, orb_false_r.
      unfold is_ws in E. apply Ascii.eqb_neq. intros ->. discriminate.
    + exists EmptyString. split; reflexivity.
Qed.

Lemma decode_uXXXX_prefix (s r : string) (u : N) :
  decode_uXXXX s = Some (u, r) -> exists p, s = p ++ r.
Proof.
  unfold decode_uXXXX. intros H.
  destruct s as [|a [|b [|c [|d s']]]]; try discriminate.
  destruct (hex_value a), (hex_value b), (hex_value c), (hex_value d);
    try discriminate.
  injection H as _ <-.
  exists (String a (String b (String c (String d EmptyString)))). reflexivity.
Qed.

Lemma unicode_escape_prefix (s bytes r : string) :
  unicode_escape s = Some (bytes, r) -> exists p, s = p ++ r.
Proof.
  unfold unicode_escape. intros H.
  destruct (decode_uXXXX s) as [[u s']|] eqn:E1; [|discriminate].
  apply decode_uXXXX_prefix in E1. destruct E1 as (p1 & ->).
  destruct ((55296 <=? u) && (u <=? 56319))%N;
    [|injection H as _ <-; now exists p1].
  destruct s' as [|b [|c s2]]; try (injection H as _ <-; now exists p1).
  destruct (Ascii.eqb b backslash && Ascii.eqb c "u");
    [|injection H as _ <-; now exists p1].
  destruct (decode_uXXXX s2) as [[u2 [|c3 s3]]|] eqn:E2;
    try (injection H as _ <-; now exists p1).
  apply decode_uXXXX_prefix in E2. destruct E2 as (p2 & ->).
  destruct ((56320 <=? u2) && (u2 <=? 57343))%N;
    injection H as _ <-; [|now exists p1].
  exists (p1 ++ String b (String c p2)).
  rewrite !app_assoc. reflexivity.
Qed.

(** A string literal is read up to and including its closing quote. *)
Lemma scanstring_prefix (fuel begin : nat) (s t r : string) :
  scanstring fuel begin s = inl (t, r) -> exists p, s = p ++ String dquote r.
Proof.
  revert s t r. induction fuel as [|fuel IH]; intros s t r H; [discriminate|].
  simpl in H. destruct s as [|c s']; [discriminate|].
  destruct (Ascii.eqb c dquote) eqn:Ec.
  - injection H as _ <-. apply Ascii.eqb_eq in Ec. subst c.
    now exists EmptyString.
  - destruct (Ascii.eqb c backslash).
    + destruct s' as [|e s2]; [discriminate|].
      destruct (Ascii.eqb e "u").
      * destruct (String.length s2 <=? 4)%nat; [discriminate|].
        destruct (unicode_escape s2) as [[bytes s3]|] eqn:E; [|discriminate].
        apply unicode_escape_prefix in E. destruct E as (p1 & ->).
        destruct (scanstring fuel begin s3) as [[t' r']|] eqn:E';
          [|discriminate].
        apply IH in E'. destruct E' as (p2 & ->). injection H as _ <-.
        exists (String c (String e (p1 ++ p2))). simpl.
        now rewrite app_assoc.
      * destruct (simple_escape e); [|discriminate].
        destruct (scanstring fuel begin s2) as [[t' r']|] eqn:E';
          [|discriminate].
        apply IH in E'. destruct E' as (p2 & ->). injection H as _ <-.
        now exists (String c (String e p2)).
    + destruct (nat_of_ascii c <? 32)%nat; [discriminate|].
      destruct (scanstring fuel begin s') as [[t' r']|] eqn:E';
        [|discriminate].
      apply IH in E'. destruct E' as (p2 & ->). injection H as _ <-.
      now exists (String c p2).
Qed.

#[local] Arguments scanstring : simpl never.

Lemma digit_not_rbrace (c : ascii) :
  is_digit c = true -> Ascii.eqb c rbrace = false.
Proof.
  intros H. apply Ascii.eqb_neq. intros ->. discriminate.
Qed.

Lemma span_digits_prefix (s d r : string) :
  span_digits s = (d, r) -> s = d ++ r /\ contains_char rbrace d = false.
Proof.
  revert d r. induction s as [|c s IH]; simpl; intros d r H.
  - injection H as <- <-. split; reflexivity.
  - destruct (is_digit c) eqn:Ed.
    + destruct (span_digits s) as [d' r'] eqn:E. injection H as <- <-.
      destruct (IH _ _ eq_refl) as (-> & Hd). split; [reflexivity|].
      simpl. now rewrite (digit_not_rbrace _ Ed), Hd.
    + injection H as <- <-. split; reflexivity.
Qed.

Lemma match_integer_prefix (s i r : string) :
  match_integer s = Some (i, r) ->
  s = i ++ r /\ contains_char rbrace i = false.
Proof.
  unfold match_integer. intros H.
  destruct s as [|c s']; [discriminate|].
  destruct (Ascii.eqb c "-") eqn:Em.
  - apply Ascii.eqb_eq in Em. subst c.
    destruct s' as [|c' s2]; [discriminate|].
    destruct (Ascii.eqb c' "0") eqn:E0.
    + apply Ascii.eqb_eq in E0. subst c'. injection H as <- <-.
      split; reflexivity.
    + destruct (is_digit c') eqn:Ed; [|discriminate].
      destruct (span_digits s2) as [d r'] eqn:E.
      apply span_digits_prefix in E. destruct E as (-> & Hd).
      injection H as <- <-. split; [reflexivity|].
      simpl. now rewrite (digit_not_rbrace _ Ed), Hd.
  - destruct (Ascii.eqb c "0") eqn:E0.
    + apply Ascii.eqb_eq in E0. subst c. injection H as <- <-.
      split; reflexivity.
    + destruct (is_digit c) eqn:Ed; [|discriminate].
      destruct (span_digits s') as [d r'] eqn:E.
      apply span_digits_prefix in E. destruct E as (-> & Hd).
      injection H as <- <-. split; [reflexivity|].
      simpl. now rewrite (digit_not_rbrace _ Ed), Hd.
Qed.

Lemma match_frac_prefix (s f r : string) :
  match_frac s = (f, r) -> s = f ++ r /\ contains_char rbrace f = false.
Proof.
  unfold match_frac. intros H.
  destruct s as [|c s']; [injection H as <- <-; split; reflexivity|].
  destruct (Ascii.eqb c ".") eqn:Ec;
    [|injection H as <- <-; split; reflexivity].
  apply Ascii.eqb_eq in Ec. subst c.
  destruct (span_digits s') as [[|a d] r'] eqn:E;
    [injection H as <- <-; split; reflexivity|].
  apply span_digits_prefix in E. destruct E as (-> & Hd).
  injection H as <- <-. split; [reflexivity|]. exact Hd.
Qed.

Lemma match_exp_prefix (s e r : string) :
  match_exp s = (e, r) -> s = e ++ r /\ contains_char rbrace e = false.
Proof.
  unfold match_exp. intros H.
  destruct s as [|c s']; [injection H as <- <-; split; reflexivity|].
  destruct (Ascii.eqb c "e" || Ascii.eqb c "E") eqn:Ec;
    [|injection H as <- <-; split; reflexivity].
  assert (Hc : Ascii.eqb c rbrace = false).
  { apply Ascii.eqb_neq. intros ->. discriminate. }
  destruct s' as [|c' s2].
  - simpl in H. injection H as <- <-. split; reflexivity.
  - destruct (Ascii.eqb c' "-" || Ascii.eqb c' "+") eqn:Es.
    + assert (Hc' : Ascii.eqb c' rbrace = false).
      { apply Ascii.eqb_neq. intros ->. discriminate. }
      destruct (span_digits s2) as [[|a d] r'] eqn:E;
        [injection H as <- <-; split; reflexivity|].
      apply span_digits_prefix in E. destruct E as (-> & Hd).
      injection H as <- <-. split; [reflexivity|].
      simpl in *. now rewrite Hc, Hc', Hd.
    + destruct (span_digits (String c' s2)) as [[|a d] r'] eqn:E;
        [injection H as <- <-; split; reflexivity|].
      apply span_digits_prefix in E. destruct E as (E & Hd).
      injection H as <- <-. split; [simpl; now rewrite E|].
      simpl in *. now rewrite Hc, Hd.
Qed.

Lemma contains_char_app_absent (c : ascii) (s t : string) :
  contains_char c s = false -> contains_char c t = false ->
  contains_char c (s ++ t) = false.
Proof. intros Hs Ht. now rewrite contains_char_app, Hs, Ht. Qed.

(** A number is read from digits, signs, a dot and an exponent mark. *)
Lemma match_number_prefix (s r : string) (v : pyval) :
  match_number s = Some (v, r) ->
  exists p, s = p ++ r /\ contains_char rbrace p = false /\ is_dict v = false.
Proof.
  unfold match_number. intros H.
  destruct (match_integer s) as [[i s1]|] eqn:E1; [|discriminate].
  apply match_integer_prefix in E1. destruct E1 as (-> & Hi).
  destruct (match_frac s1) as [f s2] eqn:E2.
  apply match_frac_prefix in E2. destruct E2 as (-> & Hf).
  destruct (match_exp s2) as [e s3] eqn:E3.
  apply match_exp_prefix in E3. destruct E3 as (-> & He).
  assert (Hv : is_dict v = false /\ r = s3).
  { destruct f, e; injection H as <- <-; split; reflexivity. }
  destruct Hv as (Hv & ->).
  exists (i ++ f ++ e). rewrite !app_assoc.
  split; [reflexivity|]. split; [|exact Hv].
  now repeat apply contains_char_app_absent.
Qed.

Lemma strip_prefix_app (p s r : string) :
  strip_prefix p s = Some r -> s = p ++ r.
Proof.
  revert s. induction p as [|a p IH]; simpl; intros s H.
  - now injection H as <-.
  - destruct s as [|b s]; [discriminate|].
    destruct (Ascii.eqb a b) eqn:E; [|discriminate].
    apply Ascii.eqb_eq in E. subst b. now rewrite (IH _ H).
Qed.

Lemma constant_prefix (s r : string) (v : pyval) :
  constant s = Some (v, r) ->
  exists p, s = p ++ r /\ contains_char rbrace p = false /\ is_dict v = false.
Proof.
  unfold constant. intros H.
  destruct (strip_prefix "null" s) eqn:E1;
    [apply strip_prefix_app in E1; injection H as <- <-; eauto|].
  destruct (strip_prefix "true" s) eqn:E2;
    [apply strip_prefix_app in E2; injection H as <- <-; eauto|].
  destruct (strip_prefix "false" s) eqn:E3;
    [apply strip_prefix_app in E3; injection H as <- <-; eauto|].
  discriminate.
Qed.

Lemma float_constant_prefix (s r : string) (v : pyval) :
  float_constant s = Some (v, r) ->
  exists p, s = p ++ r /\ contains_char rbrace p = false /\ is_dict v = false.
Proof.
  unfold float_constant. intros H.
  destruct (strip_prefix "NaN" s) eqn:E1;
    [apply strip_prefix_app in E1; injection H as <- <-; eauto|].
  destruct (strip_prefix "Infinity" s) eqn:E2;
    [apply strip_prefix_app in E2; injection H as <- <-; eauto|].
  destruct (strip_prefix "-Infinity" s) eqn:E3;
    [apply strip_prefix_app in E3; injection H as <- <-; eauto|].
  discriminate.
Qed.

Lemma suffix_refl (s : string) : suffix s s.
Proof. now exists EmptyString. Qed.

Lemma suffix_trans (r s t : string) : suffix r s -> suffix s t -> suffix r t.
Proof.
  intros (p & ->) (q & ->). exists (q ++ p). now rewrite app_assoc.
Qed.

Lemma suffix_tail (c : ascii) (r s : string) :
  suffix (String c r) s -> suffix r s.
Proof. intros (p & ->). exists (p ++ chr c). now rewrite app_assoc. Qed.

Lemma suffix_cons (c : ascii) (r s : string) :
  suffix r s -> suffix r (String c s).
Proof. intros (p & ->). now exists (String c p). Qed.

Lemma skip_ws_suffix (s : string) : suffix (skip_ws s) s.
Proof. destruct (skip_ws_prefix s) as (w & H & _). now exists w. Qed.

Ltac suffix_chain :=
  repeat match goal with
    | E : skip_ws ?s = ?x |- _ =>
        let L := fresh "L" in
        pose proof (skip_ws_suffix s) as L; rewrite E in L; clear E
    | E : scanstring _ _ _ = inl _ |- _ =>
        apply scanstring_prefix in E; fold (suffix) in E
    end.

(** What [scan_once] returns with is the text after the value it read; a
    value that is not an object was not read up to a closing brace.  The
    members of an object give an object, and the elements of an array are
    read up to a closing bracket. *)
Lemma scan_shape (fuel : nat) :
  (forall depth s v r,
      scan_once fuel depth s = inl (v, r) ->
      exists p, s = p ++ r
                /\ (is_dict v = false -> ends_with rbrace p = false))
  /\ (forall depth pairs begin s v r,
         object_members fuel depth pairs begin s = inl (v, r) ->
         is_dict v = true /\ suffix r s)
  /\ (forall depth values s v r,
         array_elems fuel depth values s = inl (v, r) ->
         suffix (String "]" r) s).
Proof.
  induction fuel as [|fuel (IHs & IHo & IHa)];
    [repeat split; intros; discriminate|].
  split; [|split].
  - intros depth s v r H. simpl in H.
    destruct s as [|c s']; [discriminate|].
    destruct (Ascii.eqb c dquote) eqn:Eq.
    { destruct (scanstring _ _ s') as [[t r']|] eqn:E; [|discriminate].
      injection H as <- <-. apply scanstring_prefix in E.
      destruct E as (p & ->).
      exists (String c p ++ chr dquote). split.
      - simpl. now rewrite app_assoc.
      - intros _. unfold chr. now rewrite ends_with_app_nonempty. }
    destruct (Ascii.eqb c "{") eqn:Eo.
    { destruct depth as [|depth]; [discriminate|].
      assert (Hsuf : suffix r (String c s') /\ is_dict v = true).
      { destruct (skip_ws s') as [|c1 r1] eqn:Ew; [discriminate|].
        pose proof (skip_ws_suffix s') as L. rewrite Ew in L.
        destruct (Ascii.eqb c1 "}").
        - injection H as <- <-. split; [|reflexivity].
          apply suffix_tail in L. now apply suffix_cons.
        - destruct (Ascii.eqb c1 dquote); [|discriminate].
          apply IHo in H. destruct H as (Hd & Hs). split; [|exact Hd].
          apply suffix_cons. eapply suffix_trans; [exact Hs|].
          now apply suffix_tail in L. }
      destruct Hsuf as ((p & ->) & Hd). exists p. split; [reflexivity|].
      intros Hn. congruence. }
    destruct (Ascii.eqb c "[") eqn:Ea.
    { destruct depth as [|depth]; [discriminate|].
      assert (Hsuf : suffix (String "]" r) (String c s')).
      { pose proof (skip_ws_suffix s') as L.
        destruct (skip_ws s') as [|c1 r1] eqn:Ew.
        - apply IHa in H. destruct H as (p & Hp). destruct p; discriminate.
        - destruct (Ascii.eqb c1 "]") eqn:Ec.
          + injection H as <- <-. apply Ascii.eqb_eq in Ec. subst c1.
            now apply suffix_cons.
          + apply IHa in H. apply suffix_cons.
            eapply suffix_trans; [exact H | exact L]. }
      destruct Hsuf as (p & ->). exists (p ++ chr "]"). split.
      - now rewrite app_assoc.
      - intros _. unfold chr. now rewrite ends_with_app_nonempty. }
    destruct (constant (String c s')) as [[v' r']|] eqn:Ec.
    { injection H as <- <-. apply constant_prefix in Ec.
      destruct Ec as (p & -> & Hp & Hv). exists p. split; [reflexivity|].
      intros _. now apply absent_not_last. }
    destruct (over_limit (String c s')); [discriminate|].
    destruct (match_number (String c s')) as [[v' r']|] eqn:En.
    { injection H as <- <-. apply match_number_prefix in En.
      destruct En as (p & -> & Hp & Hv). exists p. split; [reflexivity|].
      intros _. now apply absent_not_last. }
    destruct (float_constant (String c s')) as [[v' r']|] eqn:Ef;
      [|discriminate].
    injection H as <- <-. apply float_constant_prefix in Ef.
    destruct Ef as (p & -> & Hp & Hv). exists p. split; [reflexivity|].
    intros _. now apply absent_not_last.
  - intros depth pairs begin s v r H. simpl in H.
    destruct (scanstring _ begin s) as [[key s1]|] eqn:E1; [|discriminate].
    apply scanstring_prefix in E1. fold (suffix (String dquote s1) s) in E1.
    apply suffix_tail in E1.
    pose proof (skip_ws_suffix s1) as L1.
    destruct (skip_ws s1) as [|c2 s2]; [discriminate|].
    apply suffix_tail in L1.
    destruct (negb (Ascii.eqb c2 ":")); [discriminate|].
    pose proof (skip_ws_suffix s2) as L2.
    destruct (scan_once fuel depth (skip_ws s2)) as [[value s3]|] eqn:E3;
      [|discriminate].
    apply IHs in E3. destruct E3 as (p3 & E3 & _).
    assert (L3 : suffix s3 (skip_ws s2)) by now exists p3.
    pose proof (skip_ws_suffix s3) as L4.
    destruct (skip_ws s3) as [|c4 s4]; [discriminate|].
    apply suffix_tail in L4.
    assert (Hs4 : suffix s4 s).
    { eapply suffix_trans; [exact L4|]. eapply suffix_trans; [exact L3|].
      eapply suffix_trans; [exact L2|]. eapply suffix_trans; eassumption. }
    destruct (Ascii.eqb c4 "}").
    + injection H as <- <-. split; [reflexivity | exact Hs4].
    + destruct (negb (Ascii.eqb c4 ",")); [discriminate|].
      pose proof (skip_ws_suffix s4) as L5.
      destruct (skip_ws s4) as [|c5 s6]; [discriminate|].
      apply suffix_tail in L5.
      destruct (Ascii.eqb c5 dquote); [|discriminate].
      apply IHo in H. destruct H as (Hd & Hs). split; [exact Hd|].
      eapply suffix_trans; [exact Hs|]. eapply suffix_trans; eassumption.
  - intros depth values s v r H. simpl in H.
    destruct (scan_once fuel depth s) as [[value s1]|] eqn:E1; [|discriminate].
    apply IHs in E1. destruct E1 as (p1 & E1 & _).
    assert (L1 : suffix s1 s) by now exists p1.
    pose proof (skip_ws_suffix s1) as L2.
    destruct (skip_ws s1) as [|c2 s2]; [discriminate|].
    destruct (Ascii.eqb c2 "]") eqn:Ec.
    + injection H as <- <-. apply Ascii.eqb_eq in Ec. subst c2.
      eapply suffix_trans; eassumption.
    + destruct (negb (Ascii.eqb c2 ",")); [discriminate|].
      apply IHa in H. apply suffix_tail in L2.
      eapply suffix_trans; [exact H|].
      eapply suffix_trans; [apply skip_ws_suffix|].
      eapply suffix_trans; eassumption.
Qed.

(** [json.loads] on a text whose last character is a closing brace can only
    return an object, at whatever depth. *)
Lemma loads_within_brace_is_dict (depth : nat) (doc : string) (v : pyval) :
  ends_with rbrace doc = true ->
  loads_within depth doc = Ok v -> is_dict v = true.
Proof.
  unfold loads_within. intros Hend H.
  destruct (strip_prefix bom doc); [discriminate|].
  destruct (skip_ws_prefix doc) as (w & Hdoc & Hw).
  destruct (scan_once _ _ (skip_ws doc)) as [[v' rest]|[msg n| |what|n]] eqn:E;
    try discriminate.
  destruct (skip_ws_prefix rest) as (w' & Hrest & Hw').
  destruct (skip_ws rest) eqn:Er; [|discriminate].
  injection H as <-. rewrite app_nil_r in Hrest. subst w'.
  apply (proj1 (scan_shape _)) in E. destruct E as (p & Ep & Hp).
  destruct (is_dict v') eqn:Hd; [reflexivity|]. exfalso.
  specialize (Hp eq_refl).
  rewrite Hdoc, Ep in Hend.
  assert (Hno : contains_char rbrace (w ++ p ++ rest) = true)
    by now apply ends_with_contains.
  destruct rest as [|a rest'].
  - rewrite app_nil_r in Hend. destruct p as [|b p'].
    + rewrite app_nil_r in Hend. apply ends_with_contains in Hend. congruence.
    + rewrite ends_with_app_nonempty in Hend. congruence.
  - rewrite <- app_assoc, ends_with_app_nonempty in Hend.
    apply ends_with_contains in Hend. congruence.
Qed.

Lemma loads_brace_is_dict (doc : string) (v : pyval) :
  ends_with rbrace doc = true -> loads doc = Ok v -> is_dict v = true.
Proof. apply loads_within_brace_is_dict. Qed.

End JsonShape.

(** ** The request path of [03_Assemble_Recommender.py], stage by stage *)

Module RequestFacts.
Import Py Services Recommender Observe Shape.
Import StrFacts JsonFacts ParserFacts OrchestratorFacts JsonShape.
Local Open Scope list_scope.
Local Open Scope py_scope.

(** [app.py]'s [get_general_products]: nothing is called when the prompt
    cannot be built; otherwise the gateway is called once and the rest is
    computation on its answer. *)
Lemma app_general_products_stages (sv : services)
  (endpoint_url token : string) (items : list string) (t : trace) :
  App.get_general_products sv endpoint_url token items t
  = match App._get_prompt items with
    | Raise e => (Raise e, t)
    | Ok prompt =>
        (response_text <--
           requests_post sv endpoint_url headers (data prompt) ("token", token) ;;
         raw_text <-- message_content response_text ;;
         parsed <-- parse_response raw_text ;;
         getitem_str parsed "next_items",
         t ++ [RequestsPost endpoint_url headers (data prompt) ("token", token)])
    end.
Proof.
  unfold App.get_general_products, parse_response. unfold_monad.
  destruct (App._get_prompt items) as [prompt|e]; [|reflexivity].
  destruct (requests_post _ _ _ _ _) as [response_text|e]; [|reflexivity].
  simpl.
  destruct (message_content response_text) as [raw_text|e]; [|reflexivity].
  simpl.
  destruct (extract_json_text raw_text) as [json_text|e]; [|reflexivity].
  simpl. destruct (Json.loads json_text) as [parsed|e]; [|reflexivity].
  simpl. destruct (getitem_str parsed "next_items"); reflexivity.
Qed.

(** The same for the notebook's copy, which returns the extracted text. *)
Lemma notebook_general_products_stages (sv : services)
  (endpoint_url token : string) (items : list string) (t : trace) :
  Notebook.get_general_products sv endpoint_url token items t
  = match Notebook._get_prompt items with
    | Raise e => (Raise e, t)
    | Ok prompt =>
        (response_text <--
           requests_post sv endpoint_url headers (data prompt) ("token", token) ;;
         raw_text <-- message_content response_text ;;
         json_text <-- extract_json_text raw_text ;;
         ret_ <-- Json.loads json_text ;;
         Ok json_text,
         t ++ [RequestsPost endpoint_url headers (data prompt) ("token", token)])
    end.
Proof.
  unfold Notebook.get_general_products. unfold_monad.
  destruct (Notebook._get_prompt items) as [prompt|e]; [|reflexivity].
  destruct (requests_post _ _ _ _ _) as [response_text|e]; [|reflexivity].
  simpl.
  destruct (message_content response_text) as [raw_text|e]; [|reflexivity].
  simpl.
  destruct (extract_json_text raw_text) as [json_text|e]; [|reflexivity].
  simpl. destruct (Json.loads json_text) as [parsed|e]; reflexivity.
Qed.

(** X1.  When [get_general_products] raises, whatever the reason, [LLM4rec]
    raises the same exception and the handler answers status 500 with its text;
    the request has then made at most the one call to the gateway and no call
    to the vector index. *)
Theorem first_stage_failure_ends_the_request (env : App.settings)
  (sv : services) (body : App.ItemList) (t t' : trace) (e : exn) :
  let vs_client :=
    {| personal_access_token := App.token env;
       Services.workspace_url := App.workspace_url env |} in
  App.get_general_products sv (App.endpoint_url env) (App.token env)
    (App.items body) t = (Raise e, t') ->
  App.LLM4rec sv vs_client (App.endpoint_url env) (App.token env)
    (App.items body) 5 t = (Raise e, t')
  /\ App.get_recommendations env sv body t
     = (App.HTTPException 500 (str_exn e), t')
  /\ (t' = t
      \/ exists prompt,
           App._get_prompt (App.items body) = Ok prompt
           /\ t' = t ++ [RequestsPost (App.endpoint_url env) headers
                           (data prompt) ("token", App.token env)])
  /\ filter (fun ev => negb (is_post ev)) t'
     = filter (fun ev => negb (is_post ev)) t.
Proof.
  intros vs_client Hfail.
  assert (Hrun : App.LLM4rec sv vs_client (App.endpoint_url env)
                   (App.token env) (App.items body) 5 t = (Raise e, t')).
  { unfold App.LLM4rec. unfold Services.bind at 1. now rewrite Hfail. }
  split; [exact Hrun|]. split.
  { unfold App.get_recommendations. fold vs_client. now rewrite Hrun. }
  rewrite app_general_products_stages in Hfail.
  destruct (App._get_prompt (App.items body)) as [prompt|e0].
  - injection Hfail as _ <-. split.
    + right. now exists prompt.
    + rewrite filter_app. simpl. apply List.app_nil_r.
  - injection Hfail as _ <-. split; [now left | reflexivity].
Qed.

Lemma first_stage_failure_ends_the_request_witness :
  App.get_recommendations Scenario.env
    (VectorIndex.with_index Scenario.gateway_down Scenario.ranked)
    {| App.items := Scenario.purchases |} []
  = (App.HTTPException 500 "Connection refused",
     [RequestsPost (App.endpoint_url Scenario.env) headers
        (data (assemble App.system_prompt
                 (App.user_prompt "scarf, beanie, and ear muffs")))
        ("token", App.token Scenario.env)]).
Proof.
  apply (first_stage_failure_ends_the_request Scenario.env
           (VectorIndex.with_index Scenario.gateway_down Scenario.ranked)
           {| App.items := Scenario.purchases |} []
           [RequestsPost (App.endpoint_url Scenario.env) headers
              (data (assemble App.system_prompt
                       (App.user_prompt "scarf, beanie, and ear muffs")))
              ("token", App.token Scenario.env)]
           (RequestException "Connection refused")).
  reflexivity.
Defined.

(** X2.  The gateway's answer is not checked for its status: a body that is a
    JSON object without ['choices'], an error report for instance, makes
    [json.loads(response.text)['choices']] raise [KeyError], and the request
    ends with status 500 and the detail ['choices'], after the one call to the
    gateway. *)
Theorem gateway_error_body_is_a_key_error (env : App.settings)
  (sv : services) (body : App.ItemList) (t : trace)
  (prompt response_text : string) (d : list (string * pyval)) :
  App._get_prompt (App.items body) = Ok prompt ->
  requests_post sv (App.endpoint_url env) headers (data prompt)
    ("token", App.token env) = Ok response_text ->
  Json.loads response_text = Ok (PyDict d) ->
  dict_get d "choices" = None ->
  message_content response_text = Raise (KeyError "'choices'")
  /\ App.get_recommendations env sv body t
     = (App.HTTPException 500 "'choices'",
        t ++ [RequestsPost (App.endpoint_url env) headers (data prompt)
                ("token", App.token env)]).
Proof.
  intros Hprompt Hpost Hloads Hkey.
  assert (Hcontent : message_content response_text
                     = Raise (KeyError "'choices'")).
  { unfold message_content. rewrite Hloads. simpl. now rewrite Hkey. }
  split; [exact Hcontent|].
  unfold App.get_recommendations, App.LLM4rec. unfold Services.bind at 1.
  rewrite app_general_products_stages, Hprompt, Hpost. simpl rbind.
  rewrite Hcontent. reflexivity.
Qed.

Lemma gateway_error_body_is_a_key_error_witness :
  message_content Cases.error_body = Raise (KeyError "'choices'")
  /\ App.get_recommendations Scenario.env
       (VectorIndex.with_index (Cases.gateway_answering Cases.error_body)
          Scenario.ranked)
       {| App.items := Scenario.purchases |} []
     = (App.HTTPException 500 "'choices'",
        [] ++ [RequestsPost (App.endpoint_url Scenario.env) headers
                 (data (assemble App.system_prompt
                          (App.user_prompt "scarf, beanie, and ear muffs")))
                 ("token", App.token Scenario.env)]).
Proof.
  apply (gateway_error_body_is_a_key_error Scenario.env
           (VectorIndex.with_index (Cases.gateway_answering Cases.error_body)
              Scenario.ranked)
           {| App.items := Scenario.purchases |} []
           (assemble App.system_prompt
              (App.user_prompt "scarf, beanie, and ear muffs"))
           Cases.error_body
           [("error_code", PyStr "REQUEST_LIMIT_EXCEEDED");
            ("message", PyStr "Too many requests")]).
  - reflexivity.
  - reflexivity.
  - vm_compute. reflexivity.
  - reflexivity.
Defined.

(** The text the extraction step hands to [json.loads] ends with a closing
    brace, so what [json.loads] returns on it is a [dict]. *)
Lemma parse_response_is_dict (raw_text parsed : pyval) :
  parse_response raw_text = Ok parsed -> exists d, parsed = PyDict d.
Proof.
  unfold parse_response. intros H.
  destruct (extract_json_text raw_text) as [json_text|e] eqn:Hext;
    [|discriminate].
  simpl in H. apply extract_json_text_ends in Hext.
  pose proof (loads_brace_is_dict _ _ Hext H) as Hd.
  destruct parsed; try discriminate. now eexists.
Qed.

(** X3.  Once the message content of the gateway's answer is a text, the
    subscripts of [app.py]'s [get_general_products] cannot fail for the
    type of what they are applied to.  The function ends in one of these
    ways and no other: [ValueError] from [rindex] when the text has no
    closing brace; what [json.loads] raises on the text up to its last
    closing brace, which is a [JSONDecodeError], the [ValueError] of an
    integer literal of too many digits, or a [RecursionError]; [KeyError]
    when that text is an object without ['next_items']; and otherwise the
    value under ['next_items'].  What [json.loads] returns on that text is
    a [dict], so ['next_items'] is never a [TypeError]. *)
Theorem text_content_endings (sv : services)
  (endpoint_url token : string) (items : list string) (t : trace)
  (prompt response_text raw : string) :
  App._get_prompt items = Ok prompt ->
  requests_post sv endpoint_url headers (data prompt) ("token", token)
  = Ok response_text ->
  message_content response_text = Ok (PyStr raw) ->
  let r := fst (App.get_general_products sv endpoint_url token items t) in
  (contains_char rbrace raw = false
   /\ r = Raise (ValueError "substring not found"))
  \/ (contains_char rbrace raw = true
      /\ exists json_text e,
           extract_json_text (PyStr raw) = Ok json_text
           /\ Json.loads json_text = Raise e
           /\ r = Raise e
           /\ ((exists msg lineno colno pos,
                  e = JSONDecodeError msg lineno colno pos)
               \/ (exists n, e = Json.digits_error n)
               \/ e = Json.recursion_error "object"
               \/ e = Json.recursion_error "array"))
  \/ (exists d,
        parse_response (PyStr raw) = Ok (PyDict d)
        /\ dict_get d "next_items" = None
        /\ r = Raise (KeyError "'next_items'"))
  \/ (exists d v,
        parse_response (PyStr raw) = Ok (PyDict d)
        /\ dict_get d "next_items" = Some v
        /\ r = Ok v).
Proof.
  intros Hprompt Hpost Hcontent r. subst r.
  rewrite (app_general_products_run _ _ _ _ _ _ _ _ Hprompt Hpost Hcontent).
  cbn [fst].
  destruct (contains_char rbrace raw) eqn:Hbrace.
  - right.
    destruct (parse_response (PyStr raw)) as [parsed|e] eqn:Hparse.
    + right. destruct (parse_response_is_dict _ _ Hparse) as (d & ->).
      simpl. destruct (dict_get d "next_items") as [v|] eqn:Hkey.
      * right. exists d, v. now rewrite Hkey.
      * left. exists d. now rewrite Hkey.
    + left. split; [reflexivity|].
      unfold parse_response in Hparse.
      destruct (extract_json_text (PyStr raw)) as [json_text|e0] eqn:Hext.
      * simpl in Hparse. exists json_text, e.
        split; [reflexivity|]. split; [exact Hparse|].
        split; [reflexivity|]. exact (loads_raises _ _ Hparse).
      * exfalso. unfold extract_json_text, method_rindex, rindex in Hext.
        destruct (rfind rbrace raw) eqn:Hfind; [discriminate|].
        apply rfind_None in Hfind. congruence.
  - left. split; [reflexivity|].
    unfold parse_response. now rewrite extract_json_text_absent.
Qed.

Lemma text_content_endings_witness :
  let r :=
    fst (App.get_general_products
           (VectorIndex.with_index (Scenario.gateway Cases.other_key)
              Scenario.ranked)
           (App.endpoint_url Scenario.env) (App.token Scenario.env)
           Scenario.purchases []) in
  (contains_char rbrace Cases.other_key = false
   /\ r = Raise (ValueError "substring not found"))
  \/ (contains_char rbrace Cases.other_key = true
      /\ exists json_text e,
           extract_json_text (PyStr Cases.other_key) = Ok json_text
           /\ Json.loads json_text = Raise e
           /\ r = Raise e
           /\ ((exists msg lineno colno pos,
                  e = JSONDecodeError msg lineno colno pos)
               \/ (exists n, e = Json.digits_error n)
               \/ e = Json.recursion_error "object"
               \/ e = Json.recursion_error "array"))
  \/ (exists d,
        parse_response (PyStr Cases.other_key) = Ok (PyDict d)
        /\ dict_get d "next_items" = None
        /\ r = Raise (KeyError "'next_items'"))
  \/ (exists d v,
        parse_response (PyStr Cases.other_key) = Ok (PyDict d)
        /\ dict_get d "next_items" = Some v
        /\ r = Ok v).
Proof.
  apply (text_content_endings
           (VectorIndex.with_index (Scenario.gateway Cases.other_key)
              Scenario.ranked)
           (App.endpoint_url Scenario.env) (App.token Scenario.env)
           Scenario.purchases []
           (assemble App.system_prompt
              (App.user_prompt "scarf, beanie, and ear muffs"))
           (Scenario.chat_completion Cases.other_key) Cases.other_key).
  - reflexivity.
  - reflexivity.
  - vm_compute. reflexivity.
Defined.

(** The endings that [json.loads] adds to the syntax errors: a text nested
    deeper than the interpreter allows, and an integer literal of more
    digits than [int] converts. *)
Example text_content_ends_in_a_recursion_error :
  parse_response (PyStr Cases.deeply_nested)
  = Raise (Json.recursion_error "array").
Proof. vm_compute. reflexivity. Qed.

Example text_content_ends_in_a_digits_error :
  parse_response
    (PyStr (dq "{'next_items': " ++ Cases.times "1" 5000 ++ "}"))
  = Raise (ValueError
             "Exceeds the limit (4300 digits) for integer string conversion: value has 5000 digits; use sys.set_int_max_str_digits() to increase the limit").
Proof. vm_compute. reflexivity. Qed.

(** X4.  When the notebook's [get_general_products] returns, the text it
    returns ends with a closing brace and [json.loads] accepts it as an object:
    the [json.loads(json_text)] of the cell that follows returns a [dict].  The
    run made exactly the one call to the gateway. *)
Theorem notebook_returns_the_text_of_an_object (sv : services)
  (endpoint_url token : string) (items : list string) (t t' : trace)
  (json_text : string) :
  Notebook.get_general_products sv endpoint_url token items t
  = (Ok json_text, t') ->
  ends_with rbrace json_text = true
  /\ (exists d, Json.loads json_text = Ok (PyDict d))
  /\ exists prompt,
       Notebook._get_prompt items = Ok prompt
       /\ t' = t ++ [RequestsPost endpoint_url headers (data prompt)
                       ("token", token)].
Proof.
  rewrite notebook_general_products_stages. intros H.
  destruct (Notebook._get_prompt items) as [prompt|e]; [|discriminate].
  destruct (requests_post _ _ _ _ _) as [response_text|e]; [|discriminate].
  simpl in H.
  destruct (message_content response_text) as [raw_text|e]; [|discriminate].
  simpl in H.
  destruct (extract_json_text raw_text) as [text|e] eqn:Hext; [|discriminate].
  simpl in H.
  destruct (Json.loads text) as [parsed|e] eqn:Hloads; [|discriminate].
  simpl in H. injection H as <- <-.
  pose proof (extract_json_text_ends _ _ Hext) as Hend.
  split; [exact Hend|]. split.
  - pose proof (loads_brace_is_dict _ _ Hend Hloads) as Hd.
    destruct parsed as [| | | | | |d]; try discriminate.
    exists d. exact Hloads.
  - now exists prompt.
Qed.

Lemma notebook_returns_the_text_of_an_object_witness :
  ends_with rbrace Scenario.only_json = true
  /\ (exists d, Json.loads Scenario.only_json = Ok (PyDict d))
  /\ exists prompt,
       Notebook._get_prompt Scenario.purchases = Ok prompt
       /\ [RequestsPost (App.endpoint_url Scenario.env) headers
             (data (assemble Notebook.system_prompt
                      (Notebook.user_prompt "scarf, beanie, and ear muffs")))
             ("token", App.token Scenario.env)]
          = [] ++ [RequestsPost (App.endpoint_url Scenario.env) headers
                     (data prompt) ("token", App.token Scenario.env)].
Proof.
  apply (notebook_returns_the_text_of_an_object
           (VectorIndex.with_index (Scenario.gateway Scenario.only_json)
              Scenario.ranked)
           (App.endpoint_url Scenario.env) (App.token Scenario.env)
           Scenario.purchases []).
  vm_compute. reflexivity.
Defined.

(** X5.  The two copies of [get_general_products] do not accept the same
    answers: on an object without the key ['next_items'] the notebook's copy
    returns the text, its subscript being commented out, while [app.py]'s
    raises [KeyError]. *)
Theorem notebook_accepts_an_object_without_the_key (sv : services)
  (endpoint_url token : string) (items : list string) (t : trace)
  (response_text : string) (raw_text : pyval) (d : list (string * pyval)) :
  items <> [] ->
  (forall prompt,
     requests_post sv endpoint_url headers (data prompt) ("token", token)
     = Ok response_text) ->
  message_content response_text = Ok raw_text ->
  parse_response raw_text = Ok (PyDict d) ->
  dict_get d "next_items" = None ->
  (exists json_text,
      fst (Notebook.get_general_products sv endpoint_url token items t)
      = Ok json_text
      /\ Json.loads json_text = Ok (PyDict d))
  /\ fst (App.get_general_products sv endpoint_url token items t)
     = Raise (KeyError "'next_items'").
Proof.
  intros Hitems Hpost Hcontent Hparse Hkey.
  destruct (PromptFacts.items_delimited_ok items Hitems)
    as (delimited & Hdelimited & _).
  rewrite notebook_general_products_stages, app_general_products_stages.
  unfold Notebook._get_prompt, App._get_prompt. rewrite Hdelimited.
  cbn [rbind fst]. rewrite !Hpost. cbn [rbind]. rewrite Hcontent.
  cbn [rbind]. rewrite Hparse. unfold parse_response in Hparse.
  destruct (extract_json_text raw_text) as [json_text|e]; [|discriminate].
  simpl in Hparse. split.
  - exists json_text. simpl. now rewrite Hparse.
  - simpl. now rewrite Hkey.
Qed.

Lemma notebook_accepts_an_object_without_the_key_witness :
  let sv :=
    VectorIndex.with_index (Scenario.gateway Cases.other_key)
      Scenario.ranked in
  (exists json_text,
      fst (Notebook.get_general_products sv (App.endpoint_url Scenario.env)
             (App.token Scenario.env) Scenario.purchases [])
      = Ok json_text
      /\ Json.loads json_text
         = Ok (PyDict [("items",
                        PyList [PyStr "winter boots"; PyStr "gloves"])]))
  /\ fst (App.get_general_products sv (App.endpoint_url Scenario.env)
            (App.token Scenario.env) Scenario.purchases [])
     = Raise (KeyError "'next_items'").
Proof.
  intros sv.
  apply (notebook_accepts_an_object_without_the_key sv
           (App.endpoint_url Scenario.env) (App.token Scenario.env)
           Scenario.purchases []
           (Scenario.chat_completion Cases.other_key)
           (PyStr Cases.other_key)).
  - discriminate.
  - intros prompt. reflexivity.
  - vm_compute. reflexivity.
  - vm_compute. reflexivity.
  - reflexivity.
Defined.

(** *** The second stage *)

(** [get_specific_products]: the index is looked up, then searched once;
    the search is not made when the lookup raises. *)
Lemma specific_products_stages (index_name endpoint_name : string)
  (sv : services) (vs_client : VectorSearchClient) (general_items : pyval)
  (num_items : nat) (t : trace) :
  get_specific_products_at index_name endpoint_name sv vs_client general_items
    num_items t
  = match get_index sv vs_client index_name endpoint_name with
    | Raise e => (Raise e, t ++ [GetIndex vs_client index_name endpoint_name])
    | Ok idx =>
        (results <-- similarity_search sv index_name (str general_items)
                       ["id"; "text"] num_items ;;
         result_ <-- getitem_str results "result" ;;
         data_array <-- getitem_str result_ "data_array" ;;
         rows <-- iter data_array ;;
         comprehension rows,
         t ++ [GetIndex vs_client index_name endpoint_name;
               SimilaritySearch index_name (str general_items) ["id"; "text"]
                 num_items])
    end.
Proof.
  unfold get_specific_products_at. unfold_monad.
  destruct (get_index _ _ _ _) as [idx|e]; [|reflexivity].
  rewrite <- List.app_assoc.
  destruct (similarity_search _ _ _ _ _) as [results|e]; reflexivity.
Qed.

Lemma comprehension_returns (rows out : list pyval) :
  comprehension rows = Ok out
  <-> Forall2 (fun item x => getitem_int item (-2) = Ok x) rows out.
Proof.
  revert out. induction rows as [|item rows IH]; intros out; simpl.
  - split; intros H; [injection H as <-; constructor | now inversion H].
  - destruct (getitem_int item (-2)) as [x|e] eqn:Hitem; simpl.
    + destruct (comprehension rows) as [xs|e]; simpl.
      * split.
        -- intros H. injection H as <-. constructor; [exact Hitem|].
           now apply IH.
        -- intros H. inversion H as [|? y ? ys Hy Hys]; subst.
           apply IH in Hys. congruence.
      * split; [discriminate|].
        intros H. inversion H as [|? y ? ys Hy Hys]; subst.
        apply IH in Hys. discriminate.
    + split; [discriminate|]. intros H. inversion H; subst. congruence.
Qed.

Lemma comprehension_raises (rows : list pyval) (e : exn) :
  comprehension rows = Raise e
  <-> exists before item after,
        rows = before ++ item :: after
        /\ Forall (fun r => exists x, getitem_int r (-2) = Ok x) before
        /\ getitem_int item (-2) = Raise e.
Proof.
  revert e. induction rows as [|item rows IH]; intros e; simpl.
  - split; [discriminate|].
    intros (before & item & after & H & _). now destruct before.
  - destruct (getitem_int item (-2)) as [x|e0] eqn:Hitem; simpl.
    + split.
      * intros H.
        assert (Hrows : comprehension rows = Raise e)
          by (destruct (comprehension rows); [discriminate | exact H]).
        apply IH in Hrows.
        destruct Hrows as (before & bad & after & -> & Hbefore & Hbad).
        exists (item :: before), bad, after.
        split; [reflexivity|]. split; [|exact Hbad].
        constructor; [now exists x | exact Hbefore].
      * intros (before & bad & after & Heq & Hbefore & Hbad).
        destruct before as [|b before]; simpl in Heq; injection Heq as -> ->.
        -- congruence.
        -- inversion Hbefore; subst.
           assert (Hrows : comprehension (before ++ bad :: after) = Raise e)
             by (apply IH; eauto 6).
           now rewrite Hrows.
    + split.
      * intros H. injection H as <-. exists [], item, rows.
        split; [reflexivity|]. split; [constructor | exact Hitem].
      * intros (before & bad & after & Heq & Hbefore & Hbad).
        destruct before as [|b before]; simpl in Heq; injection Heq as -> ->.
        -- congruence.
        -- inversion Hbefore as [|? ? (x & Hx) ?]; subst. congruence.
Qed.

(** X6.  The list comprehension of [get_specific_products] is all or nothing.
    With the index found and the search answered, the function returns exactly
    when every row of [data_array] has an element at [-2], and then with one
    element per row, in the order of the rows; otherwise it raises what the
    first row without one raises, and the elements already taken from the rows
    before it are lost. *)
Theorem specific_products_are_all_or_nothing
  (index_name endpoint_name : string) (sv : services)
  (vs_client : VectorSearchClient) (general_items : pyval) (num_items : nat)
  (t : trace) (results result_ data_array : pyval) (rows : list pyval) :
  get_index sv vs_client index_name endpoint_name = Ok tt ->
  similarity_search sv index_name (str general_items) ["id"; "text"] num_items
  = Ok results ->
  getitem_str results "result" = Ok result_ ->
  getitem_str result_ "data_array" = Ok data_array ->
  iter data_array = Ok rows ->
  let r :=
    fst (get_specific_products_at index_name endpoint_name sv vs_client
           general_items num_items t) in
  (forall out,
     r = Ok out
     <-> Forall2 (fun item x => getitem_int item (-2) = Ok x) rows out)
  /\ (forall e,
        r = Raise e
        <-> exists before item after,
              rows = before ++ item :: after
              /\ Forall (fun r => exists x, getitem_int r (-2) = Ok x) before
              /\ getitem_int item (-2) = Raise e).
Proof.
  intros Hidx Hsearch Hresult Hdata Hrows r. subst r.
  rewrite specific_products_stages, Hidx, Hsearch. cbn [fst rbind].
  rewrite Hresult. cbn [rbind]. rewrite Hdata. cbn [rbind].
  rewrite Hrows. cbn [rbind].
  split; [intros out; apply comprehension_returns
         | intros e; apply comprehension_raises].
Qed.

Lemma specific_products_are_all_or_nothing_witness :
  let rows :=
    [PyList [PyInt 17; PyStr "Insulated snow boots"; PyFloat "0.91"];
     PyList [PyStr "Fleece-lined gloves"]] in
  let r :=
    fst (App.get_specific_products
           (Cases.answering Scenario.gateway_down (VectorIndex.reply rows))
           Scenario.vs_client (PyStr "gloves") 5 []) in
  (forall out,
     r = Ok out
     <-> Forall2 (fun item x => getitem_int item (-2) = Ok x) rows out)
  /\ (forall e,
        r = Raise e
        <-> exists before item after,
              rows = before ++ item :: after
              /\ Forall (fun r => exists x, getitem_int r (-2) = Ok x) before
              /\ getitem_int item (-2) = Raise e).
Proof.
  intros rows.
  apply (specific_products_are_all_or_nothing
           "solacc_uc.llm_recommender.product_index"
           "vs_llm_recommender_embeddings"
           (Cases.answering Scenario.gateway_down (VectorIndex.reply rows))
           Scenario.vs_client (PyStr "gloves") 5 []
           (VectorIndex.reply rows)
           (PyDict [("row_count", PyInt 2); ("data_array", PyList rows)])
           (PyList rows) rows);
    reflexivity.
Defined.

(** [LLM4rec]: the second stage runs on what the first returned, from the
    trace the first left. *)
Lemma LLM4rec_stages (sv : services) (vs_client : VectorSearchClient)
  (endpoint_url token : string) (items : list string) (n_items : nat)
  (t : trace) :
  App.LLM4rec sv vs_client endpoint_url token items n_items t
  = match App.get_general_products sv endpoint_url token items t with
    | (Ok general_items, t1) =>
        App.get_specific_products sv vs_client general_items n_items t1
    | (Raise e, t1) => (Raise e, t1)
    end.
Proof.
  unfold App.LLM4rec. unfold Services.bind at 1.
  destruct (App.get_general_products _ _ _ _ _) as [[general_items|e] t1];
    [|reflexivity].
  unfold Services.bind, Services.ret.
  now destruct (App.get_specific_products _ _ _ _ _) as [[out|e] t2].
Qed.

(** X7.  A request that is answered has made exactly three external calls, in
    this order: the gateway, with the prompt built from the body and the token
    as the password of user [token]; the lookup of [app.py]'s index, with a
    client built from the configured token and workspace; and one similarity
    search on that index for five results, its query the printed value the
    first stage returned. *)
Theorem answered_request_made_three_calls (env : App.settings)
  (sv : services) (body : App.ItemList) (t t' : trace) (result : list pyval) :
  App.get_recommendations env sv body t = (App.Return result, t') ->
  exists prompt general_items,
    App._get_prompt (App.items body) = Ok prompt
    /\ fst (App.get_general_products sv (App.endpoint_url env) (App.token env)
              (App.items body) t) = Ok general_items
    /\ t' = t ++ [RequestsPost (App.endpoint_url env) headers (data prompt)
                    ("token", App.token env);
                  GetIndex {| personal_access_token := App.token env;
                              Services.workspace_url := App.workspace_url env |}
                    "solacc_uc.llm_recommender.product_index"
                    "vs_llm_recommender_embeddings";
                  SimilaritySearch "solacc_uc.llm_recommender.product_index"
                    (str general_items) ["id"; "text"] 5].
Proof.
  unfold App.get_recommendations. rewrite LLM4rec_stages.
  rewrite app_general_products_stages.
  destruct (App._get_prompt (App.items body)) as [prompt|e];
    [|discriminate].
  destruct (rbind _ _) as [general_items|e]; [|discriminate].
  unfold App.get_specific_products. rewrite specific_products_stages.
  destruct (get_index _ _ _ _) as [idx|e]; [|discriminate].
  destruct (rbind _ _) as [out|e]; [|discriminate].
  intros H. injection H as <- <-.
  exists prompt, general_items. split; [reflexivity|].
  split; [reflexivity|]. now rewrite <- List.app_assoc.
Qed.

Lemma answered_request_made_three_calls_witness :
  exists prompt general_items,
    App._get_prompt Scenario.purchases = Ok prompt
    /\ fst (App.get_general_products
              (VectorIndex.with_index (Scenario.gateway Scenario.only_json)
                 Scenario.ranked)
              (App.endpoint_url Scenario.env) (App.token Scenario.env)
              Scenario.purchases []) = Ok general_items
    /\ snd (App.get_recommendations Scenario.env
              (VectorIndex.with_index (Scenario.gateway Scenario.only_json)
                 Scenario.ranked)
              {| App.items := Scenario.purchases |} [])
       = [] ++ [RequestsPost (App.endpoint_url Scenario.env) headers
                  (data prompt) ("token", App.token Scenario.env);
                GetIndex Scenario.vs_client
                  "solacc_uc.llm_recommender.product_index"
                  "vs_llm_recommender_embeddings";
                SimilaritySearch "solacc_uc.llm_recommender.product_index"
                  (str general_items) ["id"; "text"] 5].
Proof.
  apply (answered_request_made_three_calls Scenario.env
           (VectorIndex.with_index (Scenario.gateway Scenario.only_json)
              Scenario.ranked)
           {| App.items := Scenario.purchases |} []
           (snd (App.get_recommendations Scenario.env
                   (VectorIndex.with_index
                      (Scenario.gateway Scenario.only_json) Scenario.ranked)
                   {| App.items := Scenario.purchases |} []))
           [PyStr "Insulated snow boots"; PyStr "Fleece-lined gloves";
            PyStr "Merino wool socks"; PyStr "Rechargeable hand warmers";
            PyStr "Thermal base layer set"]).
  vm_compute. reflexivity.
Defined.

(** X8.  When the first stage has returned and the lookup of the index raises,
    the search is not made: the handler answers status 500 with the text of
    that exception, and the lookup is the last call of the request. *)
Theorem index_lookup_failure_skips_the_search (env : App.settings)
  (sv : services) (body : App.ItemList) (t t1 : trace)
  (general_items : pyval) (e : exn) :
  let vs_client :=
    {| personal_access_token := App.token env;
       Services.workspace_url := App.workspace_url env |} in
  App.get_general_products sv (App.endpoint_url env) (App.token env)
    (App.items body) t = (Ok general_items, t1) ->
  get_index sv vs_client "solacc_uc.llm_recommender.product_index"
    "vs_llm_recommender_embeddings" = Raise e ->
  App.get_recommendations env sv body t
  = (App.HTTPException 500 (str_exn e),
     t1 ++ [GetIndex vs_client "solacc_uc.llm_recommender.product_index"
              "vs_llm_recommender_embeddings"])
  /\ searches (snd (App.get_recommendations env sv body t)) = searches t1.
Proof.
  intros vs_client Hfirst Hidx.
  assert (Hrun : App.get_recommendations env sv body t
                 = (App.HTTPException 500 (str_exn e),
                    t1 ++ [GetIndex vs_client
                             "solacc_uc.llm_recommender.product_index"
                             "vs_llm_recommender_embeddings"])).
  { unfold App.get_recommendations. fold vs_client.
    rewrite LLM4rec_stages, Hfirst.
    unfold App.get_specific_products.
    now rewrite specific_products_stages, Hidx. }
  split; [exact Hrun|].
  rewrite Hrun. cbn [snd]. rewrite searches_app. apply List.app_nil_r.
Qed.

Lemma index_lookup_failure_skips_the_search_witness :
  let sv := Cases.without_index (Scenario.gateway Scenario.only_json) in
  App.get_recommendations Scenario.env sv
    {| App.items := Scenario.purchases |} []
  = (App.HTTPException 500
       "Index solacc_uc.llm_recommender.product_index not found",
     [RequestsPost (App.endpoint_url Scenario.env) headers
        (data (assemble App.system_prompt
                 (App.user_prompt "scarf, beanie, and ear muffs")))
        ("token", App.token Scenario.env)]
     ++ [GetIndex Scenario.vs_client "solacc_uc.llm_recommender.product_index"
           "vs_llm_recommender_embeddings"])
  /\ searches (snd (App.get_recommendations Scenario.env sv
                      {| App.items := Scenario.purchases |} []))
     = searches
         [RequestsPost (App.endpoint_url Scenario.env) headers
            (data (assemble App.system_prompt
                     (App.user_prompt "scarf, beanie, and ear muffs")))
            ("token", App.token Scenario.env)].
Proof.
  intros sv.
  apply (index_lookup_failure_skips_the_search Scenario.env sv
           {| App.items := Scenario.purchases |} []
           [RequestsPost (App.endpoint_url Scenario.env) headers
              (data (assemble App.system_prompt
                       (App.user_prompt "scarf, beanie, and ear muffs")))
              ("token", App.token Scenario.env)]
           (PyList [PyStr "winter boots"; PyStr "gloves"; PyStr "wool socks";
                    PyStr "hand warmers"; PyStr "thermal underwear"])
           (Exception
              "Index solacc_uc.llm_recommender.product_index not found")).
  - vm_compute. reflexivity.
  - reflexivity.
Defined.

(** X9.  A reply of the search whose [result] has no [data_array] is not
    treated as an empty answer: the subscript raises [KeyError], and the
    handler answers status 500 with the detail ['data_array'], after all three
    calls have been made. *)
Theorem reply_without_data_array_is_a_key_error (env : App.settings)
  (sv : services) (body : App.ItemList) (t t1 : trace)
  (general_items results : pyval) (r : list (string * pyval)) :
  let vs_client :=
    {| personal_access_token := App.token env;
       Services.workspace_url := App.workspace_url env |} in
  App.get_general_products sv (App.endpoint_url env) (App.token env)
    (App.items body) t = (Ok general_items, t1) ->
  get_index sv vs_client "solacc_uc.llm_recommender.product_index"
    "vs_llm_recommender_embeddings" = Ok tt ->
  similarity_search sv "solacc_uc.llm_recommender.product_index"
    (str general_items) ["id"; "text"] 5 = Ok results ->
  getitem_str results "result" = Ok (PyDict r) ->
  dict_get r "data_array" = None ->
  App.get_recommendations env sv body t
  = (App.HTTPException 500 "'data_array'",
     t1 ++ [GetIndex vs_client "solacc_uc.llm_recommender.product_index"
              "vs_llm_recommender_embeddings";
            SimilaritySearch "solacc_uc.llm_recommender.product_index"
              (str general_items) ["id"; "text"] 5]).
Proof.
  intros vs_client Hfirst Hidx Hsearch Hresult Hkey.
  unfold App.get_recommendations. fold vs_client.
  rewrite LLM4rec_stages, Hfirst. unfold App.get_specific_products.
  rewrite specific_products_stages, Hidx, Hsearch. cbn [rbind].
  rewrite Hresult. cbn [rbind getitem_str]. rewrite Hkey. reflexivity.
Qed.

Lemma reply_without_data_array_is_a_key_error_witness :
  App.get_recommendations Scenario.env
    (Cases.answering (Scenario.gateway Scenario.only_json)
       Cases.reply_without_rows)
    {| App.items := Scenario.purchases |} []
  = (App.HTTPException 500 "'data_array'",
     [RequestsPost (App.endpoint_url Scenario.env) headers
        (data (assemble App.system_prompt
                 (App.user_prompt "scarf, beanie, and ear muffs")))
        ("token", App.token Scenario.env)]
     ++ [GetIndex Scenario.vs_client "solacc_uc.llm_recommender.product_index"
           "vs_llm_recommender_embeddings";
         SimilaritySearch "solacc_uc.llm_recommender.product_index"
           "['winter boots', 'gloves', 'wool socks', 'hand warmers', 'thermal underwear']"
           ["id"; "text"] 5]).
Proof.
  apply (reply_without_data_array_is_a_key_error Scenario.env
           (Cases.answering (Scenario.gateway Scenario.only_json)
              Cases.reply_without_rows)
           {| App.items := Scenario.purchases |} []
           [RequestsPost (App.endpoint_url Scenario.env) headers
              (data (assemble App.system_prompt
                       (App.user_prompt "scarf, beanie, and ear muffs")))
              ("token", App.token Scenario.env)]
           (PyList [PyStr "winter boots"; PyStr "gloves"; PyStr "wool socks";
                    PyStr "hand warmers"; PyStr "thermal underwear"])
           Cases.reply_without_rows
           [("row_count", PyInt 0)]).
  - vm_compute. reflexivity.
  - reflexivity.
  - reflexivity.
  - reflexivity.
  - reflexivity.
Defined.

End RequestFacts.

(** ** The provisioning cells of [01_Prepare_Product_Search_Data.py] *)

Module SetupFacts.
Import Py Setup.
Local Open Scope list_scope.

Ltac unfold_setup :=
  unfold Setup.bind, Setup.call, Setup.ret, Setup.raise, Setup.try_except.

(** *** The latest registered version *)

Section VersionFacts.

Variables ModelVersion Version : Type.
Variable version : ModelVersion -> Version.
Variable lt : Version -> Version -> bool.

(** [<] is a strict weak order, as Python's is on [int] and on [str]. *)
Hypothesis lt_asymmetric : forall a b, lt a b = true -> lt b a = false.
Hypothesis lt_incomparable :
  forall a b c, lt a b = false -> lt b c = false -> lt a c = false.

Lemma lt_transitive (a b c : Version) :
  lt a b = true -> lt b c = true -> lt a c = true.
Proof.
  intros Hab Hbc. destruct (lt a c) eqn:Hac; [reflexivity|].
  pose proof (lt_incomparable _ _ _ Hac (lt_asymmetric _ _ Hbc)). congruence.
Qed.

Lemma sorted_reverse_head (l : list ModelVersion) :
  match sorted_reverse version lt l with
  | [] => l = []
  | latest :: _ =>
      exists before after,
        l = before ++ latest :: after
        /\ (forall m, In m before -> lt (version m) (version latest) = true)
        /\ (forall m, In m after -> lt (version latest) (version m) = false)
  end.
Proof.
  induction l as [|x l IH]; [reflexivity|].
  simpl. destruct (sorted_reverse version lt l) as [|h s].
  - subst l. exists [], []. simpl. repeat split; intros m [].
  - destruct IH as (before & after & -> & Hbefore & Hafter).
    simpl. destruct (lt (version x) (version h)) eqn:Hxh.
    + exists (x :: before), after. split; [reflexivity|].
      split; [|exact Hafter].
      intros m [<- | Hm]; [exact Hxh | now apply Hbefore].
    + exists [], (before ++ h :: after). split; [reflexivity|].
      split; [intros m []|].
      intros m Hm. apply in_app_or in Hm. destruct Hm as [Hm | [<- | Hm]].
      * destruct (lt (version x) (version m)) eqn:Hxm; [|reflexivity].
        pose proof (lt_transitive _ _ _ Hxm (Hbefore m Hm)). congruence.
      * exact Hxh.
      * exact (lt_incomparable _ _ _ Hxh (Hafter m Hm)).
Qed.

End VersionFacts.

(** X10.  The version the cell "Get Registered Model to Version" passes on is
    the greatest [version] among the registered model versions, in the order
    Python's [<] gives on that attribute, and [latest_version] is the first
    model version of the list that has it; when the registry answers no version
    at all, [sorted_versions[0]] raises [IndexError]. *)
Theorem model_version_is_the_greatest (ModelVersion Version : Type)
  (version : ModelVersion -> Version) (lt : Version -> Version -> bool)
  (model_versions : list ModelVersion) :
  (forall a b, lt a b = true -> lt b a = false) ->
  (forall a b c, lt a b = false -> lt b c = false -> lt a c = false) ->
  match model_versions with
  | [] =>
      model_version version lt model_versions
      = Raise (IndexError "list index out of range")
  | _ :: _ =>
      exists latest before after,
        latest_version version lt model_versions = Ok latest
        /\ model_version version lt model_versions = Ok (version latest)
        /\ model_versions = before ++ latest :: after
        /\ (forall m, In m before -> lt (version m) (version latest) = true)
        /\ (forall m, In m after -> lt (version latest) (version m) = false)
  end.
Proof.
  intros Hasym Hinc.
  pose proof (sorted_reverse_head _ _ version lt Hasym Hinc model_versions)
    as Hhead.
  destruct model_versions as [|x l]; [reflexivity|].
  unfold model_version, latest_version.
  destruct (sorted_reverse version lt (x :: l)) as [|latest s];
    [discriminate|].
  destruct Hhead as (before & after & Heq & Hbefore & Hafter).
  exists latest, before, after. repeat split; assumption.
Qed.

Lemma model_version_is_the_greatest_witness :
  exists latest before after,
    latest_version snd Z.ltb [("a", 2%Z); ("b", 3%Z); ("c", 1%Z); ("d", 3%Z)]
    = Ok latest
    /\ model_version snd Z.ltb [("a", 2%Z); ("b", 3%Z); ("c", 1%Z); ("d", 3%Z)]
       = Ok (snd latest)
    /\ [("a", 2%Z); ("b", 3%Z); ("c", 1%Z); ("d", 3%Z)]
       = before ++ latest :: after
    /\ (forall m, In m before -> Z.ltb (snd m) (snd latest) = true)
    /\ (forall m, In m after -> Z.ltb (snd latest) (snd m) = false).
Proof.
  apply (model_version_is_the_greatest (string * Z) Z snd Z.ltb
           [("a", 2%Z); ("b", 3%Z); ("c", 1%Z); ("d", 3%Z)]).
  - intros a b H. apply Z.ltb_lt in H. apply Z.ltb_ge. lia.
  - intros a b c H1 H2. apply Z.ltb_ge in H1, H2. apply Z.ltb_ge. lia.
Defined.

(** When the [version] attribute is a text the order is that of [str], in
    which version 9 comes out ahead of version 10. *)
Example model_version_of_texts :
  model_version (fun v : string => v) String.ltb
    ["1"; "2"; "3"; "4"; "5"; "6"; "7"; "8"; "9"; "10"]%string
  = Ok "9"%string.
Proof. vm_compute. reflexivity. Qed.

(** *** The model serving endpoint *)

(** [s.replace(old, new)] leaves no [old] behind. *)
Lemma replace_absent (old new : ascii) (s : string) :
  old <> new -> contains_char old (replace old new s) = false.
Proof.
  intros Hne. induction s as [|c s IH]; [reflexivity|].
  simpl. rewrite IH, orb_false_r.
  destruct (Ascii.eqb c old) eqn:E; [|exact E].
  apply Ascii.eqb_neq. congruence.
Qed.

Lemma replace_length (old new : ascii) (s : string) :
  String.length (replace old new s) = String.length s.
Proof. induction s as [|c s IH]; simpl; congruence. Qed.

(** X11.  Whatever the configured model name, a name in three levels included,
    the name given to the served model has no dot: it is the model name with
    each dot turned into an underscore, followed by [_1]. *)
Theorem served_model_name_has_no_dot (cfg : config) :
  contains_char "." (served_model_name cfg) = false
  /\ String.length (served_model_name cfg)
     = String.length (embedding_model_name cfg) + 2
  /\ ((contains_char "." (embedding_model_name cfg) = false ->
       served_model_name cfg = embedding_model_name cfg ++ "_1")%string).
Proof.
  unfold served_model_name. split; [|split].
  - rewrite StrFacts.contains_char_app, replace_absent by discriminate.
    reflexivity.
  - rewrite StrFacts.length_app, replace_length. reflexivity.
  - intros H. f_equal.
    induction (embedding_model_name cfg) as [|c s IH]; [reflexivity|].
    simpl in *. apply orb_false_iff in H. destruct H as [Hc Hs].
    rewrite Hc, (IH Hs). reflexivity.
Qed.

(** The first part of the cell, by the answer to the lookup. *)
Lemma deploy_endpoint_stages (w : world) (dumps : pyval -> string)
  (cfg : config) (workspace_url token : string) (model_version : pyval)
  (t : trace) :
  let lookup :=
    Request "GET" (base_url workspace_url ++ "/" ++ embedding_model_name cfg)
      (headers token) None in
  let deploy :=
    Request "POST" (base_url workspace_url) (headers token)
      (Some (dumps (endpoint_config cfg model_version))) in
  deploy_endpoint w dumps cfg workspace_url token model_version t
  = match requests_request w t lookup with
    | Raise e => (Raise e, t ++ [lookup])
    | Ok results =>
        if (status_code results =? 200)%Z then (Ok tt, t ++ [lookup])
        else
          (match requests_request w (t ++ [lookup]) deploy with
           | Raise e => Raise e
           | Ok deploy_response =>
               if (status_code deploy_response =? 200)%Z then Ok tt
               else Raise (request_failed deploy_response)
           end,
           t ++ [lookup; deploy])
    end.
Proof.
  intros lookup deploy. unfold deploy_endpoint. unfold_setup.
  fold lookup. fold deploy.
  destruct (requests_request w t lookup) as [results|e]; [|reflexivity].
  destruct (status_code results =? 200)%Z; [reflexivity|].
  rewrite <- List.app_assoc. simpl.
  destruct (requests_request w (t ++ [lookup]) deploy)
    as [deploy_response|e]; [|reflexivity].
  now destruct (status_code deploy_response =? 200)%Z.
Qed.

(** X12.  An endpoint that the lookup finds (status 200) is not deployed again:
    the lookup is then the only request of the first part of the cell, and the
    wait starts.  Any other status of the lookup, not only the one for a
    missing endpoint, leads to the one POST of the configuration, in which the
    endpoint has the name that was looked up. *)
Theorem endpoint_is_deployed_unless_found (fuel : nat) (w : world)
  (dumps : pyval -> string) (cfg : config) (workspace_url token : string)
  (model_version : pyval) (env : Provisioning.environment string)
  (t : trace) (c : Provisioning.clock) (results : response) :
  let lookup :=
    Request "GET" (base_url workspace_url ++ "/" ++ embedding_model_name cfg)
      (headers token) None in
  let deploy :=
    Request "POST" (base_url workspace_url) (headers token)
      (Some (dumps (endpoint_config cfg model_version))) in
  requests_request w t lookup = Ok results ->
  if (status_code results =? 200)%Z then
    deploy_endpoint w dumps cfg workspace_url token model_version t
    = (Ok tt, t ++ [lookup])
    /\ deploy_cell fuel w dumps cfg workspace_url token model_version env t c
       = match Provisioning.wait_for_endpoint fuel env c with
         | Some (r, c') => Some (r, t ++ [lookup], c')
         | None => None
         end
  else
    snd (deploy_endpoint w dumps cfg workspace_url token model_version t)
    = t ++ [lookup; deploy]
    /\ getitem_str (endpoint_config cfg model_version) "name"
       = Ok (PyStr (embedding_model_name cfg)).
Proof.
  intros lookup deploy Hlookup.
  pose proof (deploy_endpoint_stages w dumps cfg workspace_url token
                model_version t) as Hrun.
  cbv zeta in Hrun. fold lookup in Hrun. fold deploy in Hrun.
  rewrite Hlookup in Hrun.
  destruct (status_code results =? 200)%Z.
  - split; [exact Hrun|]. unfold deploy_cell. now rewrite Hrun.
  - rewrite Hrun. split; reflexivity.
Qed.

Lemma endpoint_is_deployed_unless_found_witness :
  let w := Workspace.workspace 200 in
  let lookup :=
    Request "GET"
      (base_url "https://adb-1.azuredatabricks.net" ++ "/"
       ++ embedding_model_name notebook_config)
      (headers "dapi-token") None in
  deploy_endpoint w Workspace.dumps notebook_config
    "https://adb-1.azuredatabricks.net" "dapi-token" (PyStr "1")
    Workspace.deployed
  = (Ok tt, Workspace.deployed ++ [lookup])
  /\ deploy_cell 62 w Workspace.dumps notebook_config
       "https://adb-1.azuredatabricks.net" "dapi-token" (PyStr "1")
       Scenario.endpoint_env Workspace.deployed Scenario.start
     = match Provisioning.wait_for_endpoint 62 Scenario.endpoint_env
               Scenario.start with
       | Some (r, c') => Some (r, Workspace.deployed ++ [lookup], c')
       | None => None
       end.
Proof.
  intros w lookup.
  exact (endpoint_is_deployed_unless_found 62 w Workspace.dumps
           notebook_config "https://adb-1.azuredatabricks.net" "dapi-token"
           (PyStr "1") Scenario.endpoint_env
           Workspace.deployed Scenario.start
           {| status_code := 200;
              text := dq "{'state': {'ready': 'READY'}}" |}
           eq_refl).
Defined.

(** X13.  A deployment that is not answered with status 200 raises the
    exception that carries the status and the text of the answer, and the wait
    does not start: no status request is made and the clock is where it was.
    The cell that tests the endpoint reports an answer the same way. *)
Theorem failed_deployment_raises_before_the_wait (fuel : nat) (w : world)
  (dumps : pyval -> string) (cfg : config) (workspace_url token : string)
  (model_version : pyval) (env : Provisioning.environment string)
  (t : trace) (c : Provisioning.clock) (results deploy_response : response) :
  let lookup :=
    Request "GET" (base_url workspace_url ++ "/" ++ embedding_model_name cfg)
      (headers token) None in
  let deploy :=
    Request "POST" (base_url workspace_url) (headers token)
      (Some (dumps (endpoint_config cfg model_version))) in
  requests_request w t lookup = Ok results ->
  status_code results <> 200%Z ->
  requests_request w (t ++ [lookup]) deploy = Ok deploy_response ->
  status_code deploy_response <> 200%Z ->
  deploy_cell fuel w dumps cfg workspace_url token model_version env t c
  = Some (Raise (Exception
                   ("Request failed with status "
                    ++ string_of_Z (status_code deploy_response) ++ ", "
                    ++ text deploy_response)),
          t ++ [lookup; deploy], c)
  /\ (forall data_json u invoke_response,
        let invoke :=
          Request "POST"
            (workspace_url ++ "/serving-endpoints/" ++ embedding_model_name cfg
             ++ "/invocations")
            (headers token) (Some data_json) in
        requests_request w u invoke = Ok invoke_response ->
        test_endpoint w cfg workspace_url token data_json u
        = (if (status_code invoke_response =? 200)%Z
           then Ok (text invoke_response)
           else Raise (Exception
                         ("Request failed with status "
                          ++ string_of_Z (status_code invoke_response) ++ ", "
                          ++ text invoke_response)),
           u ++ [invoke])).
Proof.
  intros lookup deploy Hlookup Hmissing Hdeploy Hfailed. split.
  - unfold deploy_cell.
    pose proof (deploy_endpoint_stages w dumps cfg workspace_url token
                  model_version t) as Hrun.
    cbv zeta in Hrun. fold lookup in Hrun. fold deploy in Hrun.
    apply Z.eqb_neq in Hmissing, Hfailed.
    rewrite Hlookup, Hmissing, Hdeploy, Hfailed in Hrun.
    now rewrite Hrun.
  - intros data_json u invoke_response invoke Hinvoke.
    unfold test_endpoint. unfold_setup. fold invoke. rewrite Hinvoke.
    now destruct (status_code invoke_response =? 200)%Z.
Qed.

Lemma failed_deployment_raises_before_the_wait_witness :
  deploy_cell 62 (Workspace.workspace 403) Workspace.dumps notebook_config
    "https://adb-1.azuredatabricks.net" "dapi-token" (PyStr "1")
    Scenario.endpoint_env [] Scenario.start
  = Some (Raise (Exception
                   ("Request failed with status " ++ string_of_Z 403 ++ ", "
                    ++ dq "{'error_code': 'PERMISSION_DENIED'}")),
          [] ++ [Request "GET"
                   "https://adb-1.azuredatabricks.net/api/2.0/serving-endpoints/llm_recommender_embeddings"
                   (headers "dapi-token") None;
                 Request "POST"
                   "https://adb-1.azuredatabricks.net/api/2.0/serving-endpoints"
                   (headers "dapi-token")
                   (Some (dq "{'name': 'llm_recommender_embeddings'}"))],
          Scenario.start).
Proof.
  apply (failed_deployment_raises_before_the_wait 62
           (Workspace.workspace 403) Workspace.dumps notebook_config
           "https://adb-1.azuredatabricks.net" "dapi-token" (PyStr "1")
           Scenario.endpoint_env [] Scenario.start
           {| status_code := 404;
              text := dq "{'error_code': 'RESOURCE_DOES_NOT_EXIST'}" |}
           {| status_code := 403;
              text := dq "{'error_code': 'PERMISSION_DENIED'}" |}).
  - reflexivity.
  - discriminate.
  - reflexivity.
  - discriminate.
Defined.

(** *** The vector search endpoint and index *)

Lemma create_vs_endpoint_stages (w : world) (t : trace) :
  let lookup := GetEndpoint vs_endpoint_name in
  let create := CreateEndpoint vs_endpoint_name "STANDARD" in
  create_vs_endpoint w t
  = match Setup.vector_search w t lookup with
    | Ok _ => (Ok tt, t ++ [lookup])
    | Raise _ =>
        (Setup.vector_search w (t ++ [lookup]) create, t ++ [lookup; create])
    end.
Proof.
  intros lookup create. unfold create_vs_endpoint. unfold_setup.
  fold lookup. fold create.
  destruct (Setup.vector_search w t lookup); [reflexivity|].
  simpl. now rewrite <- List.app_assoc.
Qed.

Lemma create_vs_index_stages (w : world) (cfg : config) (t : trace) :
  let lookup := GetIndex (index_name cfg) vs_endpoint_name in
  let create :=
    CreateDeltaSyncIndex vs_endpoint_name
      (catalog cfg ++ "." ++ schema cfg ++ ".products") "id" "text"
      (index_name cfg) "TRIGGERED" (embedding_model_name cfg) in
  create_vs_index w cfg t
  = match Setup.vector_search w t lookup with
    | Ok _ => (Ok tt, t ++ [lookup])
    | Raise _ =>
        (Setup.vector_search w (t ++ [lookup]) create, t ++ [lookup; create])
    end.
Proof.
  intros lookup create. unfold create_vs_index. unfold_setup.
  fold lookup. fold create.
  destruct (Setup.vector_search w t lookup); [reflexivity|].
  simpl. now rewrite <- List.app_assoc.
Qed.

(** X14.  The bare [except:] clauses take every exception of a lookup for
    absence.  Dropping the index never raises.  The two creation cells call
    [create_endpoint] and [create_delta_sync_index] exactly when the lookup
    raised, whatever it raised, and never when it returned; the only exception
    that leaves such a cell is one of the creation itself. *)
Theorem lookup_errors_are_taken_as_absence (w : world) (cfg : config)
  (t : trace) :
  let find_endpoint := GetEndpoint vs_endpoint_name in
  let create_endpoint := CreateEndpoint vs_endpoint_name "STANDARD" in
  let find_index := GetIndex (index_name cfg) vs_endpoint_name in
  let create_index :=
    CreateDeltaSyncIndex vs_endpoint_name
      (catalog cfg ++ "." ++ schema cfg ++ ".products") "id" "text"
      (index_name cfg) "TRIGGERED" (embedding_model_name cfg) in
  drop_index w cfg t = (Ok tt, t ++ [DeleteIndex (index_name cfg)])
  /\ (forall found,
        Setup.vector_search w t find_endpoint = Ok found ->
        create_vs_endpoint w t = (Ok tt, t ++ [find_endpoint]))
  /\ (forall e,
        Setup.vector_search w t find_endpoint = Raise e ->
        create_vs_endpoint w t
        = (Setup.vector_search w (t ++ [find_endpoint]) create_endpoint,
           t ++ [find_endpoint; create_endpoint]))
  /\ (forall found,
        Setup.vector_search w t find_index = Ok found ->
        create_vs_index w cfg t = (Ok tt, t ++ [find_index]))
  /\ (forall e,
        Setup.vector_search w t find_index = Raise e ->
        create_vs_index w cfg t
        = (Setup.vector_search w (t ++ [find_index]) create_index,
           t ++ [find_index; create_index]))
  /\ (forall e,
        fst (create_vs_endpoint w t) = Raise e ->
        Setup.vector_search w (t ++ [find_endpoint]) create_endpoint = Raise e)
  /\ (forall e,
        fst (create_vs_index w cfg t) = Raise e ->
        Setup.vector_search w (t ++ [find_index]) create_index = Raise e).
Proof.
  intros find_endpoint create_endpoint find_index create_index.
  pose proof (create_vs_endpoint_stages w t) as He.
  pose proof (create_vs_index_stages w cfg t) as Hi.
  cbv zeta in He, Hi.
  fold find_endpoint in He. fold create_endpoint in He.
  fold find_index in Hi. fold create_index in Hi.
  split.
  { unfold drop_index. unfold_setup.
    now destruct (Setup.vector_search w t (DeleteIndex (index_name cfg)))
      as [[]|e]. }
  repeat split.
  - intros found H. now rewrite He, H.
  - intros e H. now rewrite He, H.
  - intros found H. now rewrite Hi, H.
  - intros e H. now rewrite Hi, H.
  - intros e. rewrite He.
    now destruct (Setup.vector_search w t find_endpoint).
  - intros e. rewrite Hi.
    now destruct (Setup.vector_search w t find_index).
Qed.

(** The service of the scenario holds what was found or created in it, as
    long as nothing is deleted. *)
Lemma workspace_keeps_endpoints (name endpoint_type : string)
  (t0 more : trace) (ev : event) :
  ev = GetEndpoint name \/ ev = CreateEndpoint name endpoint_type ->
  Workspace.vector_search t0 ev = Ok tt ->
  Workspace.vector_search (t0 ++ ev :: more) (GetEndpoint name) = Ok tt.
Proof.
  intros Hev Hok. simpl. rewrite existsb_app.
  destruct Hev as [-> | ->]; simpl in *.
  - destruct (existsb (Workspace.creates_endpoint name) t0);
      [reflexivity | discriminate].
  - rewrite String.eqb_refl. simpl. now rewrite orb_true_r.
Qed.

Lemma index_stays (index_name : string) (more : trace) :
  existsb Shape.is_delete more = false ->
  fold_left (Workspace.index_after index_name) more true = true.
Proof.
  induction more as [|ev more IH]; [reflexivity|].
  simpl. intros H. apply orb_false_iff in H. destruct H as [Hev Hmore].
  destruct ev; simpl in *; try discriminate; auto.
  now rewrite orb_true_r; auto.
Qed.

Lemma workspace_keeps_indexes (index_name endpoint_name : string)
  (a b c d e f : string) (t0 more : trace) (ev : event) :
  ev = GetIndex index_name endpoint_name
  \/ ev = CreateDeltaSyncIndex a b c d index_name e f ->
  Workspace.vector_search t0 ev = Ok tt ->
  existsb Shape.is_delete more = false ->
  Workspace.vector_search (t0 ++ ev :: more) (GetIndex index_name endpoint_name)
  = Ok tt.
Proof.
  intros Hev Hok Hmore. simpl. unfold Workspace.has_index.
  rewrite fold_left_app. simpl.
  replace (Workspace.index_after index_name
             (fold_left (Workspace.index_after index_name) t0 false) ev)
    with true.
  - now rewrite index_stays.
  - destruct Hev as [-> | ->]; simpl in *.
    + unfold Workspace.has_index in Hok.
      now destruct (fold_left (Workspace.index_after index_name) t0 false).
    + now rewrite String.eqb_refl.
Qed.

(** X15.  The two creation cells can be run again.  Against a service that
    still finds what it has found or created, as long as nothing was deleted in
    between, a second run after one that returned makes the two lookups and
    nothing else: it creates nothing and raises nothing. *)
Theorem creation_cells_can_be_run_again (w : world) (cfg : config)
  (t t1 : trace) :
  let find_endpoint := GetEndpoint vs_endpoint_name in
  let create_endpoint := CreateEndpoint vs_endpoint_name "STANDARD" in
  let find_index := GetIndex (index_name cfg) vs_endpoint_name in
  let create_index :=
    CreateDeltaSyncIndex vs_endpoint_name
      (catalog cfg ++ "." ++ schema cfg ++ ".products") "id" "text"
      (index_name cfg) "TRIGGERED" (embedding_model_name cfg) in
  (forall t0 ev more,
     ev = find_endpoint \/ ev = create_endpoint ->
     Setup.vector_search w t0 ev = Ok tt ->
     existsb Shape.is_delete more = false ->
     Setup.vector_search w (t0 ++ ev :: more) find_endpoint = Ok tt) ->
  (forall t0 ev more,
     ev = find_index \/ ev = create_index ->
     Setup.vector_search w t0 ev = Ok tt ->
     existsb Shape.is_delete more = false ->
     Setup.vector_search w (t0 ++ ev :: more) find_index = Ok tt) ->
  create_vs_endpoint_and_index w cfg t = (Ok tt, t1) ->
  create_vs_endpoint_and_index w cfg t1
  = (Ok tt, t1 ++ [find_endpoint; find_index]).
Proof.
  intros find_endpoint create_endpoint find_index create_index
    Hendpoints Hindexes Hfirst.
  assert (Hshape :
    exists t0 ev t0' ev' more,
      (ev = find_endpoint \/ ev = create_endpoint)
      /\ Setup.vector_search w t0 ev = Ok tt
      /\ (ev' = find_index \/ ev' = create_index)
      /\ Setup.vector_search w t0' ev' = Ok tt
      /\ t1 = t0 ++ ev :: more
      /\ existsb Shape.is_delete more = false
      /\ t1 = t0' ++ [ev']).
  { unfold create_vs_endpoint_and_index in Hfirst.
    unfold Setup.bind at 1 in Hfirst.
    pose proof (create_vs_endpoint_stages w t) as He. cbv zeta in He.
    fold find_endpoint in He. fold create_endpoint in He.
    rewrite He in Hfirst. clear He.
    assert (Hafter :
      forall te ev t0,
        (ev = find_endpoint \/ ev = create_endpoint) ->
        Setup.vector_search w t0 ev = Ok tt ->
        te = t0 ++ [ev] ->
        create_vs_index w cfg te = (Ok tt, t1) ->
        exists t0 ev t0' ev' more,
          (ev = find_endpoint \/ ev = create_endpoint)
          /\ Setup.vector_search w t0 ev = Ok tt
          /\ (ev' = find_index \/ ev' = create_index)
          /\ Setup.vector_search w t0' ev' = Ok tt
          /\ t1 = t0 ++ ev :: more
          /\ existsb Shape.is_delete more = false
          /\ t1 = t0' ++ [ev']).
    { intros te ev t0 Hev Hok -> Hrun.
      pose proof (create_vs_index_stages w cfg (t0 ++ [ev])) as Hi.
      cbv zeta in Hi. fold find_index in Hi. fold create_index in Hi.
      rewrite Hi in Hrun. clear Hi.
      destruct (Setup.vector_search w (t0 ++ [ev]) find_index)
        as [[]|e] eqn:Hfind.
      - injection Hrun as <-.
        exists t0, ev, (t0 ++ [ev]), find_index, [find_index].
        repeat split; auto. now rewrite <- List.app_assoc.
      - destruct (Setup.vector_search w ((t0 ++ [ev]) ++ [find_index])
                    create_index) as [[]|e'] eqn:Hcreate; [|discriminate].
        injection Hrun as <-.
        exists t0, ev, ((t0 ++ [ev]) ++ [find_index]), create_index,
          [find_index; create_index].
        repeat split; auto; now rewrite <- !List.app_assoc. }
    destruct (Setup.vector_search w t find_endpoint) as [[]|e] eqn:Hfind.
    - apply (Hafter (t ++ [find_endpoint]) find_endpoint t); auto.
    - destruct (Setup.vector_search w (t ++ [find_endpoint]) create_endpoint)
        as [[]|e'] eqn:Hcreate; [|discriminate].
      apply (Hafter (t ++ [find_endpoint; create_endpoint]) create_endpoint
               (t ++ [find_endpoint])); auto.
      now rewrite <- List.app_assoc. }
  destruct Hshape
    as (t0 & ev & t0' & ev' & more & Hev & Hok & Hev' & Hok' & Ht1 & Hmore
        & Ht1').
  unfold create_vs_endpoint_and_index. unfold Setup.bind at 1.
  pose proof (create_vs_endpoint_stages w t1) as He. cbv zeta in He.
  fold find_endpoint in He. rewrite He. clear He.
  assert (H1 : Setup.vector_search w t1 find_endpoint = Ok tt)
    by (rewrite Ht1; now apply Hendpoints).
  rewrite H1.
  pose proof (create_vs_index_stages w cfg (t1 ++ [find_endpoint])) as Hi.
  cbv zeta in Hi. fold find_index in Hi. rewrite Hi. clear Hi.
  assert (H2 : Setup.vector_search w (t1 ++ [find_endpoint]) find_index
               = Ok tt).
  { rewrite Ht1', <- List.app_assoc. simpl. now apply Hindexes. }
  rewrite H2. now rewrite <- List.app_assoc.
Qed.

Lemma creation_cells_can_be_run_again_witness :
  let w := Workspace.workspace 200 in
  let t1 :=
    [GetEndpoint vs_endpoint_name;
     CreateEndpoint vs_endpoint_name "STANDARD";
     GetIndex "rodrigo_catalog.llm_recommender.product_index" vs_endpoint_name;
     CreateDeltaSyncIndex vs_endpoint_name
       "rodrigo_catalog.llm_recommender.products" "id" "text"
       "rodrigo_catalog.llm_recommender.product_index" "TRIGGERED"
       "llm_recommender_embeddings"] in
  create_vs_endpoint_and_index w notebook_config t1
  = (Ok tt,
     t1 ++ [GetEndpoint vs_endpoint_name;
            GetIndex (index_name notebook_config) vs_endpoint_name]).
Proof.
  intros w t1.
  apply (creation_cells_can_be_run_again w notebook_config [] t1).
  - intros t0 ev more Hev Hok _.
    now apply (workspace_keeps_endpoints vs_endpoint_name "STANDARD").
  - intros t0 ev more Hev Hok Hmore.
    now apply (workspace_keeps_indexes (index_name notebook_config)
                 vs_endpoint_name vs_endpoint_name
                 "rodrigo_catalog.llm_recommender.products" "id" "text"
                 "TRIGGERED" "llm_recommender_embeddings").
  - vm_compute. reflexivity.
Defined.

(** *** What is set up and what is searched *)

(** X17.  With the values of [00_Intro_and_Config.py], the index that the cell
    "Create Vector Search Index" looks up and creates, and the endpoint it
    creates it on, are the ones the notebook's [get_specific_products] looks up
    and searches, and the index embeds with the serving endpoint that the
    deployment names.  The two creation cells call the service for that
    endpoint and that index only, while [app.py]'s [get_specific_products], as
    listed, looks up an index of another name on another endpoint. *)
Theorem notebook_searches_the_index_that_was_set_up :
  let index := index_name notebook_config in
  let find_endpoint := GetEndpoint vs_endpoint_name in
  let create_endpoint := CreateEndpoint vs_endpoint_name "STANDARD" in
  let find_index := GetIndex index vs_endpoint_name in
  let create_index :=
    CreateDeltaSyncIndex vs_endpoint_name
      "rodrigo_catalog.llm_recommender.products" "id" "text" index "TRIGGERED"
      "llm_recommender_embeddings" in
  (forall w t,
     exists evs,
       snd (create_vs_endpoint_and_index w notebook_config t) = t ++ evs
       /\ incl evs [find_endpoint; create_endpoint; find_index; create_index])
  /\ (forall w t e,
        Setup.vector_search w t find_index = Raise e ->
        snd (create_vs_index w notebook_config t)
        = t ++ [find_index; create_index])
  /\ (forall model_version,
        getitem_str (endpoint_config notebook_config model_version) "name"
        = Ok (PyStr "llm_recommender_embeddings"))
  /\ (forall sv vs_client general_items num_items t,
        exists evs,
          snd (Notebook.get_specific_products sv vs_client general_items
                 num_items t)
          = t ++ Services.GetIndex vs_client index vs_endpoint_name :: evs
          /\ Forall (fun ev =>
                       match ev with
                       | Services.SimilaritySearch index_name _ _ _ =>
                           index_name = index
                       | _ => False
                       end) evs)
  /\ (forall sv vs_client general_items num_items t,
        exists index' endpoint' evs,
          snd (App.get_specific_products sv vs_client general_items
                 num_items t)
          = t ++ Services.GetIndex vs_client index' endpoint' :: evs
          /\ index' <> index
          /\ endpoint' <> vs_endpoint_name).
Proof.
  intros index find_endpoint create_endpoint find_index create_index.
  split; [|split; [|split; [|split]]].
  - intros w t. unfold create_vs_endpoint_and_index.
    unfold Setup.bind at 1.
    pose proof (create_vs_endpoint_stages w t) as He. cbv zeta in He.
    fold find_endpoint in He. fold create_endpoint in He. rewrite He.
    assert (Hindex :
      forall u, exists evs,
        snd (create_vs_index w notebook_config u) = u ++ evs
        /\ incl evs [find_endpoint; create_endpoint; find_index; create_index]).
    { intros u.
      pose proof (create_vs_index_stages w notebook_config u) as Hi.
      cbv zeta in Hi. fold index in Hi. fold find_index in Hi.
      rewrite Hi.
      destruct (Setup.vector_search w u find_index).
      - exists [find_index]. split; [reflexivity|].
        intros ev [<- | []]. simpl. tauto.
      - exists [find_index; create_index]. split; [reflexivity|].
        intros ev [<- | [<- | []]]; simpl; tauto. }
    destruct (Setup.vector_search w t find_endpoint) as [found|e].
    + destruct (Hindex (t ++ [find_endpoint])) as (evs & Hrun & Hincl).
      exists (find_endpoint :: evs). rewrite Hrun, <- List.app_assoc.
      split; [reflexivity|].
      intros ev [<- | Hin]; [simpl; tauto | now apply Hincl].
    + destruct (Setup.vector_search w (t ++ [find_endpoint]) create_endpoint)
        as [created|e'].
      * destruct (Hindex (t ++ [find_endpoint; create_endpoint]))
          as (evs & Hrun & Hincl).
        exists (find_endpoint :: create_endpoint :: evs).
        rewrite Hrun, <- List.app_assoc. split; [reflexivity|].
        intros ev [<- | [<- | Hin]]; [simpl; tauto | simpl; tauto |].
        now apply Hincl.
      * exists [find_endpoint; create_endpoint]. split; [reflexivity|].
        intros ev [<- | [<- | []]]; simpl; tauto.
  - intros w t e Hlookup.
    pose proof (create_vs_index_stages w notebook_config t) as Hrun.
    cbv zeta in Hrun. fold index in Hrun. fold find_index in Hrun.
    rewrite Hlookup in Hrun. now rewrite Hrun.
  - reflexivity.
  - intros sv vs_client general_items num_items t.
    unfold Notebook.get_specific_products.
    rewrite RequestFacts.specific_products_stages.
    destruct (Services.get_index sv vs_client Notebook.index_name
                "one-env-shared-endpoint-2") as [idx|e].
    + eexists. split; [reflexivity|]. repeat constructor.
    + exists []. split; [reflexivity | constructor].
  - intros sv vs_client general_items num_items t.
    exists "solacc_uc.llm_recommender.product_index"%string,
      "vs_llm_recommender_embeddings"%string.
    unfold App.get_specific_products.
    rewrite RequestFacts.specific_products_stages.
    destruct (Services.get_index sv vs_client _ _) as [idx|e].
    + eexists. split; [reflexivity|]. split; discriminate.
    + exists []. split; [reflexivity|]. split; discriminate.
Qed.

End SetupFacts.

(** ** How long the two waits of [01_Prepare_Product_Search_Data.py] last *)

Module WaitFacts.
Import Py Provisioning.
Local Open Scope Z_scope.





End WaitFacts.
